(** * Bitly MCP server: configuration and session management

    A shallow embedding of [index.ts] (the tool gateway) and of the bundled
    [mock-bitly-sdk.ts], with the properties of the configuration decoder,
    the provider registry, the session factory [createSDK] and the tool
    handlers.

    Layout:
    - [JS]: the JavaScript values the program manipulates (JSON data,
      truthiness, string conversion, thrown values);
    - [Host]: the interfaces of the runtime and of the libraries the program
      calls ([URL], [Buffer], [JSON], ethers, the exchange client, the RPC
      network), as type classes;
    - [Server]: the program itself, in a state-and-exception monad over the
      module-level variables [globalConfig] and [PROVIDERS] and the provider
      objects they refer to. [Server.run] runs tool invocations one after
      the other; invocations that overlap are in [Async];
    - [NodeModel]: an executable instance of the runtime interface, used to
      run the program on concrete URLs;
    - [Design]: the error kinds and the decoder of the design document, and
      the vocabulary of the statements;
    - [Examples]: concrete sources, networks and exchange clients;
    - [Effects]: relations between the states before and after a step;
    - [Catalogue]: the tool table as data (the network id and the delegate
      operation of each tool), and two more exchange clients;
    - [Mock]: the methods of [mock-bitly-sdk.ts], over the values
      [Math.random] and [Date.now] return, and the own properties of the
      objects they build;
    - [Async]: the handlers as [async] functions, cut at their [await]s,
      and the server with invocations that overlap;
    - the theorems: the program logic, the facts about each function, the
      statements for every platform and world, and their instances on the
      concrete inputs; then further properties of the handlers, the session
      factory, the configuration and the mock client, and the properties of
      the fee override and of the registry under overlapping
      invocations. *)

From Stdlib Require Import ZArith NArith Lia Bool Ascii.
From stdpp Require Import base option list strings gmap fin_maps pretty.

Set Warnings "-register-all".
Local Open Scope string_scope.
Local Open Scope list_scope.
Local Open Scope Z_scope.

(* ===================================================================== *)
(** * JavaScript values *)
(* ===================================================================== *)

Module JS.

(** A JSON number as [JSON.parse] reads it: the decimal numeral
    [(-1)^neg * mant * 10^exp10]. The Number it denotes is the nearest
    double. *)
Record JSNumber := mkNum { num_neg : bool; num_mant : N; num_exp10 : Z }.

(** The numeral rounds to [+0] or [-0]: either its mantissa is zero, or its
    magnitude is at most [2^-1075], half of the least subnormal double
    (a tie rounds to the even neighbour, which is zero). *)
Definition number_is_zero (n : JSNumber) : bool :=
  (N.eqb (num_mant n) 0)
  || ((num_exp10 n <? 0)
      && (Z.of_N (num_mant n) * 2 ^ 1075 <=? 10 ^ (- num_exp10 n))).

Definition num_of_Z (z : Z) : JSNumber :=
  mkNum (z <? 0) (Z.abs_N z) 0.

(** The values [JSON.parse] produces. An object keeps its members in source
    order, duplicates included; a read takes the last one. *)
Inductive JSValue :=
| JNull
| JBool (b : bool)
| JNumber (n : JSNumber)
| JString (s : string)
| JArray (xs : list JSValue)
| JObject (members : list (string * JSValue)).

(** What a [throw] carries. [ThrowError] covers [Error] and its subclasses
    ([TypeError], [SyntaxError]): the values for which
    [error instanceof Error] holds. [ThrowResponse] is the [ServerResponse]
    object [createSDK] throws. [ThrowOther] is any other thrown value. *)
Inductive Thrown :=
| ThrowError (message : string)
| ThrowResponse (statusCode : Z) (statusMessage : string)
| ThrowOther (description : string).

Inductive Completion (A : Type) :=
| Normal (a : A)
| Throw (t : Thrown).
Arguments Normal {A} a.
Arguments Throw {A} t.

(** [obj[key]] on an object literal or a [JSON.parse] object: the last member
    named [key], [undefined] ([None]) when there is none. *)
Fixpoint member (key : string) (members : list (string * JSValue))
  : option JSValue :=
  match members with
  | [] => None
  | (k, v) :: rest =>
      match member key rest with
      | Some w => Some w
      | None => if String.eqb k key then Some v else None
      end
  end.

(** [v.WALLET_PRIVATE_KEY], [v.INFURA_API_KEY]: a property read with a name
    that no prototype defines. On [null] it throws a [TypeError]; on a
    primitive or an array it is [undefined]. *)
Definition get_property (v : JSValue) (key : string)
  : Completion (option JSValue) :=
  match v with
  | JNull =>
      Throw (ThrowError ("Cannot read properties of null (reading '"
                           +:+ key +:+ "')"))
  | JObject ms => Normal (member key ms)
  | _ => Normal None
  end.

(** ToBoolean, on a value or [undefined]. *)
Definition truthy (v : option JSValue) : bool :=
  match v with
  | None => false
  | Some JNull => false
  | Some (JBool b) => b
  | Some (JNumber n) => negb (number_is_zero n)
  | Some (JString s) => negb (String.eqb s EmptyString)
  | Some (JArray _) => true
  | Some (JObject _) => true
  end.

Definition has_member (key : string) (ms : list (string * JSValue)) : bool :=
  existsb (fun kv => String.eqb (fst kv) key) ms.

Fixpoint join (sep : string) (parts : list string) : string :=
  match parts with
  | [] => EmptyString
  | [p] => p
  | p :: rest => p +:+ sep +:+ join sep rest
  end.

Section ToString.
(** Number::toString, a host function. *)
Variable Number_toString : JSNumber -> string.

(** ToString, as a template literal applies it to a [JSON.parse] value,
    with room on the call stack for [room] nested calls of
    [Array.prototype.join]. An array is joined with commas, its elements
    converted in order, [null] elements giving the empty string; each level
    of nesting is one more call of [join], and an array met when no room is
    left throws a [RangeError]. An object goes through
    OrdinaryToPrimitive: an own member named [toString] is never callable
    and hides [Object.prototype.toString]; [valueOf] then yields the object
    itself (or is hidden too), and the conversion throws a [TypeError]. *)
Fixpoint ToString (room : N) (v : JSValue) : Completion string :=
  match v with
  | JNull => Normal "null"
  | JBool true => Normal "true"
  | JBool false => Normal "false"
  | JNumber n => Normal (Number_toString n)
  | JString s => Normal s
  | JArray xs =>
      if N.eqb room 0%N then
        Throw (ThrowError "Maximum call stack size exceeded")
      else
        match
          (fix elements (xs : list JSValue) : Completion (list string) :=
             match xs with
             | [] => Normal []
             | x :: rest =>
                 match (match x with
                        | JNull => Normal EmptyString
                        | _ => ToString (N.pred room) x
                        end) with
                 | Throw t => Throw t
                 | Normal s =>
                     match elements rest with
                     | Throw t => Throw t
                     | Normal ss => Normal (s :: ss)
                     end
                 end
             end) xs
        with
        | Throw t => Throw t
        | Normal parts => Normal (join "," parts)
        end
  | JObject ms =>
      if has_member "toString" ms then
        Throw (ThrowError "Cannot convert object to primitive value")
      else Normal "[object Object]"
  end.

Definition template_ToString (room : N) (v : option JSValue)
  : Completion string :=
  match v with
  | None => Normal "undefined"
  | Some w => ToString room w
  end.
End ToString.

(** How deep the arrays of a value nest, objects not looked into: the
    number of nested calls of [join] its conversion makes. *)
Fixpoint array_depth (v : JSValue) : N :=
  match v with
  | JArray xs =>
      (1 + (fix deepest (xs : list JSValue) : N :=
              match xs with
              | [] => 0
              | x :: rest => N.max (array_depth x) (deepest rest)
              end) xs)%N
  | _ => 0%N
  end.

(** [n + 1] arrays, one in the other: [[]], [[[]]], ... *)
Fixpoint nested (n : nat) : JSValue :=
  match n with
  | O => JArray []
  | S k => JArray [nested k]
  end.

(** The value is an object with a member named [toString], or an array
    that holds such a value. *)
Fixpoint hides_toString (v : JSValue) : bool :=
  match v with
  | JObject ms => has_member "toString" ms
  | JArray xs =>
      (fix any (xs : list JSValue) : bool :=
         match xs with
         | [] => false
         | x :: rest => hides_toString x || any rest
         end) xs
  | _ => false
  end.

End JS.
Export JS.

(* ===================================================================== *)
(** * Host interfaces *)
(* ===================================================================== *)

Module Host.

(** A reference to a provider object on the heap. *)
Abbreviation handle := nat (only parsing).

(** [new URL(s)]: the parsed query, as the name-value list behind
    [url.searchParams]. *)
Record URL := mkURL { searchParams : list (string * string) }.

(** [URLSearchParams.prototype.get]: the value of the first pair with that
    name, [null] when there is none. *)
Fixpoint searchParams_get (params : list (string * string)) (name : string)
  : option string :=
  match params with
  | [] => None
  | (k, v) :: rest =>
      if String.eqb k name then Some v else searchParams_get rest name
  end.

(** What [provider.getFeeData()] resolves to (ethers v5 [FeeData]); a
    [null] field is [None], amounts are in wei. *)
Record FeeData := mkFeeData {
  lastBaseFeePerGas : option Z;
  maxFeePerGas : option Z;
  maxPriorityFeePerGas : option Z;
  gasPrice : option Z
}.

(** The [getFeeData] property of a provider object: the method of
    [JsonRpcProvider.prototype], which asks the network, or the closure
    [createSDK] assigns, which captured [feeData.gasPrice]. *)
Inductive FeeAccessor :=
| FeeFromNetwork
| FeeForced (captured_gasPrice : option Z).

(** A [providers.JsonRpcProvider] object. *)
Record JsonRpcProvider := mkProvider {
  connection_url : string;
  network_chainId : Z;
  getFeeData : FeeAccessor
}.

(** An ethers [Wallet] bound to a provider. *)
Record Wallet := mkWallet {
  wallet_privateKey : string;
  wallet_provider : option handle
}.

Inductive OrderDirection := BUY | SELL.
Inductive KlineResolution := Res60 | Res240 | Res1D.

(** The delegate operations of the exchange client, one per tool. *)
Inductive SdkCall :=
| balancesInBank (tokenAddresses : list string)
| getMarketsInfo (pairIds : list string)
| getTokensInfo (tokensAddress : list string)
| getVolumes (pairIds : list string) (relativeTimeInSec : JSNumber)
| getOrderbook (pairId : string) (low high : JSNumber)
| getLimitOrders (pairIds : list string)
| placeLimitOrder (pairId : string) (direction : OrderDirection)
    (price volume : JSNumber)
| placeMarketOrder (pairId : string) (direction : OrderDirection)
    (volume curPrice slippage : JSNumber)
| cancelLimitOrder (pairId : string) (direction : OrderDirection)
    (point : JSNumber)
| cancelAllLimitOrder (pairId : string)
| claimEarning (pairId : string) (direction : OrderDirection)
    (point : JSNumber)
| claimAllEarnings (pairId : string)
| getFinishedOrders (pairIds : list string)
    (relativeFromInSec relativeToInSec : JSNumber)
| getMarketOrderHistory (pairIds : list string)
    (relativeFromInSec relativeToInSec : JSNumber)
| getPrices (pairIds : list string) (relativeTimeInSec : JSNumber)
| getKlines (pairIds : list string) (resolution : KlineResolution)
    (relativeFromInSec relativeToInSec : JSNumber).

(** The fields of a [BitlySDK] object ([networkId], [provider], [signer]). *)
Record BitlySDK := mkSDK {
  sdk_networkId : Z;
  sdk_provider : option handle;
  sdk_signer : option Wallet
}.

(** What the program does to the outside, in order: fee queries sent to the
    network, calls on the exchange client, timers. [EvSetTimeout ms] is the
    global [setTimeout(callback, ms)]: it registers the callback and returns
    a [Timeout] object at once. *)
Inductive Event :=
| EvGetFeeData (provider : handle)
| EvNewSDK (networkId : Z) (provider : handle)
| EvSetSigner (signer : Wallet)
| EvSetProvider (provider : option handle)
| EvCall (call : SdkCall)
| EvUpdateKline (pairId : string)
| EvSetTimeout (ms : Z).

(** The runtime and the libraries: deterministic functions of their
    arguments. A constructor or function that can throw returns a
    [Completion]. *)
Class Platform := {
  (** [new URL(url)] *)
  new_URL : string -> Completion URL;
  (** [Buffer.from(s, 'base64').toString('utf-8')] *)
  Buffer_from_base64_toString_utf8 : string -> string;
  (** [JSON.parse(text)] *)
  JSON_parse : string -> Completion JSValue;
  (** [JSON.stringify(value)] *)
  JSON_stringify : JSValue -> string;
  (** Number::toString *)
  Number_toString : JSNumber -> string;
  (** the number of nested calls of [Array.prototype.join] the call stack
      has room for where [createProviders] evaluates its template
      literals *)
  join_depth : N;
  (** [new Wallet(privateKey, provider)] *)
  new_Wallet : option JSValue -> option handle -> Completion Wallet
}.

(** The outside world: the RPC network and the exchange client. Each answer
    may depend on everything that happened before (the events so far). *)
Class World := {
  (** the answer of the network to [eth_gasPrice] and the block query behind
      [JsonRpcProvider.prototype.getFeeData] *)
  rpc_getFeeData : list Event -> JsonRpcProvider -> Completion FeeData;
  (** [sdk.setSigner(signer)] *)
  sdk_setSigner : list Event -> BitlySDK -> Wallet -> Completion unit;
  (** [sdk.setProvider(provider)] *)
  sdk_setProvider : list Event -> BitlySDK -> option handle -> Completion unit;
  (** [sdk.wallet.*], [sdk.exchange.*], [sdk.prices.get*] *)
  sdk_delegate : list Event -> BitlySDK -> SdkCall -> Completion JSValue;
  (** [sdk.prices.updateKline(pairId)] *)
  sdk_updateKline : list Event -> BitlySDK -> string -> Completion unit
}.

(** [MockBitlySDK] of [mock-bitly-sdk.ts]: [setSigner], [setProvider] and
    [updateKline] resolve; every delegate resolves to data drawn with
    [Math.random] and [Date.now], taken here as a function [draw] of the
    history and the call. The network is not part of the mock. *)
Definition MockBitlySDK
    (network : list Event -> JsonRpcProvider -> Completion FeeData)
    (draw : list Event -> BitlySDK -> SdkCall -> JSValue) : World :=
  {| rpc_getFeeData := network;
     sdk_setSigner := fun _ _ _ => Normal tt;
     sdk_setProvider := fun _ _ _ => Normal tt;
     sdk_delegate := fun history sdk call => Normal (draw history sdk call);
     sdk_updateKline := fun _ _ _ => Normal tt |}.

End Host.
Export Host.

(* ===================================================================== *)
(** * The server program ([index.ts]) *)
(* ===================================================================== *)

Module Server.

(** [interface Config]. A field holds whatever [JSON.parse] put there (the
    cast [as Config] checks nothing); [None] is [undefined]. *)
Record Config := mkConfig {
  WALLET_PRIVATE_KEY : option JSValue;
  INFURA_API_KEY : option JSValue
}.

(** The second argument of a [console.error] call: a text, or the caught
    value. *)
Inductive ConsoleArg :=
| ArgText (text : string)
| ArgThrown (error : Thrown).

Inductive ConsoleLine :=
| console_log (text : string)
| console_error (text : string) (arg : ConsoleArg).

(** The module-level variables [globalConfig] and [PROVIDERS], the provider
    objects they refer to, and what the process has written and done. *)
Record State := mkState {
  globalConfig : Config;
  PROVIDERS : gmap Z handle;
  heap : list JsonRpcProvider;
  console : list ConsoleLine;
  trace : list Event
}.

Definition set_globalConfig (c : Config) (st : State) : State :=
  mkState c (PROVIDERS st) (heap st) (console st) (trace st).
Definition set_PROVIDERS (p : gmap Z handle) (st : State) : State :=
  mkState (globalConfig st) p (heap st) (console st) (trace st).
Definition set_heap (h : list JsonRpcProvider) (st : State) : State :=
  mkState (globalConfig st) (PROVIDERS st) h (console st) (trace st).
Definition add_console (l : ConsoleLine) (st : State) : State :=
  mkState (globalConfig st) (PROVIDERS st) (heap st) (console st ++ [l])
    (trace st).
Definition add_event (e : Event) (st : State) : State :=
  mkState (globalConfig st) (PROVIDERS st) (heap st) (console st)
    (trace st ++ [e]).

(** ** State and exceptions *)

Definition M (A : Type) : Type := State -> Completion A * State.

Definition ret {A} (a : A) : M A := fun st => (Normal a, st).
Definition throw {A} (t : Thrown) : M A := fun st => (Throw t, st).
Definition bind {A B} (m : M A) (k : A -> M B) : M B :=
  fun st =>
    match m st with
    | (Normal a, st') => k a st'
    | (Throw t, st') => (Throw t, st')
    end.
(** [try { body } catch (error) { handler }] *)
Definition try_catch {A} (body : M A) (handler : Thrown -> M A) : M A :=
  fun st =>
    match body st with
    | (Normal a, st') => (Normal a, st')
    | (Throw t, st') => handler t st'
    end.
Definition lift {A} (c : Completion A) : M A := fun st => (c, st).
Definition get : M State := fun st => (Normal st, st).
Definition modify (f : State -> State) : M unit := fun st => (Normal tt, f st).

Declare Scope js_scope.
Delimit Scope js_scope with js.
Notation "'let*' x := c 'in' k" := (bind c (fun x => k))
  (at level 10, x name, c at level 100, k at level 200) : js_scope.
Notation "c ;; k" := (bind c (fun _ => k))
  (at level 100, k at level 200, right associativity) : js_scope.
Local Open Scope js_scope.

(** ** Constants *)

(** the server before the module body runs its start-up code *)
Definition initial_state : State :=
  mkState (mkConfig None None) ∅ [] [] [].

Definition DEFAULT_NETWORK_ID : Z := 84532.
Definition DEFAULT_BLOCK_TIME : Z := 2000.

Definition BLOCK_TIME : gmap Z Z :=
  <[690 := 2000]> (<[137 := 2000]> (<[8453 := 2000]> (<[84532 := 2000]> ∅))).

(** [error instanceof Error ? error.message : fallback] *)
Definition error_message_or (fallback : string) (error : Thrown) : string :=
  match error with
  | ThrowError message => message
  | _ => fallback
  end.

Section Program.
Context {platform : Platform} {world : World}.

(** ** Config decoder *)

Definition parseConfigFromURL (url : string) : M (option Config) :=
  try_catch
    (let* urlObj := lift (new_URL url) in
     match searchParams_get (searchParams urlObj) "config" with
     | None => ret None
     | Some configParam =>
         if String.eqb configParam EmptyString then ret None else
         let decodedConfig := Buffer_from_base64_toString_utf8 configParam in
         let* config := lift (JSON_parse decodedConfig) in
         let* wallet_key := lift (get_property config "WALLET_PRIVATE_KEY") in
         if negb (truthy wallet_key) then
           throw (ThrowError
             "Missing required config fields: WALLET_PRIVATE_KEY, INFURA_API_KEY")
         else
         let* api_key := lift (get_property config "INFURA_API_KEY") in
         if negb (truthy api_key) then
           throw (ThrowError
             "Missing required config fields: WALLET_PRIVATE_KEY, INFURA_API_KEY")
         else ret (Some (mkConfig wallet_key api_key))
     end)
    (fun error =>
       modify (add_console
         (console_error "Failed to parse config from URL:" (ArgThrown error)));;
       ret None).

(** ** Provider registry *)

(** [new providers.JsonRpcProvider(url, chainId)]: a fresh object, whose
    [getFeeData] is the prototype's. The constructor opens no connection. *)
Definition new_JsonRpcProvider (url : string) (chainId : Z) : M handle :=
  fun st =>
    (Normal (length (heap st)),
     set_heap (heap st ++ [mkProvider url chainId FeeFromNetwork]) st).

Definition createProviders (config : Config) : M (gmap Z handle) :=
  if negb (truthy (INFURA_API_KEY config)) then
    throw (ThrowError "INFURA_API_KEY is required in config")
  else
    let* key1 := lift (template_ToString Number_toString join_depth
                       (INFURA_API_KEY config)) in
    let* p1 := new_JsonRpcProvider
                 ("https://base-sepolia.infura.io/v3/" +:+ key1)
                 DEFAULT_NETWORK_ID in
    let* key2 := lift (template_ToString Number_toString join_depth
                       (INFURA_API_KEY config)) in
    let* p2 := new_JsonRpcProvider
                 ("https://base-mainnet.infura.io/v3/" +:+ key2) 8453 in
    let* key3 := lift (template_ToString Number_toString join_depth
                       (INFURA_API_KEY config)) in
    let* p3 := new_JsonRpcProvider
                 ("https://polygon-mainnet.infura.io/v3/" +:+ key3) 137 in
    let* p4 := new_JsonRpcProvider "https://rpc.redstonechain.com" 690 in
    ret (<[690 := p4]> (<[137 := p3]> (<[8453 := p2]>
           (<[DEFAULT_NETWORK_ID := p1]> ∅)))).

(** ** Session factory *)

(** [await provider.getFeeData()]: through whatever the object's
    [getFeeData] property holds at the time of the call. (A handle of
    [PROVIDERS] always names an object, see [registry_in_heap]; the first
    branch is there for totality.) *)
Definition provider_getFeeData (provider : handle) : M FeeData :=
  let* st := get in
  match heap st !! provider with
  | None => throw (ThrowError "provider.getFeeData is not a function")
  | Some obj =>
      match getFeeData obj with
      | FeeFromNetwork =>
          modify (add_event (EvGetFeeData provider));;
          lift (rpc_getFeeData (trace st) obj)
      | FeeForced price =>
          ret (mkFeeData None None None price)
      end
  end.

(** [provider.getFeeData = async () => ...] *)
Definition provider_set_getFeeData (provider : handle) (f : FeeAccessor)
  : M unit :=
  modify (fun st =>
    match heap st !! provider with
    | None => st
    | Some obj =>
        set_heap (<[provider :=
                     mkProvider (connection_url obj) (network_chainId obj) f]>
                    (heap st)) st
    end).

(** [new BitlySDK({ networkId, provider })]: the constructor stores its
    arguments. *)
Definition new_BitlySDK (networkId : Z) (provider : handle) : M BitlySDK :=
  modify (add_event (EvNewSDK networkId provider));;
  ret (mkSDK networkId (Some provider) None).

Definition setSigner (sdk : BitlySDK) (signer : Wallet) : M BitlySDK :=
  let* st := get in
  modify (add_event (EvSetSigner signer));;
  lift (sdk_setSigner (trace st) sdk signer);;
  ret (mkSDK (sdk_networkId sdk) (sdk_provider sdk) (Some signer)).

Definition setProvider (sdk : BitlySDK) (provider : option handle)
  : M BitlySDK :=
  let* st := get in
  modify (add_event (EvSetProvider provider));;
  lift (sdk_setProvider (trace st) sdk provider);;
  ret (mkSDK (sdk_networkId sdk) provider (sdk_signer sdk)).

Definition delegate (sdk : BitlySDK) (call : SdkCall) : M JSValue :=
  let* st := get in
  modify (add_event (EvCall call));;
  lift (sdk_delegate (trace st) sdk call).

Definition updateKline (sdk : BitlySDK) (pairId : string) : M unit :=
  let* st := get in
  modify (add_event (EvUpdateKline pairId));;
  lift (sdk_updateKline (trace st) sdk pairId).

(** [await setTimeout(() => {}, ms)] with the global [setTimeout]: the timer
    is registered, and [await] on the [Timeout] object it returns (not a
    promise) resumes the handler without waiting for it. *)
Definition setTimeout (ms : Z) : M unit :=
  modify (add_event (EvSetTimeout ms)).

Definition createSDK (networkId : Z) : M BitlySDK :=
  let* st := get in
  if negb (truthy (WALLET_PRIVATE_KEY (globalConfig st)))
     || negb (truthy (INFURA_API_KEY (globalConfig st))) then
    throw (ThrowError
      "Configuration not provided. Use configure_from_url tool or set MCP_SERVER_URL with base64 encoded config parameter.")
  else
  match PROVIDERS st !! networkId with
  | None =>
      throw (ThrowError
        ("Provider not available for network " +:+ pretty networkId
           +:+ ". Configuration may not be properly set."))
  | Some provider =>
      let* feeData := provider_getFeeData provider in
      provider_set_getFeeData provider (FeeForced (gasPrice feeData));;
      let* sdk := new_BitlySDK networkId provider in
      let* sdk :=
        try_catch
          (let* st := get in
           let* signer :=
             lift (new_Wallet (WALLET_PRIVATE_KEY (globalConfig st))
                     (PROVIDERS st !! networkId)) in
           setSigner sdk signer)
          (fun error =>
             throw (ThrowResponse 401
               ("Unauthorized - "
                  +:+ error_message_or "Invalid wallet configuration" error)))
      in
      ret sdk
  end.

(** ** Tool handlers ([TOOLS]) *)

(** The shape every handler starts with: a session for [networkId], then the
    exchange client pointed at [PROVIDERS[networkId]] again. *)
Definition session (networkId : Z) : M BitlySDK :=
  let* sdk := createSDK networkId in
  let* st := get in
  setProvider sdk (PROVIDERS st !! networkId).

Definition get_balance (networkId : Z) (tokenAddress : string) : M string :=
  let* sdk := session networkId in
  let* balance := delegate sdk (balancesInBank [tokenAddress]) in
  ret (JSON_stringify balance).

Definition get_trade_pairs_info (networkId : Z) (pairIds : list string)
  : M string :=
  let* sdk := session networkId in
  let* info := delegate sdk (getMarketsInfo pairIds) in
  ret (JSON_stringify info).

Definition get_tokens_info (networkId : Z) (tokensAddress : list string)
  : M string :=
  let* sdk := session networkId in
  let* info := delegate sdk (getTokensInfo tokensAddress) in
  ret (JSON_stringify info).

Definition get_trade_volumes (networkId : Z) (pairIds : list string)
    (relativeTimeInSec : JSNumber) : M string :=
  let* sdk := session networkId in
  let* info := delegate sdk (getVolumes pairIds relativeTimeInSec) in
  ret (JSON_stringify info).

Definition get_orderbook (networkId : Z) (pairId : string)
    (priceRangeLow priceRangeHigh : JSNumber) : M string :=
  let* sdk := session networkId in
  let* info := delegate sdk (getOrderbook pairId priceRangeLow priceRangeHigh) in
  ret (JSON_stringify info).

Definition get_my_open_orders (networkId : Z) (pairIds : list string)
  : M string :=
  let* sdk := session networkId in
  let* info := delegate sdk (getLimitOrders pairIds) in
  ret (JSON_stringify info).

Definition place_limit_order (networkId : Z) (pairId : string)
    (direction : OrderDirection) (price volume : JSNumber) : M string :=
  let* sdk := session networkId in
  let* info := delegate sdk (placeLimitOrder pairId direction price volume) in
  setTimeout (default DEFAULT_BLOCK_TIME (BLOCK_TIME !! networkId) + 1000);;
  updateKline sdk pairId;;
  ret (JSON_stringify info).

Definition place_market_order (networkId : Z) (pairId : string)
    (direction : OrderDirection) (volume curPrice slippage : JSNumber)
  : M string :=
  let* sdk := session networkId in
  let* info :=
    delegate sdk (placeMarketOrder pairId direction volume curPrice slippage) in
  setTimeout (default DEFAULT_BLOCK_TIME (BLOCK_TIME !! networkId) + 1000);;
  updateKline sdk pairId;;
  ret (JSON_stringify info).

Definition cancel_limit_order (networkId : Z) (pairId : string)
    (direction : OrderDirection) (point : JSNumber) : M string :=
  let* sdk := session networkId in
  let* info := delegate sdk (cancelLimitOrder pairId direction point) in
  ret (JSON_stringify info).

Definition cancel_all_limit_order (networkId : Z) (pairId : string)
  : M string :=
  let* sdk := session networkId in
  let* info := delegate sdk (cancelAllLimitOrder pairId) in
  ret (JSON_stringify info).

Definition claim_earning (networkId : Z) (pairId : string)
    (direction : OrderDirection) (point : JSNumber) : M string :=
  let* sdk := session networkId in
  let* info := delegate sdk (claimEarning pairId direction point) in
  ret (JSON_stringify info).

Definition claim_all_earnings (networkId : Z) (pairId : string) : M string :=
  let* sdk := session networkId in
  let* info := delegate sdk (claimAllEarnings pairId) in
  ret (JSON_stringify info).

Definition get_finished_orders (networkId : Z) (pairIds : list string)
    (relativeFromInSec relativeToInSec : JSNumber) : M string :=
  let* sdk := session networkId in
  let* info :=
    delegate sdk (getFinishedOrders pairIds relativeFromInSec relativeToInSec) in
  ret (JSON_stringify info).

Definition get_market_order_history (networkId : Z) (pairIds : list string)
    (relativeFromInSec relativeToInSec : JSNumber) : M string :=
  let* sdk := session networkId in
  let* info :=
    delegate sdk
      (getMarketOrderHistory pairIds relativeFromInSec relativeToInSec) in
  ret (JSON_stringify info).

Definition get_prices (networkId : Z) (pairIds : list string)
    (relativeTimeInSec : JSNumber) : M string :=
  let* sdk := session networkId in
  let* info := delegate sdk (getPrices pairIds relativeTimeInSec) in
  ret (JSON_stringify info).

Definition get_klines (networkId : Z) (pairIds : list string)
    (resolution : KlineResolution)
    (relativeFromInSec relativeToInSec : JSNumber) : M string :=
  let* sdk := session networkId in
  let* info :=
    delegate sdk
      (getKlines pairIds resolution relativeFromInSec relativeToInSec) in
  ret (JSON_stringify info).

(** ** Reconfiguration *)

Definition updateConfigFromURL (url : string) : M unit :=
  let* urlConfig := parseConfigFromURL url in
  match urlConfig with
  | Some config =>
      modify (add_console (console_log "Config parsed from URL successfully"));;
      modify (set_globalConfig config);;
      try_catch
        (let* st := get in
         let* providers := createProviders (globalConfig st) in
         modify (set_PROVIDERS providers);;
         modify (add_console
                   (console_log "Providers initialized successfully")))
        (fun error =>
           modify (add_console
             (console_error "Failed to initialize providers:"
                (ArgText (error_message_or "Unknown error" error)))))
  | None =>
      modify (add_console
        (console_log
           "Failed to parse config from URL - configuration required"))
  end.

Definition configuration_updated : JSValue :=
  JObject [("message", JString "Configuration updated successfully")].

Definition configure_from_url (url : string) : M string :=
  updateConfigFromURL url;;
  ret (JSON_stringify configuration_updated).

(** ** The server as a whole *)

(** A validated tool call, as the protocol layer hands it to [execute].
    Network ids are taken to be integers; a number that is not one has no
    entry in [PROVIDERS] or [BLOCK_TIME], like an integer that is not
    listed. *)
Inductive ToolCall :=
| Call_get_balance (networkId : Z) (tokenAddress : string)
| Call_get_trade_pairs_info (networkId : Z) (pairIds : list string)
| Call_get_tokens_info (networkId : Z) (tokensAddress : list string)
| Call_get_trade_volumes (networkId : Z) (pairIds : list string)
    (relativeTimeInSec : JSNumber)
| Call_get_orderbook (networkId : Z) (pairId : string)
    (priceRangeLow priceRangeHigh : JSNumber)
| Call_get_my_open_orders (networkId : Z) (pairIds : list string)
| Call_place_limit_order (networkId : Z) (pairId : string)
    (direction : OrderDirection) (price volume : JSNumber)
| Call_place_market_order (networkId : Z) (pairId : string)
    (direction : OrderDirection) (volume curPrice slippage : JSNumber)
| Call_cancel_limit_order (networkId : Z) (pairId : string)
    (direction : OrderDirection) (point : JSNumber)
| Call_cancel_all_limit_order (networkId : Z) (pairId : string)
| Call_claim_earning (networkId : Z) (pairId : string)
    (direction : OrderDirection) (point : JSNumber)
| Call_claim_all_earnings (networkId : Z) (pairId : string)
| Call_get_finished_orders (networkId : Z) (pairIds : list string)
    (relativeFromInSec relativeToInSec : JSNumber)
| Call_get_market_order_history (networkId : Z) (pairIds : list string)
    (relativeFromInSec relativeToInSec : JSNumber)
| Call_get_prices (networkId : Z) (pairIds : list string)
    (relativeTimeInSec : JSNumber)
| Call_get_klines (networkId : Z) (pairIds : list string)
    (resolution : KlineResolution)
    (relativeFromInSec relativeToInSec : JSNumber)
| Call_configure_from_url (url : string).

Definition execute (call : ToolCall) : M string :=
  match call with
  | Call_get_balance n a => get_balance n a
  | Call_get_trade_pairs_info n ps => get_trade_pairs_info n ps
  | Call_get_tokens_info n ts => get_tokens_info n ts
  | Call_get_trade_volumes n ps t => get_trade_volumes n ps t
  | Call_get_orderbook n p lo hi => get_orderbook n p lo hi
  | Call_get_my_open_orders n ps => get_my_open_orders n ps
  | Call_place_limit_order n p d price v => place_limit_order n p d price v
  | Call_place_market_order n p d v c s => place_market_order n p d v c s
  | Call_cancel_limit_order n p d pt => cancel_limit_order n p d pt
  | Call_cancel_all_limit_order n p => cancel_all_limit_order n p
  | Call_claim_earning n p d pt => claim_earning n p d pt
  | Call_claim_all_earnings n p => claim_all_earnings n p
  | Call_get_finished_orders n ps f t => get_finished_orders n ps f t
  | Call_get_market_order_history n ps f t => get_market_order_history n ps f t
  | Call_get_prices n ps t => get_prices n ps t
  | Call_get_klines n ps r f t => get_klines n ps r f t
  | Call_configure_from_url url => configure_from_url url
  end.

(** The module body after the declarations: [MCP_SERVER_URL], when set to a
    non-empty string, configures the server. (The banner printed after
    [server.start] is left out.) *)
Definition startup (MCP_SERVER_URL : option string) : M unit :=
  match MCP_SERVER_URL with
  | None => ret tt
  | Some startupURL =>
      if String.eqb startupURL EmptyString then ret tt else
      modify (add_console (console_log
        "Attempting to parse config from MCP_SERVER_URL environment variable"));;
      updateConfigFromURL startupURL
  end.

(** What can happen to a server that handles one invocation at a time: a
    tool call, from its start to its end, or a fee query that the exchange
    client or a wallet makes on a provider object it holds. Invocations
    that overlap, each suspended at its [await]s, are in [Async]; a run of
    this kind is one of them ([one_by_one_is_overlapping]). *)
Inductive Activity :=
| Invoke (call : ToolCall)
| QueryFee (provider : handle).

Definition perform (a : Activity) (st : State) : State :=
  match a with
  | Invoke call => snd (execute call st)
  | QueryFee provider => snd (provider_getFeeData provider st)
  end.

Definition run (activities : list Activity) (st : State) : State :=
  foldl (fun st a => perform a st) st activities.

(** The states a server goes through, from start-up on, its invocations
    one after the other. *)
Definition reachable (st : State) : Prop :=
  exists MCP_SERVER_URL activities,
    st = run activities (snd (startup MCP_SERVER_URL initial_state)).

End Program.
End Server.
Export Server.

(* ===================================================================== *)
(** * An executable model of the host *)
(* ===================================================================== *)

(** An instance of [Platform] that computes, for running the program on
    concrete inputs. Strings are sequences of bytes holding UTF-8 text. The
    instance follows Node on ASCII text and on the URL shapes described at
    [new_URL]; an input beyond what it covers is answered with the marker
    [not_modelled], which no Node function throws, so that it cannot be
    taken for Node's answer. *)
Module NodeModel.

Local Open Scope N_scope.

Definition not_modelled {A} (what : string) : Completion A :=
  Throw (ThrowOther ("not modelled: " +:+ what)).

Definition code (c : ascii) : N := Ascii.N_of_ascii c.

Definition is_digit (c : ascii) : bool := (48 <=? code c) && (code c <=? 57).
Definition is_upper (c : ascii) : bool := (65 <=? code c) && (code c <=? 90).
Definition is_lower (c : ascii) : bool := (97 <=? code c) && (code c <=? 122).
Definition is_alpha (c : ascii) : bool := is_upper c || is_lower c.
Definition is_alnum (c : ascii) : bool := is_alpha c || is_digit c.

Definition to_lower (c : ascii) : ascii :=
  if is_upper c then Ascii.ascii_of_N (code c + 32) else c.

Fixpoint lowercase (s : string) : string :=
  match s with
  | EmptyString => EmptyString
  | String c rest => String (to_lower c) (lowercase rest)
  end.

Definition hex_value (c : ascii) : option N :=
  if is_digit c then Some (code c - 48)
  else if (65 <=? code c) && (code c <=? 70) then Some (code c - 55)
  else if (97 <=? code c) && (code c <=? 102) then Some (code c - 87)
  else None.

Fixpoint forallb_string (p : ascii -> bool) (s : string) : bool :=
  match s with
  | EmptyString => true
  | String c rest => p c && forallb_string p rest
  end.

Fixpoint filter_string (p : ascii -> bool) (s : string) : string :=
  match s with
  | EmptyString => EmptyString
  | String c rest =>
      if p c then String c (filter_string p rest) else filter_string p rest
  end.

(** [s] up to the first character satisfying [p], and the rest from that
    character on. *)
Fixpoint break_at (p : ascii -> bool) (s : string) : string * string :=
  match s with
  | EmptyString => (EmptyString, EmptyString)
  | String c rest =>
      if p c then (EmptyString, s)
      else let '(a, b) := break_at p rest in (String c a, b)
  end.

Definition is_char (x : ascii) (c : ascii) : bool := Ascii.eqb c x.

Fixpoint drop_while (p : ascii -> bool) (s : string) : string :=
  match s with
  | EmptyString => EmptyString
  | String c rest => if p c then drop_while p rest else s
  end.

Definition rev_string (s : string) : string :=
  String.string_of_list_ascii (rev (String.list_ascii_of_string s)).

(** ** [new URL] *)

(** The pieces of [s] between occurrences of [sep]. *)
Fixpoint split_on (sep : ascii) (s : string) : list string :=
  match s with
  | EmptyString => [EmptyString]
  | String c rest =>
      if Ascii.eqb c sep then EmptyString :: split_on sep rest
      else match split_on sep rest with
           | [] => [String c EmptyString]
           | p :: ps => String c p :: ps
           end
  end.

(** Percent-decoding of a byte sequence: [%XY] with two hex digits becomes
    the byte, anything else stays. *)
Fixpoint percent_decode (s : string) : string :=
  match s with
  | String "%" (String a (String b rest) as after) =>
      match hex_value a, hex_value b with
      | Some x, Some y =>
          String (Ascii.ascii_of_N (16 * x + y)) (percent_decode rest)
      | _, _ => String "%" (percent_decode after)
      end
  | String c rest => String c (percent_decode rest)
  | EmptyString => EmptyString
  end.

Definition plus_to_space (s : string) : string :=
  String.string_of_list_ascii
    (map (fun c => if Ascii.eqb c "+" then " "%char else c)
       (String.list_ascii_of_string s)).

(** The application/x-www-form-urlencoded parser, on the query of a URL. *)
Definition parse_urlencoded (query : string) : list (string * string) :=
  map (fun piece =>
         let '(name, rest) := break_at (is_char "=") piece in
         let value := match rest with
                      | String _ v => v
                      | EmptyString => EmptyString
                      end in
         (percent_decode (plus_to_space name),
          percent_decode (plus_to_space value)))
    (filter (fun piece => negb (String.eqb piece EmptyString))
       (split_on "&" query)).

Definition is_c0_or_space (c : ascii) : bool := code c <=? 32.
Definition is_tab_or_newline (c : ascii) : bool :=
  (code c =? 9) || (code c =? 10) || (code c =? 13).

Definition trim (s : string) : string :=
  rev_string (drop_while is_c0_or_space
                (rev_string (drop_while is_c0_or_space s))).

Definition is_scheme_char (c : ascii) : bool :=
  is_alnum c || is_char "+" c || is_char "-" c || is_char "." c.

(** [scheme, rest] when [s] starts with a scheme and a colon. *)
Definition split_scheme (s : string) : option (string * string) :=
  match s with
  | String c _ =>
      if is_alpha c then
        match break_at (fun c => negb (is_scheme_char c)) s with
        | (scheme, String ":" rest) => Some (lowercase scheme, rest)
        | _ => None
        end
      else None
  | EmptyString => None
  end.

Definition is_host_char (c : ascii) : bool :=
  is_alnum c || is_char "-" c || is_char "." c.

Fixpoint contains (needle s : string) : bool :=
  String.prefix needle s
  || match s with
     | EmptyString => false
     | String _ rest => contains needle rest
     end.

(** A host made of letters, digits, hyphens and dots whose last label starts
    with a letter (so it is a domain, not an IPv4 address), without Punycode
    labels. *)
Definition plain_domain (host : string) : bool :=
  forallb_string is_host_char host
  && negb (contains "xn--" (lowercase host))
  && match last (split_on "." host) with
     | Some (String c _) => is_alpha c
     | _ => false
     end.

Definition decimal_value (s : string) : N :=
  fold_left (fun acc c => 10 * acc + (code c - 48))
    (String.list_ascii_of_string s) 0.

(** [new URL(input)], without a base.
    - An input that, once trimmed of leading and trailing C0 controls and
      spaces and cleared of tabs and newlines, does not start with a scheme
      and a colon is not a URL: [TypeError: Invalid URL].
    - An [http] or [https] URL of the shape
      [scheme://domain[:port][/path][?query][#fragment]], with a plain
      domain and a port of at most 65535, parses; its [searchParams] are the
      urlencoded pairs of the query.
    - Other inputs are not modelled. *)
Definition new_URL (input : string) : Completion URL :=
  let s := filter_string (fun c => negb (is_tab_or_newline c)) (trim input) in
  match split_scheme s with
  | None => Throw (ThrowError "Invalid URL")
  | Some (scheme, rest) =>
      if negb (String.eqb scheme "http" || String.eqb scheme "https") then
        not_modelled "URL scheme"
      else
        match rest with
        | String "/" (String "/" after) =>
            let '(authority, tail) :=
              break_at (fun c => is_char "/" c || is_char "?" c
                                 || is_char "#" c || is_char "\" c) after in
            let '(host, port) := break_at (is_char ":") authority in
            let port_ok :=
              match port with
              | EmptyString => true
              | String _ digits =>
                  forallb_string is_digit digits
                  && (decimal_value digits <=? 65535)
              end in
            let tail_ok :=
              match tail with
              | String "\" _ => false
              | _ => true
              end in
            if plain_domain host && port_ok && tail_ok then
              let '(_, from_query) :=
                break_at (fun c => is_char "?" c || is_char "#" c) tail in
              let query :=
                match from_query with
                | String "?" q => fst (break_at (is_char "#") q)
                | _ => EmptyString
                end in
              Normal (mkURL (parse_urlencoded query))
            else not_modelled "URL authority"
        | _ => not_modelled "URL without //"
        end
  end.

(** ** [Buffer.from(s, 'base64').toString('utf-8')] *)

(** The value of a base64 digit. Node reads both alphabets: [+] and [-] are
    62, [/] and [_] are 63. *)
Definition unbase64 (c : ascii) : option N :=
  if is_upper c then Some (code c - 65)
  else if is_lower c then Some (code c - 71)
  else if is_digit c then Some (code c + 4)
  else if is_char "+" c || is_char "-" c then Some 62
  else if is_char "/" c || is_char "_" c then Some 63
  else None.

(** The digits of the text up to its first [=]; a character that is neither
    a digit nor [=] is skipped. *)
Fixpoint sextets (s : string) : list N :=
  match s with
  | EmptyString => []
  | String c rest =>
      match unbase64 c with
      | Some v => v :: sextets rest
      | None => if is_char "=" c then [] else sextets rest
      end
  end.

(** Four digits give three bytes; a last group of three gives two, of two
    gives one, and a single left-over digit gives none. *)
Fixpoint bytes_of_sextets (vs : list N) : list N :=
  match vs with
  | a :: b :: c :: d :: rest =>
      (4 * a + b / 16) :: (16 * (b mod 16) + c / 4) :: (64 * (c mod 4) + d)
        :: bytes_of_sextets rest
  | [a; b; c] => [4 * a + b / 16; 16 * (b mod 16) + c / 4]
  | [a; b] => [4 * a + b / 16]
  | _ => []
  end.

(** The decoder does not fail on any text. The bytes are read back as
    UTF-8, which is what strings are here. *)
Definition Buffer_from_base64_toString_utf8 (s : string) : string :=
  String.string_of_list_ascii
    (map Ascii.ascii_of_N (bytes_of_sextets (sextets s))).

(** ** [JSON.parse] *)

Definition dquote : ascii := "034"%char.
Definition backslash : ascii := "092"%char.

Definition is_json_space (c : ascii) : bool :=
  (code c =? 32) || (code c =? 9) || (code c =? 10) || (code c =? 13).

Definition skip_space (s : string) : string := drop_while is_json_space s.

(** A character of a string literal: a byte of the text, or the UTF-16 code
    unit of a [\uXXXX] escape. *)
Inductive StringItem :=
| RawByte (c : ascii)
| CodeUnit (u : N).

Definition simple_escape (e : ascii) : option ascii :=
  if is_char dquote e then Some dquote
  else if is_char backslash e then Some backslash
  else if is_char "/" e then Some "/"%char
  else if is_char "b" e then Some "008"%char
  else if is_char "f" e then Some "012"%char
  else if is_char "n" e then Some "010"%char
  else if is_char "r" e then Some "013"%char
  else if is_char "t" e then Some "009"%char
  else None.

(** The items of a string literal whose opening quote has been read, and the
    text after its closing quote. *)
Fixpoint string_items (s : string) : option (list StringItem * string) :=
  match s with
  | EmptyString => None
  | String c rest =>
      if is_char dquote c then Some ([], rest)
      else if is_char backslash c then
        match rest with
        | String "u" (String h1 (String h2 (String h3 (String h4 more)))) =>
            match hex_value h1, hex_value h2, hex_value h3, hex_value h4 with
            | Some a, Some b, Some c, Some d =>
                match string_items more with
                | Some (items, after) =>
                    Some (CodeUnit (4096 * a + 256 * b + 16 * c + d) :: items,
                          after)
                | None => None
                end
            | _, _, _, _ => None
            end
        | String e more =>
            match simple_escape e, string_items more with
            | Some ch, Some (items, after) => Some (RawByte ch :: items, after)
            | _, _ => None
            end
        | EmptyString => None
        end
      else if code c <? 32 then None
      else
        match string_items rest with
        | Some (items, after) => Some (RawByte c :: items, after)
        | None => None
        end
  end.

Definition utf8 (cp : N) : list N :=
  if cp <? 128 then [cp]
  else if cp <? 2048 then [192 + cp / 64; 128 + cp mod 64]
  else if cp <? 65536 then
    [224 + cp / 4096; 128 + (cp / 64) mod 64; 128 + cp mod 64]
  else
    [240 + cp / 262144; 128 + (cp / 4096) mod 64; 128 + (cp / 64) mod 64;
     128 + cp mod 64].

Definition is_high_surrogate (u : N) : bool := (55296 <=? u) && (u <=? 56319).
Definition is_low_surrogate (u : N) : bool := (56320 <=? u) && (u <=? 57343).

(** The bytes of the items: a surrogate pair is one code point. *)
Fixpoint bytes_of_items (items : list StringItem) : list N :=
  match items with
  | [] => []
  | RawByte c :: rest => code c :: bytes_of_items rest
  | CodeUnit hi :: rest =>
      match rest with
      | CodeUnit lo :: rest' =>
          if is_high_surrogate hi && is_low_surrogate lo then
            utf8 (65536 + 1024 * (hi - 55296) + (lo - 56320))
              ++ bytes_of_items rest'
          else utf8 hi ++ bytes_of_items rest
      | _ => utf8 hi ++ bytes_of_items rest
      end
  end.

Definition string_literal (s : string) : option (string * string) :=
  match string_items s with
  | Some (items, after) =>
      Some (String.string_of_list_ascii
              (map Ascii.ascii_of_N (bytes_of_items items)), after)
  | None => None
  end.

Definition digits_prefix (s : string) : string * string :=
  break_at (fun c => negb (is_digit c)) s.

(** A number literal: [-? int frac? exp?], where [int] has no leading zero. *)
Definition number_literal (s : string) : option (JSNumber * string) :=
  let '(neg, s1) := match s with
                    | String "-" r => (true, r)
                    | _ => (false, s)
                    end in
  let '(int, s2) := digits_prefix s1 in
  let int_ok := match int with
                | EmptyString => false
                | String "0" (String _ _) => false
                | _ => true
                end in
  if negb int_ok then None else
  let frac_part :=
    match s2 with
    | String "." r =>
        let '(frac, s3) := digits_prefix r in
        if String.eqb frac EmptyString then None else Some (frac, s3)
    | _ => Some (EmptyString, s2)
    end in
  match frac_part with
  | None => None
  | Some (frac, s3) =>
      let exp_part :=
        match s3 with
        | String e r =>
            if is_char "e" e || is_char "E" e then
              let '(eneg, r1) := match r with
                                 | String "-" r' => (true, r')
                                 | String "+" r' => (false, r')
                                 | _ => (false, r)
                                 end in
              let '(ds, s4) := digits_prefix r1 in
              if String.eqb ds EmptyString then None
              else Some (if eneg then (- Z.of_N (decimal_value ds))%Z
                         else Z.of_N (decimal_value ds), s4)
            else Some (0%Z, s3)
        | EmptyString => Some (0%Z, s3)
        end in
      match exp_part with
      | None => None
      | Some (e, s4) =>
          Some (mkNum neg (decimal_value (int +:+ frac))
                  (e - Z.of_nat (String.length frac))%Z, s4)
      end
  end.

Definition keyword (word : string) (v : JSValue) (s : string)
  : option (JSValue * string) :=
  if String.prefix word s
  then Some (v, String.substring (String.length word)
                  (String.length s - String.length word) s)
  else None.

(** A value at the start of [s] (after white space), and the rest of the
    text. Each call goes down in [fuel]; [JSON_parse] gives enough of it. *)
Fixpoint parse_value (fuel : nat) (s : string) : option (JSValue * string) :=
  match fuel with
  | O => None
  | S fuel =>
      match skip_space s with
      | EmptyString => None
      | String c rest as all =>
          if is_char "{" c then
            match skip_space rest with
            | String "}" after => Some (JObject [], after)
            | _ =>
                match parse_members fuel rest with
                | Some (ms, after) => Some (JObject ms, after)
                | None => None
                end
            end
          else if is_char "[" c then
            match skip_space rest with
            | String "]" after => Some (JArray [], after)
            | _ =>
                match parse_elements fuel rest with
                | Some (vs, after) => Some (JArray vs, after)
                | None => None
                end
            end
          else if is_char dquote c then
            match string_literal rest with
            | Some (str, after) => Some (JString str, after)
            | None => None
            end
          else if is_char "t" c then keyword "true" (JBool true) all
          else if is_char "f" c then keyword "false" (JBool false) all
          else if is_char "n" c then keyword "null" JNull all
          else
            match number_literal all with
            | Some (n, after) => Some (JNumber n, after)
            | None => None
            end
      end
  end
with parse_elements (fuel : nat) (s : string)
  : option (list JSValue * string) :=
  match fuel with
  | O => None
  | S fuel =>
      match parse_value fuel s with
      | Some (v, rest) =>
          match skip_space rest with
          | String "," more =>
              match parse_elements fuel more with
              | Some (vs, after) => Some (v :: vs, after)
              | None => None
              end
          | String "]" after => Some ([v], after)
          | _ => None
          end
      | None => None
      end
  end
with parse_members (fuel : nat) (s : string)
  : option (list (string * JSValue) * string) :=
  match fuel with
  | O => None
  | S fuel =>
      match skip_space s with
      | String q rest =>
          if is_char dquote q then
            match string_literal rest with
            | Some (name, after_name) =>
                match skip_space after_name with
                | String ":" after_colon =>
                    match parse_value fuel after_colon with
                    | Some (v, rest') =>
                        match skip_space rest' with
                        | String "," more =>
                            match parse_members fuel more with
                            | Some (ms, after) => Some ((name, v) :: ms, after)
                            | None => None
                            end
                        | String "}" after => Some ([(name, v)], after)
                        | _ => None
                        end
                    | None => None
                    end
                | _ => None
                end
            | None => None
            end
          else None
      | EmptyString => None
      end
  end.

(** [JSON.parse(text)]: one value, with nothing but white space around it;
    a [SyntaxError] otherwise. The message stands for the one V8 composes. *)
Definition JSON_parse (text : string) : Completion JSValue :=
  match parse_value (2 * String.length text + 2) text with
  | Some (v, rest) =>
      match skip_space rest with
      | EmptyString => Normal v
      | _ => Throw (ThrowError "Unexpected non-whitespace character after JSON")
      end
  | None => Throw (ThrowError "Unexpected token in JSON")
  end.

(** ** Number::toString *)

Local Open Scope Z_scope.

(** A non-negative double: zero, infinity, or [m * 2^e] with
    [2^52 <= m < 2^53] (or [m < 2^52] and [e = -1074], a subnormal). *)
Inductive Double :=
| DZero
| DInfinity
| DFinite (m e : Z).

(** [num / den / 2^k], as a fraction. *)
Definition scale2 (num den k : Z) : Z * Z :=
  if 0 <=? k then (num, den * 2 ^ k) else (num * 2 ^ (- k), den).

(** The double nearest to the magnitude of a numeral, ties to even. *)
Definition round_to_double (n : JSNumber) : Double :=
  let m := Z.of_N (num_mant n) in
  if m =? 0 then DZero else
  let e := num_exp10 n in
  let num := if 0 <=? e then m * 10 ^ e else m in
  let den := if 0 <=? e then 1 else 10 ^ (- e) in
  let k0 := Z.log2 num - Z.log2 den - 52 in
  let '(n0, d0) := scale2 num den k0 in
  let k1 := if n0 / d0 <? 2 ^ 52 then k0 - 1 else k0 in
  let k := Z.max k1 (-1074) in
  let '(nk, dk) := scale2 num den k in
  let q := nk / dk in
  let r := nk mod dk in
  let q1 := if (dk <? 2 * r) || ((dk =? 2 * r) && Z.odd q) then q + 1 else q in
  let '(q2, k2) := if q1 =? 2 ^ 53 then (2 ^ 52, k + 1) else (q1, k) in
  if q2 =? 0 then DZero
  else if 971 <? k2 then DInfinity
  else DFinite q2 k2.

Definition Double_eqb (a b : Double) : bool :=
  match a, b with
  | DZero, DZero => true
  | DInfinity, DInfinity => true
  | DFinite m e, DFinite m' e' => (m =? m') && (e =? e')
  | _, _ => false
  end.

(** [num / den / 10^t], as a fraction. *)
Definition scale10 (num den t : Z) : Z * Z :=
  if 0 <=? t then (num, den * 10 ^ t) else (num * 10 ^ (- t), den).

(** The [n] with [10^(n-1) <= num/den < 10^n]. *)
Definition decimal_exponent (num den : Z) : Z :=
  let est := ((Z.log2 num - Z.log2 den) * 30103) / 100000 in
  let below t := let '(a, b) := scale10 num den t in a <? b in
  (* the least [t] in [est - 2, est + 3] with [num/den < 10^t] *)
  if below (est - 2) then est - 2
  else if below (est - 1) then est - 1
  else if below est then est
  else if below (est + 1) then est + 1
  else if below (est + 2) then est + 2
  else est + 3.

(** The digits [s] (as a number of [k] digits) and the exponent [n] of
    Number::toString: the least [k] for which some [s * 10^(n-k)] reads back
    as the double, and among those the [s] nearest to it. *)
Fixpoint shortest_digits (fuel : nat) (k : Z) (m e n : Z) : Z * Z * Z :=
  let '(vn, vd) := scale2 m 1 (- e) in
  let '(a, b) := scale10 vn vd (n - k) in
  let lo := a / b in
  let r := a mod b in
  let reads_back s :=
    Double_eqb (round_to_double (mkNum false (Z.to_N s) (n - k)))
      (DFinite m e) in
  let pick s := if s =? 10 ^ k then (10 ^ (k - 1), k, n + 1) else (s, k, n) in
  match reads_back lo, reads_back (lo + 1) with
  | true, true =>
      if 2 * r <? b then pick lo
      else if b <? 2 * r then pick (lo + 1)
      else if Z.even lo then pick lo else pick (lo + 1)
  | true, false => pick lo
  | false, true => pick (lo + 1)
  | false, false =>
      match fuel with
      | O => pick lo
      | S fuel => shortest_digits fuel (k + 1) m e n
      end
  end.

Fixpoint zeros (n : nat) : string :=
  match n with
  | O => EmptyString
  | S n => String "0" (zeros n)
  end.

Definition take_string (n : nat) (s : string) : string :=
  String.substring 0 n s.
Definition drop_string (n : nat) (s : string) : string :=
  String.substring n (String.length s - n) s.

Definition exponent_suffix (n : Z) : string :=
  "e" +:+ (if 0 <=? n - 1 then "+" else "-") +:+ pretty (Z.abs (n - 1)).

Definition format_digits (s k n : Z) : string :=
  let digits := pretty s in
  if (k <=? n) && (n <=? 21) then digits +:+ zeros (Z.to_nat (n - k))
  else if (0 <? n) && (n <=? 21) then
    take_string (Z.to_nat n) digits +:+ "." +:+ drop_string (Z.to_nat n) digits
  else if (-6 <? n) && (n <=? 0) then
    "0." +:+ zeros (Z.to_nat (- n)) +:+ digits
  else if k =? 1 then digits +:+ exponent_suffix n
  else take_string 1 digits +:+ "." +:+ drop_string 1 digits
         +:+ exponent_suffix n.

Definition Number_toString (x : JSNumber) : string :=
  match round_to_double x with
  | DZero => "0"
  | DInfinity => if num_neg x then "-Infinity" else "Infinity"
  | DFinite m e =>
      let '(vn, vd) := scale2 m 1 (- e) in
      let n := decimal_exponent vn vd in
      let '(s, k, n') := shortest_digits 17 1 m e n in
      (if num_neg x then "-" else EmptyString) +:+ format_digits s k n'
  end.

(** ** [JSON.stringify] *)

Definition hex_digit (n : N) : ascii :=
  if (n <? 10)%N then Ascii.ascii_of_N (48 + n) else Ascii.ascii_of_N (87 + n).

Definition escape_char (c : ascii) : string :=
  if is_char dquote c then String backslash (String dquote EmptyString)
  else if is_char backslash c then String backslash (String backslash EmptyString)
  else if is_char "008" c then String backslash "b"
  else if is_char "012" c then String backslash "f"
  else if is_char "010" c then String backslash "n"
  else if is_char "013" c then String backslash "r"
  else if is_char "009" c then String backslash "t"
  else if (code c <? 32)%N then
    String backslash
      ("u00" +:+ String (hex_digit (code c / 16))
                   (String (hex_digit (code c mod 16)) EmptyString))
  else String c EmptyString.

Fixpoint quote_body (s : string) : string :=
  match s with
  | EmptyString => EmptyString
  | String c rest => escape_char c +:+ quote_body rest
  end.

Definition quote (s : string) : string :=
  String dquote (quote_body s) +:+ String dquote EmptyString.

Definition is_finite (x : JSNumber) : bool :=
  match round_to_double x with
  | DInfinity => false
  | _ => true
  end.

(** [JSON.stringify], on a value whose objects list their members in
    enumeration order. *)
Fixpoint JSON_stringify (v : JSValue) : string :=
  match v with
  | JNull => "null"
  | JBool true => "true"
  | JBool false => "false"
  | JNumber x => if is_finite x then Number_toString x else "null"
  | JString s => quote s
  | JArray xs =>
      "[" +:+ join ","
                ((fix each (xs : list JSValue) : list string :=
                    match xs with
                    | [] => []
                    | x :: rest => JSON_stringify x :: each rest
                    end) xs) +:+ "]"
  | JObject ms =>
      "{" +:+ join ","
                ((fix each (ms : list (string * JSValue)) : list string :=
                    match ms with
                    | [] => []
                    | (k, x) :: rest =>
                        (quote k +:+ ":" +:+ JSON_stringify x) :: each rest
                    end) ms) +:+ "}"
  end.

(** ** [new Wallet] (ethers v5) *)

(** the order of the secp256k1 group *)
Definition secp256k1_n : Z :=
  0xFFFFFFFFFFFFFFFFFFFFFFFFFFFFFFFEBAAEDCE6AF48A03BBFD25E8CD0364141.

Definition is_hex_digit (c : ascii) : bool :=
  match hex_value c with Some _ => true | None => false end.

Definition hex_number (s : string) : Z :=
  fold_left (fun acc c => 16 * acc + Z.of_N (default 0%N (hex_value c)))
    (String.list_ascii_of_string s) 0.

(** The hex digits of a string written [0x...], if it is one. *)
Definition hex_string_digits (s : string) : option string :=
  match s with
  | String "0" (String "x" digits) =>
      if forallb_string is_hex_digit digits then Some digits else None
  | _ => None
  end.

(** [new Wallet(privateKey, provider)] on a string key. The constructor
    prefixes 64 bare hex digits with [0x]; [SigningKey] then wants the
    [0x]-string of 32 bytes and throws an [Error] on any other string. The
    messages are the leading part of what ethers composes (it appends the
    argument and its version). A key that is zero modulo the group order, a
    key that is not a string, and [undefined] are not modelled. *)
Definition new_Wallet (privateKey : option JSValue) (provider : option handle)
  : Completion Wallet :=
  match privateKey with
  | Some (JString key) =>
      let key :=
        if forallb_string is_hex_digit key && (String.length key =? 64)%nat
        then "0x" +:+ key else key in
      match hex_string_digits key with
      | None => Throw (ThrowError "invalid hexlify value")
      | Some digits =>
          if Nat.odd (String.length digits) then
            Throw (ThrowError "hex data is odd-length")
          else if negb (String.length digits =? 64)%nat then
            Throw (ThrowError "invalid private key")
          else if hex_number digits mod secp256k1_n =? 0 then
            not_modelled "private key outside the group"
          else Normal (mkWallet (lowercase key) provider)
      end
  | _ => not_modelled "private key that is not a string"
  end.

(** Node has room for between 3000 and 4000 nested calls of [join] where
    a tool handler evaluates a template literal. The instance takes the
    lower figure: it converts no array that Node does not. *)
Definition join_depth : N := 3000.

#[export] Instance node : Platform := {|
  Host.new_URL := new_URL;
  Host.Buffer_from_base64_toString_utf8 := Buffer_from_base64_toString_utf8;
  Host.JSON_parse := JSON_parse;
  Host.JSON_stringify := JSON_stringify;
  Host.Number_toString := Number_toString;
  Host.join_depth := join_depth;
  Host.new_Wallet := new_Wallet
|}.

End NodeModel.

(* ===================================================================== *)
(** * The decoder of the design *)
(* ===================================================================== *)

Module Design.

(** The error kinds of the Config Decoder. *)
Inductive DecodeError :=
| MalformedSource
| MissingConfigParameter
| InvalidEncoding
| InvalidJSON
| IncompleteConfig.

Local Open Scope js_scope.

Section Decode.
Context {platform : Platform}.

(** [decode(source) -> Configuration | DecodeError], following the steps of
    the design in order: (a) the source is parsed as a URL, (b) the [config]
    parameter is extracted (an empty one counts as absent), (c) it is
    base64-decoded, (d) the text is parsed as JSON, (e) both fields are
    required to be set. Step (c) has no way to fail: the host decoder
    returns a text for every input. *)
Definition decode (source : string) : DecodeError + Config :=
  match new_URL source with
  | Throw _ => inl MalformedSource
  | Normal urlObj =>
      match searchParams_get (searchParams urlObj) "config" with
      | None => inl MissingConfigParameter
      | Some configParam =>
          if String.eqb configParam EmptyString then inl MissingConfigParameter
          else
            match JSON_parse (Buffer_from_base64_toString_utf8 configParam) with
            | Throw _ => inl InvalidJSON
            | Normal document =>
                match get_property document "WALLET_PRIVATE_KEY",
                      get_property document "INFURA_API_KEY" with
                | Normal wallet_key, Normal api_key =>
                    if truthy wallet_key && truthy api_key
                    then inr (mkConfig wallet_key api_key)
                    else inl IncompleteConfig
                | _, _ => inl IncompleteConfig
                end
            end
      end
  end.

(** What is left of a decode result when the error kind is dropped. *)
Definition forget_kind (r : DecodeError + Config) : option Config :=
  match r with
  | inl _ => None
  | inr config => Some config
  end.

End Decode.

(** The failures of the session factory, as [createSDK] throws them. *)
Definition NotConfigured : Thrown :=
  ThrowError
    "Configuration not provided. Use configure_from_url tool or set MCP_SERVER_URL with base64 encoded config parameter.".

Definition UnknownNetwork (networkId : Z) : Thrown :=
  ThrowError
    ("Provider not available for network " +:+ pretty networkId
       +:+ ". Configuration may not be properly set.").

Definition Unauthorized (cause : Thrown) : Thrown :=
  ThrowResponse 401
    ("Unauthorized - "
       +:+ error_message_or "Invalid wallet configuration" cause).

(** The network ids of the descriptor table. *)
Definition network_ids : gset Z := {[ 84532; 8453; 137; 690 ]}.

(** Both fields of the configuration are set. *)
Definition configured (st : State) : bool :=
  truthy (WALLET_PRIVATE_KEY (globalConfig st))
  && truthy (INFURA_API_KEY (globalConfig st)).

(** The handles the registry holds. *)
Definition registered (st : State) (h : handle) : Prop :=
  exists networkId, PROVIDERS st !! networkId = Some h.

(** The provider object at [h] answers fee queries with the forced, legacy
    estimate carrying [price]. *)
Definition forced (h : handle) (price : option Z) (st : State) : Prop :=
  exists obj, heap st !! h = Some obj /\ getFeeData obj = FeeForced price.

Definition is_refresh (e : Event) : bool :=
  match e with
  | EvUpdateKline _ => true
  | _ => false
  end.

Definition is_timer (e : Event) : bool :=
  match e with
  | EvSetTimeout _ => true
  | _ => false
  end.

End Design.
Export Design.

(* ===================================================================== *)
(** * Concrete inputs *)
(* ===================================================================== *)

Module Examples.

(** [{"WALLET_PRIVATE_KEY":"0x0123...cdef","INFURA_API_KEY":"key1"}], a
    32-byte key *)
Definition url_key1 : string :=
  "http://localhost:8080/mcp?config=eyJXQUxMRVRfUFJJVkFURV9LRVkiOiIweDAxMjM0NTY3ODlhYmNkZWYwMTIzNDU2Nzg5YWJjZGVmMDEyMzQ1Njc4OWFiY2RlZjAxMjM0NTY3ODlhYmNkZWYiLCJJTkZVUkFfQVBJX0tFWSI6ImtleTEifQ==".

(** the same wallet key, with [INFURA_API_KEY] set to [key2] *)
Definition url_key2 : string :=
  "http://localhost:8080/mcp?config=eyJXQUxMRVRfUFJJVkFURV9LRVkiOiIweDAxMjM0NTY3ODlhYmNkZWYwMTIzNDU2Nzg5YWJjZGVmMDEyMzQ1Njc4OWFiY2RlZjAxMjM0NTY3ODlhYmNkZWYiLCJJTkZVUkFfQVBJX0tFWSI6ImtleTIifQ==".

(** [{"WALLET_PRIVATE_KEY":"0xabc","INFURA_API_KEY":"key1"}]: the wallet key
    is not a private key *)
Definition url_short_key : string :=
  "http://localhost:8080/mcp?config=eyJXQUxMRVRfUFJJVkFURV9LRVkiOiIweGFiYyIsIklORlVSQV9BUElfS0VZIjoia2V5MSJ9".

(** [{"WALLET_PRIVATE_KEY":"0xabc","INFURA_API_KEY":{"toString":1}}]: the
    API key is an object *)
Definition url_object_key : string :=
  "http://localhost:8080/mcp?config=eyJXQUxMRVRfUFJJVkFURV9LRVkiOiIweGFiYyIsIklORlVSQV9BUElfS0VZIjp7InRvU3RyaW5nIjoxfX0=".

(** [levels] times the text [s] *)
Fixpoint repeated (levels : nat) (s : string) : string :=
  match levels with O => EmptyString | S k => s ++ repeated k s end.

(** [{"WALLET_PRIVATE_KEY":"0xabc","INFURA_API_KEY": [[...]]}]: the API key
    is an empty array inside [3 * thirds - 1] arrays. [W1tb] is the base64
    of three opening brackets, [XV1d] of three closing ones. *)
Definition url_nested_key (thirds : nat) : string :=
  "http://localhost:8080/mcp?config=eyJXQUxMRVRfUFJJVkFURV9LRVkiOiIweGFiYyIsIklORlVSQV9BUElfS0VZIjog"
  ++ repeated thirds "W1tb" ++ repeated thirds "XV1d" ++ "fQ==".

(** not a URL *)
Definition url_malformed : string := "not a url".

(** no [config] parameter *)
Definition url_no_parameter : string := "http://localhost:8080/mcp".

(** [config] is the base64 of [not json] *)
Definition url_not_json : string :=
  "http://localhost:8080/mcp?config=bm90IGpzb24=".

(** [config] holds no base64 digit at all *)
Definition url_not_base64 : string := "http://localhost:8080/mcp?config=@@@@".

(** the configuration of [url_key1] with the empty string for
    [WALLET_PRIVATE_KEY] *)
Definition url_empty_field : string :=
  "http://localhost:8080/mcp?config=eyJXQUxMRVRfUFJJVkFURV9LRVkiOiIiLCJJTkZVUkFfQVBJX0tFWSI6ImtleTEifQ==".

(** A network whose gas price rises with every event. *)
Definition rising_fees (history : list Event) (p : JsonRpcProvider)
  : Completion FeeData :=
  Normal (mkFeeData (Some 7) (Some 40) (Some 2)
            (Some (20 + Z.of_nat (length history)))).

Definition receipt : JSValue := JObject [("hash", JString "0x01")].

(** The bundled mock client, on that network. *)
Definition mock : World := MockBitlySDK rising_fees (fun _ _ _ => receipt).

(** A test double of the exchange client whose [updateKline] rejects. *)
Definition failing_refresh : World :=
  {| rpc_getFeeData := rising_fees;
     sdk_setSigner := fun _ _ _ => Normal tt;
     sdk_setProvider := fun _ _ _ => Normal tt;
     sdk_delegate := fun _ _ _ => Normal receipt;
     sdk_updateKline := fun _ _ _ => Throw (ThrowError "kline refresh failed") |}.

(** The mock client on a network that does not answer. *)
Definition network_down : World :=
  MockBitlySDK (fun _ _ => Throw (ThrowError "could not detect network"))
    (fun _ _ _ => receipt).

(** the server after a first [configure_from_url] *)
Definition after_configure (url : string) : State :=
  snd (@configure_from_url NodeModel.node url initial_state).

Definition one : JSNumber := mkNum false 1 0.

(** what [url_key2] decodes to *)
Definition config_key2 : Config :=
  mkConfig
    (Some (JString
       "0x0123456789abcdef0123456789abcdef0123456789abcdef0123456789abcdef"))
    (Some (JString "key2")).

(** the first answer of [rising_fees] *)
Definition first_fees : FeeData :=
  mkFeeData (Some 7) (Some 40) (Some 2) (Some 20).

End Examples.

(* ===================================================================== *)
(** * Reasoning about effects *)
(* ===================================================================== *)

Module Effects.

(** [m] takes every state to one related to it by [R], whether it returns
    or throws. *)
Definition effect {A} (R : State -> State -> Prop) (m : M A) : Prop :=
  forall st, R st (snd (m st)).

(** The module-level variables and the provider objects are the same: the
    two states differ by events and console lines at most. *)
Definition same_store (st st' : State) : Prop :=
  globalConfig st' = globalConfig st /\ PROVIDERS st' = PROVIDERS st
  /\ heap st' = heap st.

(** [globalConfig] and [PROVIDERS] are the same. *)
Definition same_config (st st' : State) : Prop :=
  globalConfig st' = globalConfig st /\ PROVIDERS st' = PROVIDERS st.

(** The registry that [createProviders] returns when the heap holds [n]
    objects. *)
Definition registry_at (n : nat) : gmap Z handle :=
  <[690 := (n + 3)%nat]> (<[137 := (n + 2)%nat]> (<[8453 := (n + 1)%nat]>
     (<[DEFAULT_NETWORK_ID := n]> ∅))).

(** The four provider objects [createProviders] allocates for a key whose
    text is [key]. *)
Definition fresh_providers (key : string) : list JsonRpcProvider :=
  [ mkProvider ("https://base-sepolia.infura.io/v3/" +:+ key) 84532
      FeeFromNetwork;
    mkProvider ("https://base-mainnet.infura.io/v3/" +:+ key) 8453
      FeeFromNetwork;
    mkProvider ("https://polygon-mainnet.infura.io/v3/" +:+ key) 137
      FeeFromNetwork;
    mkProvider "https://rpc.redstonechain.com" 690 FeeFromNetwork ].

(** The API key of a configuration has a text: ToString does not throw. *)
Definition key_text {platform : Platform} (config : Config) : option string :=
  match INFURA_API_KEY config with
  | None => Some "undefined"
  | Some v =>
      match ToString Number_toString join_depth v with
      | Normal text => Some text
      | Throw _ => None
      end
  end.

(** The registry is well formed: its handles name provider objects. *)
Definition registry_in_heap (st : State) : Prop :=
  forall networkId h,
    PROVIDERS st !! networkId = Some h -> (h < length (heap st))%nat.

(** Provider objects stay where they are, and one that answers fee queries
    with a forced estimate keeps doing so, with the same price. *)
Definition evolves (st st' : State) : Prop :=
  (length (heap st) <= length (heap st'))%nat
  /\ forall h price, forced h price st -> forced h price st'.

(** What holds of the registry in every state of a running server. *)
Definition registry_invariant {platform : Platform} (st : State) : Prop :=
  registry_in_heap st
  /\ (PROVIDERS st = ∅ \/ dom (PROVIDERS st) = network_ids)
  /\ (configured st = true -> key_text (globalConfig st) <> None ->
      dom (PROVIDERS st) = network_ids).

(** The events are calls on the exchange client other than [updateKline],
    and no timer. *)
Definition quiet (events : list Event) : Prop :=
  filter (fun e => is_refresh e || is_timer e) events = [].

Definition quietly (st st' : State) : Prop :=
  exists events, trace st' = trace st ++ events /\ quiet events.

End Effects.
Export Effects.

(* ===================================================================== *)
(** * The tool catalogue, as data *)
(* ===================================================================== *)

Module Catalogue.

(** The [networkId] argument of a tool call; [configure_from_url] has none. *)
Definition tool_networkId (call : ToolCall) : option Z :=
  match call with
  | Call_get_balance n _ | Call_get_trade_pairs_info n _
  | Call_get_tokens_info n _ | Call_get_trade_volumes n _ _
  | Call_get_orderbook n _ _ _ | Call_get_my_open_orders n _
  | Call_place_limit_order n _ _ _ _ | Call_place_market_order n _ _ _ _ _
  | Call_cancel_limit_order n _ _ _ | Call_cancel_all_limit_order n _
  | Call_claim_earning n _ _ _ | Call_claim_all_earnings n _
  | Call_get_finished_orders n _ _ _ | Call_get_market_order_history n _ _ _
  | Call_get_prices n _ _ | Call_get_klines n _ _ _ _ => Some n
  | Call_configure_from_url _ => None
  end.

(** The operation of the exchange client a tool stands for, with the
    arguments the handler passes. *)
Definition tool_delegate (call : ToolCall) : option SdkCall :=
  match call with
  | Call_get_balance _ a => Some (balancesInBank [a])
  | Call_get_trade_pairs_info _ ps => Some (getMarketsInfo ps)
  | Call_get_tokens_info _ ts => Some (getTokensInfo ts)
  | Call_get_trade_volumes _ ps t => Some (getVolumes ps t)
  | Call_get_orderbook _ p lo hi => Some (getOrderbook p lo hi)
  | Call_get_my_open_orders _ ps => Some (getLimitOrders ps)
  | Call_place_limit_order _ p d price v => Some (placeLimitOrder p d price v)
  | Call_place_market_order _ p d v c s => Some (placeMarketOrder p d v c s)
  | Call_cancel_limit_order _ p d pt => Some (cancelLimitOrder p d pt)
  | Call_cancel_all_limit_order _ p => Some (cancelAllLimitOrder p)
  | Call_claim_earning _ p d pt => Some (claimEarning p d pt)
  | Call_claim_all_earnings _ p => Some (claimAllEarnings p)
  | Call_get_finished_orders _ ps f t => Some (getFinishedOrders ps f t)
  | Call_get_market_order_history _ ps f t =>
      Some (getMarketOrderHistory ps f t)
  | Call_get_prices _ ps t => Some (getPrices ps t)
  | Call_get_klines _ ps r f t => Some (getKlines ps r f t)
  | Call_configure_from_url _ => None
  end.

(** The two tools whose handler goes on after the delegate call. *)
Definition places_order (call : ToolCall) : bool :=
  match call with
  | Call_place_limit_order _ _ _ _ _ | Call_place_market_order _ _ _ _ _ _ =>
      true
  | _ => false
  end.

(** A fee query sent to the network through the provider object [h]. *)
Definition is_fee_query (h : handle) (e : Event) : bool :=
  match e with
  | EvGetFeeData p => Nat.eqb p h
  | _ => false
  end.

(** The trace of [st'] extends the trace of [st] by events none of which
    satisfies [p]. *)
Definition without (p : Event -> bool) (st st' : State) : Prop :=
  exists events, trace st' = trace st ++ events /\ filter p events = [].

(** [globalConfig] is as the module declares it, with both fields
    [undefined]. *)
Definition unset (config : Config) : Prop := config = mkConfig None None.

(** A test double of the exchange client whose [setSigner] rejects, on the
    network of the examples. *)
Definition rejecting_signer : World :=
  {| rpc_getFeeData := Examples.rising_fees;
     sdk_setSigner := fun _ _ _ => Throw (ThrowError "signer refused");
     sdk_setProvider := fun _ _ _ => Normal tt;
     sdk_delegate := fun _ _ _ => Normal Examples.receipt;
     sdk_updateKline := fun _ _ _ => Normal tt |}.

(** A test double whose delegate operations reject. *)
Definition rejecting_exchange : World :=
  {| rpc_getFeeData := Examples.rising_fees;
     sdk_setSigner := fun _ _ _ => Normal tt;
     sdk_setProvider := fun _ _ _ => Normal tt;
     sdk_delegate := fun _ _ _ => Throw (ThrowError "execution reverted");
     sdk_updateKline := fun _ _ _ => Normal tt |}.

End Catalogue.
Export Catalogue.

(* ===================================================================== *)
(** * The bundled exchange client ([mock-bitly-sdk.ts]) *)
(* ===================================================================== *)

Module Mock.

(** What the methods of the mock take from the runtime. A [Double] is a
    Number value; [json x] is what [JSON.stringify] sees for [x]: a number,
    or [null] for [NaN] and the infinities. *)
Class Runtime := {
  Double : Type;
  of_number : JSNumber -> Double;
  times : Double -> Double -> Double;
  plus : Double -> Double -> Double;
  minus : Double -> Double -> Double;
  json : Double -> JSValue;
  (** [x.toFixed(6)] *)
  toFixed6 : Double -> string;
  (** [x.toString(16).substr(2, n)] *)
  hex_digits : Double -> nat -> string;
  (** the length of [Array.from({ length: Math.floor(x) }, ...)] *)
  floor_length : Double -> nat;
  (** [x > 0.5] *)
  above_half : Double -> bool;
  (** [signer.address] *)
  Wallet_address : Wallet -> string
}.

(** ** Own properties of an ordinary object *)

Definition digit (c : ascii) : option N :=
  let n := N_of_ascii c in
  if ((48 <=? n) && (n <=? 57))%N then Some (n - 48)%N else None.

Fixpoint numeral (s : string) (acc : N) : option N :=
  match s with
  | EmptyString => Some acc
  | String c rest =>
      match digit c with
      | Some d => numeral rest (10 * acc + d)%N
      | None => None
      end
  end.

(** An array index: the canonical numeral of an integer from 0 to
    [2^32 - 2]. *)
Definition array_index (key : string) : option N :=
  match key with
  | EmptyString => None
  | String c rest =>
      if Ascii.eqb c "0" && negb (String.eqb rest EmptyString) then None
      else
        match numeral key 0 with
        | Some n => if (n <? 4294967295)%N then Some n else None
        | None => None
        end
  end.

(** A new property named by the array index [n] goes before the first
    property that is not an array index below [n]. *)
Fixpoint insert_index (n : N) (key : string) (v : JSValue)
    (obj : list (string * JSValue)) : list (string * JSValue) :=
  match obj with
  | [] => [(key, v)]
  | (k, w) :: rest =>
      match array_index k with
      | Some m =>
          if (m <? n)%N then (k, w) :: insert_index n key v rest
          else (key, v) :: obj
      | None => (key, v) :: obj
      end
  end.

(** [obj[key] = v] on an object made by [{}], given as its own properties in
    the order [JSON.stringify] goes through them: array indices in
    ascending order, then the other names in the order of their creation.
    An assignment to an existing property keeps its place. The name
    [__proto__] is the accessor of [Object.prototype]: the assignment sets
    the prototype (or does nothing, for a primitive [v]) and makes no own
    property. *)
Definition object_set (obj : list (string * JSValue)) (key : string)
    (v : JSValue) : list (string * JSValue) :=
  if String.eqb key "__proto__" then obj
  else if has_member key obj then
    map (fun kv => if String.eqb (fst kv) key then (key, v) else kv) obj
  else
    match array_index key with
    | Some n => insert_index n key v obj
    | None => obj ++ [(key, v)]
    end.

(** ** Calls of [Math.random] *)

(** A computation that calls [Math.random]: from the number of values drawn
    so far to a result and the number drawn after it. *)
Definition Rand (A : Type) : Type := nat -> A * nat.

Definition pure {A} (a : A) : Rand A := fun k => (a, k).
Definition and_then {A B} (m : Rand A) (f : A -> Rand B) : Rand B :=
  fun k => f (fst (m k)) (snd (m k)).

Declare Scope mock_scope.
Delimit Scope mock_scope with mock.
Notation "'let+' x := c 'in' k" := (and_then c (fun x => k))
  (at level 10, x name, c at level 100, k at level 200) : mock_scope.
Local Open Scope mock_scope.

(** [xs.forEach(x => ...)], the callback updating the object [s] *)
Fixpoint forEach {A S} (xs : list A) (f : S -> A -> Rand S) (s : S)
  : Rand S :=
  match xs with
  | [] => pure s
  | x :: rest => let+ s' := f s x in forEach rest f s'
  end.

(** [xs.map(x => ...)] *)
Fixpoint Array_map {A B} (xs : list A) (f : A -> Rand B) : Rand (list B) :=
  match xs with
  | [] => pure []
  | x :: rest =>
      let+ y := f x in
      let+ ys := Array_map rest f in
      pure (y :: ys)
  end.

(** [Array.from({ length }, () => ...)] *)
Fixpoint Array_from {B} (length : nat) (f : Rand B) : Rand (list B) :=
  match length with
  | O => pure []
  | S n =>
      let+ y := f in
      let+ ys := Array_from n f in
      pure (y :: ys)
  end.

Section Methods.
Context {runtime : Runtime}.
(** the values [Math.random()] and [Date.now()] return, by the number of
    values drawn before *)
Variable Math_random : nat -> Double.
Variable Date_now : nat -> Double.

Definition random : Rand Double := fun k => (Math_random k, S k).
Definition now : Rand Double := fun k => (Date_now k, k).

Definition of_Z (z : Z) : Double := of_number (num_of_Z z).

(** [Math.random() * n] *)
Definition random_times (n : Z) : Rand JSValue :=
  let+ r := random in
  pure (json (times r (of_Z n))).

(** [`0x${Math.random().toString(16).substr(2, n)}`] *)
Definition random_hex (n : nat) : Rand JSValue :=
  let+ r := random in
  pure (JString ("0x" +:+ hex_digits r n)).

(** [Math.random() > 0.5 ? 'BUY' : 'SELL'] *)
Definition random_direction : Rand JSValue :=
  let+ r := random in
  pure (JString (if above_half r then "BUY" else "SELL")).

(** *** [wallet] *)

Definition wallet_balancesInBank (tokenAddresses : list string)
  : Rand JSValue :=
  let+ mockBalances :=
    forEach tokenAddresses
      (fun mockBalances address =>
         let+ r := random in
         pure (object_set mockBalances address
                 (JString (toFixed6 (times r (of_Z 1000))))))
      [] in
  pure (JObject mockBalances).

(** *** [exchange] *)

Definition exchange_getMarketsInfo (pairIds : list string) : Rand JSValue :=
  let+ infos :=
    Array_map pairIds
      (fun id =>
         let+ marketAddress := random_hex 40 in
         let+ addressX := random_hex 40 in
         let+ addressY := random_hex 40 in
         pure (JObject
           [("marketAddress", marketAddress);
            ("displayName", JString (id +:+ "_MOCK"));
            ("tokenX",
             JObject [("symbol", JString "TOKX"); ("name", JString "Token X");
                      ("decimals", JNumber (num_of_Z 18));
                      ("address", addressX)]);
            ("tokenY",
             JObject [("symbol", JString "TOKY"); ("name", JString "Token Y");
                      ("decimals", JNumber (num_of_Z 18));
                      ("address", addressY)])])) in
  pure (JArray infos).

Definition exchange_getTokensInfo (tokenAddresses : list string)
  : Rand JSValue :=
  let+ infos :=
    Array_map tokenAddresses
      (fun address =>
         pure (JObject
           [("symbol", JString "MOCK"); ("name", JString "Mock Token");
            ("decimals", JNumber (num_of_Z 18));
            ("address", JString address)])) in
  pure (JArray infos).

Definition exchange_getVolumes (pairIds : list string)
    (relativeTimeInSec : JSNumber) : Rand JSValue :=
  let+ volumes :=
    forEach pairIds
      (fun volumes id =>
         let+ r := random in
         pure (object_set volumes id
                 (JString (toFixed6 (times r (of_Z 10000))))))
      [] in
  pure (JObject volumes).

Definition orderbook_side (direction : string) (low high : JSNumber)
  : Rand (list JSValue) :=
  Array_from 5
    (let+ r := random in
     let+ amount := random_times 100 in
     pure (JObject
       [("direction", JString direction);
        ("price",
         json (plus (of_number low)
                 (times r (minus (of_number high) (of_number low)))));
        ("amount", amount)])).

Definition exchange_getOrderbook (pairId : string) (low high : JSNumber)
  : Rand JSValue :=
  let+ asks := orderbook_side "SELL" low high in
  let+ bids := orderbook_side "BUY" low high in
  pure (JObject [("asks", JArray asks); ("bids", JArray bids)]).

Definition exchange_getLimitOrders (pairIds : list string) : Rand JSValue :=
  let+ orders :=
    forEach pairIds
      (fun orders id =>
         let+ r := random in
         let+ list :=
           Array_from (floor_length (times r (of_Z 3)))
             (let+ sold := random_times 50 in
              let+ earned := random_times 100 in
              let+ selling := random_times 200 in
              let+ price := random_times 2000 in
              let+ direction := random_direction in
              pure (JObject
                [("sold", sold); ("earned", earned); ("selling", selling);
                 ("price", price); ("direction", direction)])) in
         pure (object_set orders id (JArray list)))
      [] in
  pure (JObject orders).

(** The object the six transaction methods return; they differ in
    [gasLimit]. [this.signer?.address || ...] draws a third value only when
    there is no signer, or its address is the empty string. *)
Definition ContractTransaction (this_signer : option Wallet)
    (gasLimit : string) : Rand JSValue :=
  let+ hash := random_hex 64 in
  let+ to := random_hex 40 in
  let+ from :=
    match this_signer with
    | Some signer =>
        if String.eqb (Wallet_address signer) EmptyString then random_hex 40
        else pure (JString (Wallet_address signer))
    | None => random_hex 40
    end in
  pure (JObject
    [("hash", hash); ("to", to); ("from", from);
     ("gasLimit", JString gasLimit); ("gasPrice", JString "20000000000");
     ("value", JString "0")]).

Definition exchange_placeLimitOrder (this_signer : option Wallet)
    (pairId : string) (direction : OrderDirection) (price volume : JSNumber)
  : Rand JSValue :=
  ContractTransaction this_signer "200000".

Definition exchange_placeMarketOrder (this_signer : option Wallet)
    (pairId : string) (direction : OrderDirection)
    (volume curPrice slippage : JSNumber) : Rand JSValue :=
  ContractTransaction this_signer "300000".

Definition exchange_cancelLimitOrder (this_signer : option Wallet)
    (pairId : string) (direction : OrderDirection) (point : JSNumber)
  : Rand JSValue :=
  ContractTransaction this_signer "150000".

Definition exchange_cancelAllLimitOrder (this_signer : option Wallet)
    (pairId : string) : Rand JSValue :=
  ContractTransaction this_signer "500000".

Definition exchange_claimEarning (this_signer : option Wallet)
    (pairId : string) (direction : OrderDirection) (point : JSNumber)
  : Rand JSValue :=
  ContractTransaction this_signer "180000".

Definition exchange_claimAllEarnings (this_signer : option Wallet)
    (pairId : string) : Rand JSValue :=
  ContractTransaction this_signer "400000".

(** The entries of [getFinishedOrders] and [getMarketOrderHistory]. *)
Definition past_order (volume_bound : Z)
    (relativeFromInSec relativeToInSec : JSNumber) : Rand JSValue :=
  let+ direction := random_direction in
  let+ volume := random_times volume_bound in
  let+ price := random_times 2000 in
  let+ date := now in
  let+ r := random in
  let+ transactionHash := random_hex 64 in
  pure (JObject
    [("direction", direction); ("volume", volume); ("price", price);
     ("timestamp",
      json (minus date
              (times (times r (minus (of_number relativeFromInSec)
                                 (of_number relativeToInSec)))
                 (of_Z 1000))));
     ("transactionHash", transactionHash)]).

Definition exchange_getFinishedOrders (pairIds : list string)
    (relativeFromInSec relativeToInSec : JSNumber) : Rand JSValue :=
  let+ orders :=
    forEach pairIds
      (fun orders id =>
         let+ r := random in
         let+ list :=
           Array_from (floor_length (times r (of_Z 10)))
             (past_order 1000 relativeFromInSec relativeToInSec) in
         pure (object_set orders id (JArray list)))
      [] in
  pure (JObject orders).

Definition exchange_getMarketOrderHistory (pairIds : list string)
    (relativeFromInSec relativeToInSec : JSNumber) : Rand JSValue :=
  let+ orders :=
    forEach pairIds
      (fun orders id =>
         let+ r := random in
         let+ list :=
           Array_from (floor_length (times r (of_Z 15)))
             (past_order 500 relativeFromInSec relativeToInSec) in
         pure (object_set orders id (JArray list)))
      [] in
  pure (JObject orders).

(** *** [prices] *)

Definition prices_getPrices (pairIds : list string)
    (relativeTimeInSec : JSNumber) : Rand JSValue :=
  let+ prices :=
    forEach pairIds
      (fun prices id =>
         let+ price := random_times 2000 in
         pure (object_set prices id price))
      [] in
  pure (JObject prices).

Definition prices_getKlines (pairIds : list string)
    (resolution : KlineResolution)
    (relativeFromInSec relativeToInSec : JSNumber) : Rand JSValue :=
  let+ klines :=
    Array_map pairIds
      (fun id =>
         let+ time := now in
         let+ open := random_times 2000 in
         let+ high := random_times 2000 in
         let+ low := random_times 2000 in
         let+ close := random_times 2000 in
         let+ volume := random_times 10000 in
         pure (JObject
           [("symbol", JString id); ("time", json time); ("open", open);
            ("high", high); ("low", low); ("close", close);
            ("volume", volume)])) in
  pure (JArray klines).

(** The method a delegate call of the server runs, on the client [sdk]. *)
Definition method_of (sdk : BitlySDK) (call : SdkCall) : Rand JSValue :=
  match call with
  | balancesInBank tokenAddresses => wallet_balancesInBank tokenAddresses
  | getMarketsInfo pairIds => exchange_getMarketsInfo pairIds
  | getTokensInfo tokensAddress => exchange_getTokensInfo tokensAddress
  | getVolumes pairIds t => exchange_getVolumes pairIds t
  | getOrderbook pairId low high => exchange_getOrderbook pairId low high
  | getLimitOrders pairIds => exchange_getLimitOrders pairIds
  | placeLimitOrder pairId direction price volume =>
      exchange_placeLimitOrder (sdk_signer sdk) pairId direction price volume
  | placeMarketOrder pairId direction volume curPrice slippage =>
      exchange_placeMarketOrder (sdk_signer sdk) pairId direction volume
        curPrice slippage
  | cancelLimitOrder pairId direction point =>
      exchange_cancelLimitOrder (sdk_signer sdk) pairId direction point
  | cancelAllLimitOrder pairId =>
      exchange_cancelAllLimitOrder (sdk_signer sdk) pairId
  | claimEarning pairId direction point =>
      exchange_claimEarning (sdk_signer sdk) pairId direction point
  | claimAllEarnings pairId =>
      exchange_claimAllEarnings (sdk_signer sdk) pairId
  | getFinishedOrders pairIds from to =>
      exchange_getFinishedOrders pairIds from to
  | getMarketOrderHistory pairIds from to =>
      exchange_getMarketOrderHistory pairIds from to
  | getPrices pairIds t => prices_getPrices pairIds t
  | getKlines pairIds resolution from to =>
      prices_getKlines pairIds resolution from to
  end.

End Methods.

(** The mock as the exchange client of the server. The values a call draws
    are given by the events before it. *)
Definition client {runtime : Runtime}
    (network : list Event -> JsonRpcProvider -> Completion FeeData)
    (Math_random Date_now : list Event -> nat -> Double) : World :=
  MockBitlySDK network
    (fun history sdk call =>
       fst (method_of (Math_random history) (Date_now history) sdk call
              0%nat)).

(** The ids a call asks about, for the methods that return an object keyed
    by them. *)
Definition keyed_by (call : SdkCall) : option (list string) :=
  match call with
  | balancesInBank ids | getVolumes ids _ | getLimitOrders ids
  | getFinishedOrders ids _ _ | getMarketOrderHistory ids _ _
  | getPrices ids _ => Some ids
  | _ => None
  end.

(** The calls that return a [ContractTransaction]. *)
Definition transacts (call : SdkCall) : bool :=
  match call with
  | placeLimitOrder _ _ _ _ | placeMarketOrder _ _ _ _ _
  | cancelLimitOrder _ _ _ | cancelAllLimitOrder _ | claimEarning _ _ _
  | claimAllEarnings _ => true
  | _ => false
  end.

(** A name that is neither an array index nor [__proto__]. *)
Definition plain (key : string) : Prop :=
  array_index key = None /\ key <> "__proto__".

(** The own property names of an object, in order. *)
Definition keys (obj : list (string * JSValue)) : list string := map fst obj.

(** [entry.field], for an entry of an array of objects. *)
Definition field (name : string) (entry : JSValue) : option JSValue :=
  match entry with
  | JObject members => member name members
  | _ => None
  end.

(** A runtime for the examples, in which [Math.random] returns 0 every
    time. A Number is the numeral [JSON.stringify] prints for it. The
    operations return their first operand, which is their result wherever
    the methods use it: a product has 0 as its first factor, the sum and the
    difference from [Date.now()] have 0 as their second operand, and the
    difference of two arguments is only ever multiplied by 0. An address is
    not computed from the key: the key, after [0x], stands for it. *)
Definition still : Runtime :=
  {| Double := JSNumber;
     of_number := fun n => n;
     times := fun x _ => x;
     plus := fun x _ => x;
     minus := fun x _ => x;
     json := JNumber;
     toFixed6 := fun _ => "0.000000";
     hex_digits := fun _ _ => EmptyString;
     floor_length := fun _ => 0%nat;
     above_half := fun _ => false;
     Wallet_address := fun signer => "0x" +:+ wallet_privateKey signer |}.

End Mock.

(* ===================================================================== *)
(** * Overlapping invocations *)
(* ===================================================================== *)

(** The handlers are [async] functions: an invocation runs until its next
    [await], and the invocations that are suspended resume in any order.
    What runs between two [await]s runs without interruption. *)
Module Async.

(** An invocation of a tool, by the [await] it is suspended at. A call that
    has been made carries its outcome, delivered when the invocation
    resumes. [Ready]: not started. [AwaitFeeData]: in [createSDK], at
    [await provider.getFeeData()]. [AwaitSetSigner]: in [createSDK], at
    [await sdk.setSigner(...)]. [AwaitCreateSDK]: in the handler, at
    [await createSDK(args.networkId)]. [AwaitSetProvider]: at
    [await sdk.setProvider(PROVIDERS[args.networkId])]. [AwaitDelegate]: at
    the [await] of the delegate operation. [AwaitSetTimeout]: at
    [await setTimeout(...)]. [AwaitUpdateKline]: at
    [await sdk.prices.updateKline(args.pairId)]. [Finished]: returned or
    thrown. *)
Inductive Thread :=
| Ready (call : ToolCall)
| AwaitFeeData (call : ToolCall) (networkId : Z) (provider : handle)
    (answer : Completion FeeData)
| AwaitSetSigner (call : ToolCall) (networkId : Z)
    (outcome : Completion BitlySDK)
| AwaitCreateSDK (call : ToolCall) (networkId : Z)
    (outcome : Completion BitlySDK)
| AwaitSetProvider (call : ToolCall) (outcome : Completion BitlySDK)
| AwaitDelegate (call : ToolCall) (sdk : BitlySDK)
    (outcome : Completion JSValue)
| AwaitSetTimeout (pairId : string) (sdk : BitlySDK) (info : JSValue)
| AwaitUpdateKline (info : JSValue) (outcome : Completion unit)
| Finished (result : Completion string).

Section Threads.
Context {platform : Platform} {world : World}.

(** Make the call [m] and suspend at its [await]. *)
Definition suspend {A} (m : M A) (at_await : Completion A -> Thread)
  : State -> Thread * State :=
  fun st => (at_await (fst (m st)), snd (m st)).

(** [createSDK] from its start to [await provider.getFeeData()]. *)
Definition createSDK_to_getFeeData (call : ToolCall) (networkId : Z)
  : State -> Thread * State :=
  fun st =>
  if negb (truthy (WALLET_PRIVATE_KEY (globalConfig st)))
     || negb (truthy (INFURA_API_KEY (globalConfig st))) then
    (AwaitCreateSDK call networkId
       (Throw (ThrowError
          "Configuration not provided. Use configure_from_url tool or set MCP_SERVER_URL with base64 encoded config parameter.")),
     st)
  else
  match PROVIDERS st !! networkId with
  | None =>
      (AwaitCreateSDK call networkId
         (Throw (ThrowError
            ("Provider not available for network " +:+ pretty networkId
               +:+ ". Configuration may not be properly set."))),
       st)
  | Some provider =>
      suspend (provider_getFeeData provider)
        (AwaitFeeData call networkId provider) st
  end.

(** [createSDK] from the answer of the fee query to
    [await sdk.setSigner(...)]: the assignment of the accessor, the client,
    the wallet. A [new Wallet] that throws is caught at once. *)
Definition createSDK_to_setSigner (call : ToolCall) (networkId : Z)
    (provider : handle) (feeData : FeeData) : State -> Thread * State :=
  fun st =>
  let st1 :=
    snd (provider_set_getFeeData provider (FeeForced (gasPrice feeData))
           st) in
  let st2 := snd (new_BitlySDK networkId provider st1) in
  match fst (new_BitlySDK networkId provider st1) with
  | Throw t => (AwaitCreateSDK call networkId (Throw t), st2)
  | Normal sdk =>
      match new_Wallet (WALLET_PRIVATE_KEY (globalConfig st2))
              (PROVIDERS st2 !! networkId) with
      | Throw error =>
          (AwaitCreateSDK call networkId
             (Throw (ThrowResponse 401
                ("Unauthorized - "
                   +:+ error_message_or "Invalid wallet configuration"
                         error))),
           st2)
      | Normal signer =>
          suspend (setSigner sdk signer) (AwaitSetSigner call networkId) st2
      end
  end.

(** What an invocation does from where it is suspended to its next
    [await]. [configure_from_url] has no [await]. *)
Definition step (thread : Thread) : State -> Thread * State :=
  fun st =>
  match thread with
  | Ready call =>
      match tool_networkId call with
      | Some networkId => createSDK_to_getFeeData call networkId st
      | None =>
          match call with
          | Call_configure_from_url url =>
              suspend (configure_from_url url) Finished st
          | _ => (thread, st)
          end
      end
  | AwaitFeeData call networkId provider (Throw t) =>
      (AwaitCreateSDK call networkId (Throw t), st)
  | AwaitFeeData call networkId provider (Normal feeData) =>
      createSDK_to_setSigner call networkId provider feeData st
  | AwaitSetSigner call networkId (Throw error) =>
      (AwaitCreateSDK call networkId
         (Throw (ThrowResponse 401
            ("Unauthorized - "
               +:+ error_message_or "Invalid wallet configuration" error))),
       st)
  | AwaitSetSigner call networkId (Normal sdk) =>
      (AwaitCreateSDK call networkId (Normal sdk), st)
  | AwaitCreateSDK call networkId (Throw t) => (Finished (Throw t), st)
  | AwaitCreateSDK call networkId (Normal sdk) =>
      suspend (setProvider sdk (PROVIDERS st !! networkId))
        (AwaitSetProvider call) st
  | AwaitSetProvider call (Throw t) => (Finished (Throw t), st)
  | AwaitSetProvider call (Normal sdk) =>
      match tool_delegate call with
      | Some operation =>
          suspend (delegate sdk operation) (AwaitDelegate call sdk) st
      | None => (thread, st)
      end
  | AwaitDelegate call sdk (Throw t) => (Finished (Throw t), st)
  | AwaitDelegate call sdk (Normal info) =>
      match call with
      | Call_place_limit_order networkId pairId _ _ _
      | Call_place_market_order networkId pairId _ _ _ _ =>
          suspend
            (setTimeout
               (default DEFAULT_BLOCK_TIME (BLOCK_TIME !! networkId) + 1000))
            (fun _ => AwaitSetTimeout pairId sdk info) st
      | _ => (Finished (Normal (JSON_stringify info)), st)
      end
  | AwaitSetTimeout pairId sdk info =>
      suspend (updateKline sdk pairId) (AwaitUpdateKline info) st
  | AwaitUpdateKline info (Throw t) => (Finished (Throw t), st)
  | AwaitUpdateKline info (Normal _) =>
      (Finished (Normal (JSON_stringify info)), st)
  | Finished result => (thread, st)
  end.

(** The server with its invocations in progress. *)
Record Server := mkServer {
  store : State;
  threads : list Thread
}.

(** What happens next: a tool is invoked and runs to its first [await],
    the invocation [i] resumes and runs to its next [await], or something
    else (the exchange client, sending a transaction) calls
    [getFeeData] on a provider object. *)
Inductive Move :=
| Arrive (call : ToolCall)
| Resume (i : nat)
| Ask (provider : handle).

Definition tick (move : Move) (s : Server) : Server :=
  match move with
  | Arrive call =>
      mkServer (snd (step (Ready call) (store s)))
        (threads s ++ [fst (step (Ready call) (store s))])
  | Resume i =>
      match threads s !! i with
      | Some thread =>
          mkServer (snd (step thread (store s)))
            (<[i := fst (step thread (store s))]> (threads s))
      | None => s
      end
  | Ask provider =>
      mkServer (snd (provider_getFeeData provider (store s))) (threads s)
  end.

Definition run (moves : list Move) (s : Server) : Server :=
  foldl (fun s move => tick move s) s moves.

(** The server after start-up, with no invocation yet. *)
Definition started (MCP_SERVER_URL : option string) : Server :=
  mkServer (snd (startup MCP_SERVER_URL initial_state)) [].

(** The states a server goes through, invocations overlapping. *)
Definition reachable (s : Server) : Prop :=
  exists MCP_SERVER_URL moves, s = run moves (started MCP_SERVER_URL).

End Threads.

(** The gas price an invocation holds from its fee query on the provider
    object [h], when it is suspended there with an answer. *)
Definition captured (h : handle) (thread : Thread) : option (option Z) :=
  match thread with
  | AwaitFeeData _ _ provider (Normal feeData) =>
      if Nat.eqb provider h then Some (gasPrice feeData) else None
  | _ => None
  end.

(** What holds of the provider objects in every state of a server whose
    invocations overlap: the registry is as in a server that runs them one
    by one, and an invocation suspended at a fee query that was answered
    holds a provider object. *)
Definition overlap_invariant {platform : Platform} (s : Server) : Prop :=
  registry_invariant (store s)
  /\ forall thread call n h feeData,
       thread ∈ threads s ->
       thread = AwaitFeeData call n h (Normal feeData) ->
       is_Some (heap (store s) !! h).

(** The moves of one invocation that runs from its start to its end with
    nothing in between, as the [i]-th invocation of the server: the longest
    handler has seven [await]s. *)
Definition alone (call : ToolCall) (i : nat) : list Move :=
  Arrive call :: replicate 7 (Resume i).

End Async.

(* ===================================================================== *)
(** * Theorems *)
(* ===================================================================== *)

Local Open Scope js_scope.

(** ** The host model on known values *)

Example base64_ignores_what_is_not_a_digit :
  NodeModel.Buffer_from_base64_toString_utf8 "bm90 IGpz\b24=" = "not json"
  /\ NodeModel.Buffer_from_base64_toString_utf8 "bm90IGpzb24=bm90" = "not json"
  /\ NodeModel.Buffer_from_base64_toString_utf8 "@@@@" = EmptyString.
Proof. vm_compute. repeat split; reflexivity. Qed.

Example searchParams_of_a_query :
  NodeModel.new_URL "http://localhost:8080/mcp?a=1&config=x%3D+y&config=z#f"
  = Normal (mkURL [("a", "1"); ("config", "x= y"); ("config", "z")]).
Proof. vm_compute. reflexivity. Qed.

Example Number_toString_of_doubles :
  map NodeModel.Number_toString
    [mkNum false 1 (-1); mkNum false 1 21; mkNum true 435 (-2);
     mkNum false 5 (-324); mkNum false 2 (-324); mkNum false 1 (-7);
     mkNum false 9007199254740993 0; mkNum false 1 400;
     mkNum false 30000000000000004 (-17); mkNum true 0 0]
  = ["0.1"; "1e+21"; "-4.35"; "5e-324"; "0"; "1e-7"; "9007199254740992";
     "Infinity"; "0.30000000000000004"; "0"].
Proof. vm_compute. reflexivity. Qed.

(** A numeral is falsy exactly when it rounds to zero, on these values. *)
Example zero_numbers_round_to_zero :
  forallb (fun x =>
             Bool.eqb (number_is_zero x)
               (NodeModel.Double_eqb (NodeModel.round_to_double x)
                  NodeModel.DZero))
    [mkNum false 0 0; mkNum true 0 5; mkNum false 1 (-400);
     mkNum false 2 (-324); mkNum false 3 (-324); mkNum false 5 (-324);
     mkNum false 1 0; mkNum false 1 400;
     mkNum false 24703282292062327 (-340);
     mkNum false 24703282292062328 (-340)]
  = true.
Proof. vm_compute. reflexivity. Qed.

Example JSON_parse_then_stringify :
  NodeModel.JSON_parse
    (NodeModel.Buffer_from_base64_toString_utf8
       "IFsxLjVlLTMsIHRydWUsbnVsbCwiYUFcbiIsIHsiayI6W119LCAtMCwgMTBFKzJdIA==")
  = Normal
      (JArray [JNumber (mkNum false 15 (-4)); JBool true; JNull;
               JString (String "a" (String "A" (String "010" EmptyString)));
               JObject [("k", JArray [])]; JNumber (mkNum true 0 0);
               JNumber (mkNum false 10 2)])
  /\ NodeModel.JSON_stringify
       (JArray [JNumber (mkNum false 15 (-4)); JBool true; JNull;
                JObject [("k", JArray [])]; JNumber (mkNum false 10 2)])
     = "[0.0015,true,null,{" +:+ String NodeModel.dquote "k"
         +:+ String NodeModel.dquote ":[]},1000]".
Proof. vm_compute. repeat split; reflexivity. Qed.

(** ToString of the values a template literal can meet. *)
Example ToString_of_JSON_values :
  map (ToString NodeModel.Number_toString 2%N)
    [JString "key1"; JNumber (mkNum false 5 0); JBool true;
     JArray [JString "a"; JNull; JArray [JNumber (mkNum false 1 0)]];
     JObject [("k", JNull)];
     JObject [("toString", JNumber (mkNum false 1 0))];
     JArray [JObject [("toString", JNull)]];
     JArray [JArray [JArray []]]]
  = [Normal "key1"; Normal "5"; Normal "true"; Normal "a,,1";
     Normal "[object Object]";
     Throw (ThrowError "Cannot convert object to primitive value");
     Throw (ThrowError "Cannot convert object to primitive value");
     Throw (ThrowError "Maximum call stack size exceeded")].
Proof. vm_compute. reflexivity. Qed.

Section Monad.
Context {A B : Type}.
Variable R : State -> State -> Prop.
Hypothesis R_refl : forall st, R st st.
Hypothesis R_trans : forall a b c, R a b -> R b c -> R a c.

Lemma effect_ret (a : A) : effect R (ret a).
Proof. intros st. apply R_refl. Qed.

Lemma effect_throw (t : Thrown) : effect R (@throw A t).
Proof. intros st. apply R_refl. Qed.

Lemma effect_lift (c : Completion A) : effect R (lift c).
Proof. intros st. apply R_refl. Qed.

Lemma effect_get : effect R get.
Proof. intros st. apply R_refl. Qed.

Lemma effect_bind (m : M A) (k : A -> M B) :
  effect R m -> (forall a, effect R (k a)) -> effect R (bind m k).
Proof.
  intros Hm Hk st. unfold bind. specialize (Hm st).
  destruct (m st) as [[a|t] st1]; simpl in *; [|done].
  eapply R_trans; [exact Hm | apply Hk].
Qed.

Lemma effect_try_catch (body : M A) (handler : Thrown -> M A) :
  effect R body -> (forall t, effect R (handler t)) ->
  effect R (try_catch body handler).
Proof.
  intros Hm Hk st. unfold try_catch. specialize (Hm st).
  destruct (body st) as [[a|t] st1]; simpl in *; [done|].
  eapply R_trans; [exact Hm | apply Hk].
Qed.

End Monad.

Lemma effect_modify (R : State -> State -> Prop) (f : State -> State) :
  (forall st, R st (f st)) -> effect R (modify f).
Proof. intros H st. apply H. Qed.

Lemma same_store_refl st : same_store st st.
Proof. done. Qed.

Lemma same_store_trans a b c : same_store a b -> same_store b c -> same_store a c.
Proof. unfold same_store. intros (?&?&?) (?&?&?). repeat split; congruence. Qed.

Lemma same_config_refl st : same_config st st.
Proof. done. Qed.

Lemma same_config_trans a b c :
  same_config a b -> same_config b c -> same_config a c.
Proof. unfold same_config. intros (?&?) (?&?). repeat split; congruence. Qed.

Lemma same_store_config a b : same_store a b -> same_config a b.
Proof. unfold same_store, same_config. tauto. Qed.

Lemma add_event_same_store e st : same_store st (add_event e st).
Proof. done. Qed.

Create HintDb effects.
#[export] Hint Resolve same_store_refl same_store_trans same_config_refl
  same_config_trans add_event_same_store : effects.

(** Builds [effect R m] along the binds of [m]. *)
Ltac effect_steps :=
  repeat first
    [ apply effect_bind; [solve [eauto with effects] | | intros ? ]
    | apply effect_try_catch; [solve [eauto with effects] | | intros ? ]
    | apply effect_ret; solve [eauto with effects]
    | apply effect_throw; solve [eauto with effects]
    | apply effect_lift; solve [eauto with effects]
    | apply effect_get; solve [eauto with effects]
    | apply effect_modify; intros ?; solve [eauto with effects]
    | assumption ].

Section Facts.
Context {platform : Platform} {world : World}.

(** *** The exchange client and the timer only add events *)

Lemma setSigner_store sdk w : effect same_store (setSigner sdk w).
Proof. unfold setSigner. effect_steps. Qed.

Lemma setProvider_store sdk p : effect same_store (setProvider sdk p).
Proof. unfold setProvider. effect_steps. Qed.

Lemma delegate_store sdk c : effect same_store (delegate sdk c).
Proof. unfold delegate. effect_steps. Qed.

Lemma updateKline_store sdk p : effect same_store (updateKline sdk p).
Proof. unfold updateKline. effect_steps. Qed.

Lemma setTimeout_store ms : effect same_store (setTimeout ms).
Proof. unfold setTimeout. effect_steps. Qed.

Lemma new_BitlySDK_store n p : effect same_store (new_BitlySDK n p).
Proof. unfold new_BitlySDK. effect_steps. Qed.

End Facts.

Section Decoder.
Context {platform : Platform}.

(** The state after [lines] were written to the console. *)
Lemma console_only st :
  st = mkState (globalConfig st) (PROVIDERS st) (heap st) (console st ++ [])
         (trace st).
Proof. destruct st; simpl. by rewrite app_nil_r. Qed.

(** [parseConfigFromURL] returns what the design's [decode] returns, less
    the error kind, and writes to the console at most. *)
Lemma parseConfigFromURL_decode url st :
  exists lines,
    parseConfigFromURL url st
    = (Normal (forget_kind (decode url)),
       mkState (globalConfig st) (PROVIDERS st) (heap st)
         (console st ++ lines) (trace st)).
Proof.
  unfold parseConfigFromURL, decode, try_catch, bind, lift, ret, throw, modify.
  destruct (new_URL url) as [urlObj|t]; simpl; [|by eexists [_]].
  destruct (searchParams_get _ _) as [configParam|]; simpl;
    [|exists []; f_equal; apply console_only].
  destruct (String.eqb configParam _); simpl;
    [exists []; f_equal; apply console_only|].
  destruct (JSON_parse _) as [document|t]; simpl; [|by eexists [_]].
  destruct document; simpl; try by eexists [_].
  destruct (truthy (member "WALLET_PRIVATE_KEY" members)); simpl;
    [|by eexists [_]].
  destruct (truthy (member "INFURA_API_KEY" members)); simpl;
    [|by eexists [_]].
  exists []; f_equal; apply console_only.
Qed.

Lemma parseConfigFromURL_result url st :
  fst (parseConfigFromURL url st) = Normal (forget_kind (decode url)).
Proof. destruct (parseConfigFromURL_decode url st) as [l ->]. done. Qed.

Lemma parseConfigFromURL_store url : effect same_store (parseConfigFromURL url).
Proof. intros st. destruct (parseConfigFromURL_decode url st) as [l ->]. done. Qed.

Lemma parseConfigFromURL_trace url st :
  trace (snd (parseConfigFromURL url st)) = trace st.
Proof. destruct (parseConfigFromURL_decode url st) as [l ->]. done. Qed.

(** A decoded configuration has both fields set. *)
Lemma decode_configured url config :
  decode url = inr config ->
  truthy (WALLET_PRIVATE_KEY config) = true
  /\ truthy (INFURA_API_KEY config) = true.
Proof.
  unfold decode. intros H. repeat case_match; simplify_eq.
  simpl. by apply andb_true_iff.
Qed.

(** *** The registry build *)

Lemma createProviders_built config st key :
  truthy (INFURA_API_KEY config) = true ->
  key_text config = Some key ->
  createProviders config st
  = (Normal (registry_at (length (heap st))),
     set_heap (heap st ++ fresh_providers key) st).
Proof.
  intros Htruthy Hkey. unfold createProviders. rewrite Htruthy. simpl.
  unfold key_text in Hkey. unfold template_ToString.
  destruct (INFURA_API_KEY config) as [v|]; [|done].
  destruct (ToString Number_toString join_depth v) as [text|t]; [|done].
  injection Hkey as ->.
  unfold bind, lift, ret, new_JsonRpcProvider, set_heap, registry_at,
    fresh_providers, DEFAULT_NETWORK_ID. simpl.
  rewrite !length_app. simpl.
  rewrite <- !app_assoc. simpl.
  replace (length (heap st) + 1 + 1 + 1)%nat with (length (heap st) + 3)%nat
    by lia.
  replace (length (heap st) + 1 + 1)%nat with (length (heap st) + 2)%nat
    by lia.
  done.
Qed.

Lemma createProviders_failed config st :
  truthy (INFURA_API_KEY config) = false \/ key_text config = None ->
  exists t, createProviders config st = (Throw t, st).
Proof.
  unfold createProviders, key_text, template_ToString.
  intros [Hfalsy | Hkey].
  - rewrite Hfalsy. simpl. by eexists.
  - destruct (truthy _); simpl; [|by eexists].
    destruct (INFURA_API_KEY config) as [v|]; [|done].
    destruct (ToString Number_toString join_depth v) as [text|t]; [done|].
    by eexists.
Qed.

(** *** Reconfiguration, case by case *)

Lemma updateConfigFromURL_failed_decode url st e :
  decode url = inl e ->
  same_store st (snd (updateConfigFromURL url st))
  /\ trace (snd (updateConfigFromURL url st)) = trace st.
Proof.
  intros Hdecode. unfold updateConfigFromURL, bind.
  destruct (parseConfigFromURL_decode url st) as [l ->].
  rewrite Hdecode. done.
Qed.

Lemma updateConfigFromURL_built url st config key :
  decode url = inr config ->
  key_text config = Some key ->
  let st' := snd (updateConfigFromURL url st) in
  globalConfig st' = config
  /\ PROVIDERS st' = registry_at (length (heap st))
  /\ heap st' = heap st ++ fresh_providers key
  /\ trace st' = trace st.
Proof.
  intros Hdecode Hkey.
  destruct (decode_configured _ _ Hdecode) as [_ Htruthy].
  unfold updateConfigFromURL, bind.
  destruct (parseConfigFromURL_decode url st) as [l ->].
  rewrite Hdecode. simpl. unfold try_catch, bind, get, modify. simpl.
  erewrite createProviders_built by eassumption. done.
Qed.

Lemma updateConfigFromURL_not_built url st config :
  decode url = inr config ->
  key_text config = None ->
  let st' := snd (updateConfigFromURL url st) in
  globalConfig st' = config
  /\ PROVIDERS st' = PROVIDERS st
  /\ heap st' = heap st
  /\ trace st' = trace st.
Proof.
  intros Hdecode Hkey.
  unfold updateConfigFromURL, bind.
  destruct (parseConfigFromURL_decode url st) as [l ->].
  rewrite Hdecode. simpl. unfold try_catch, bind, get, modify. simpl.
  edestruct createProviders_failed as [t ->]; [by right|]. done.
Qed.

End Decoder.

Lemma evolves_refl st : evolves st st.
Proof. split; [lia|done]. Qed.

Lemma evolves_trans a b c : evolves a b -> evolves b c -> evolves a c.
Proof. intros [? H1] [? H2]. split; [lia|]. intros h g ?. by apply H2, H1. Qed.

Lemma same_store_evolves a b : same_store a b -> evolves a b.
Proof.
  intros (_ & _ & Hheap). unfold evolves, forced. rewrite Hheap. by split.
Qed.

#[export] Hint Resolve evolves_refl evolves_trans same_store_config
  same_store_evolves : effects.

Lemma effect_weaken {A} (R R' : State -> State -> Prop) (m : M A) :
  (forall a b, R a b -> R' a b) -> effect R m -> effect R' m.
Proof. intros H Hm st. apply H, Hm. Qed.

Section Session.
Context {platform : Platform} {world : World}.

(** *** Fee queries and the override *)

Lemma provider_getFeeData_store p : effect same_store (provider_getFeeData p).
Proof.
  unfold provider_getFeeData. intros st. unfold bind, get. simpl.
  destruct (heap st !! p) as [obj|]; [|done].
  destruct (getFeeData obj); done.
Qed.

Lemma provider_set_getFeeData_config p f :
  effect same_config (provider_set_getFeeData p f).
Proof.
  intros st. unfold provider_set_getFeeData, modify. simpl.
  destruct (heap st !! p); done.
Qed.

(** A forced provider answers with its price, and nothing happens. *)
Lemma forced_getFeeData h price st :
  forced h price st ->
  provider_getFeeData h st = (Normal (mkFeeData None None None price), st).
Proof.
  intros (obj & Hobj & Hfee). unfold provider_getFeeData, bind, get. simpl.
  by rewrite Hobj, Hfee.
Qed.


(** The query and the assignment together keep every forced provider
    forced: the one they touch was either unforced, or answered with the
    price it is forced to again. *)
Lemma install_evolves {A} p (rest : FeeData -> M A) :
  (forall feeData, effect evolves (rest feeData)) ->
  effect evolves
    (let* feeData := provider_getFeeData p in
     provider_set_getFeeData p (FeeForced (gasPrice feeData));;
     rest feeData).
Proof.
  intros Hrest st. unfold bind at 1.
  destruct (provider_getFeeData p st) as [[feeData|t] st1] eqn:Hquery; simpl.
  2:{ apply same_store_evolves.
      pose proof (provider_getFeeData_store p st) as H. by rewrite Hquery in H. }
  unfold bind at 1.
  assert (evolves st (snd (provider_set_getFeeData p
                             (FeeForced (gasPrice feeData)) st1))) as Hstep.
  { revert Hquery.
    unfold provider_getFeeData, provider_set_getFeeData, bind, get, modify,
      evolves, forced.
    simpl. destruct (heap st !! p) as [obj|] eqn:Hobj; [|done].
    assert (forall st2 f,
      heap st2 = heap st ->
      (forall price, getFeeData obj = FeeForced price -> f = FeeForced price) ->
      (length (heap st) <=
         length (heap (set_heap (<[p := mkProvider (connection_url obj)
                                    (network_chainId obj) f]> (heap st2)) st2)))%nat
      /\ forall h price,
          (exists o, heap st !! h = Some o /\ getFeeData o = FeeForced price) ->
          exists o, heap (set_heap (<[p := mkProvider (connection_url obj)
                                     (network_chainId obj) f]> (heap st2)) st2)
                    !! h = Some o /\ getFeeData o = FeeForced price) as Hset.
    { intros st2 f Hheap Hsame. simpl. rewrite Hheap, length_insert.
      split; [lia|]. intros h price (o & Ho & Hprice).
      destruct (decide (h = p)) as [->|Hne].
      - rewrite Hobj in Ho. injection Ho as <-.
        rewrite list_lookup_insert_eq by (by eapply lookup_lt_Some).
        eexists. split; [done|]. simpl. by apply Hsame.
      - rewrite list_lookup_insert_ne by done. eauto. }
    destruct (getFeeData obj) eqn:Hfee; simpl.
    - unfold lift. intros [= Hrpc <-]. simpl. rewrite Hobj.
      apply (Hset (add_event _ st)); done.
    - unfold ret. intros [= <- <-]. simpl. rewrite Hobj.
      apply Hset; [done|]. by intros price [= ->]. }
  destruct (provider_set_getFeeData p _ st1) as [[[]|t] st2]; simpl in *;
    [|done].
  eapply evolves_trans; [exact Hstep|apply Hrest].
Qed.

(** *** [createSDK] *)

Lemma createSDK_config networkId : effect same_config (createSDK networkId).
Proof.
  unfold createSDK. intros st. unfold bind at 1, get. simpl.
  destruct (_ || _); [done|].
  destruct (PROVIDERS st !! networkId) as [p|]; [|done].
  revert st.
  change (effect same_config
    (let* feeData := provider_getFeeData p in
     provider_set_getFeeData p (FeeForced (gasPrice feeData));;
     let* sdk := new_BitlySDK networkId p in
     let* sdk := try_catch
         (let* st := get in
          let* signer := lift (new_Wallet (WALLET_PRIVATE_KEY (globalConfig st))
                                 (PROVIDERS st !! networkId)) in
          setSigner sdk signer)
         (fun error => throw (ThrowResponse 401
            ("Unauthorized - "
               +:+ error_message_or "Invalid wallet configuration" error))) in
     ret sdk)).
  pose proof provider_getFeeData_store.
  pose proof provider_set_getFeeData_config.
  pose proof new_BitlySDK_store. pose proof setSigner_store.
  apply effect_bind; [eauto with effects| |intros ?].
  { eapply effect_weaken; [apply same_store_config|done]. }
  apply effect_bind; [eauto with effects|done|intros ?].
  apply effect_bind; [eauto with effects| |intros ?].
  { eapply effect_weaken; [apply same_store_config|done]. }
  apply effect_bind; [eauto with effects| |intros ?]; [|effect_steps].
  apply effect_try_catch; [eauto with effects| |intros ?]; [|effect_steps].
  apply effect_bind; [eauto with effects| |intros ?]; [effect_steps|].
  apply effect_bind; [eauto with effects| |intros ?]; [effect_steps|].
  eapply effect_weaken; [apply same_store_config|done].
Qed.

End Session.

Section Tools.
Context {platform : Platform} {world : World}.

Lemma createSDK_evolves networkId : effect evolves (createSDK networkId).
Proof.
  unfold createSDK. intros st. unfold bind at 1, get. simpl.
  destruct (_ || _); [apply evolves_refl|].
  destruct (PROVIDERS st !! networkId) as [p|]; [|apply evolves_refl].
  revert st. apply install_evolves. intros feeData.
  eapply effect_weaken; [apply same_store_evolves|].
  pose proof new_BitlySDK_store. pose proof setSigner_store.
  effect_steps.
Qed.

(** Everything a handler does after [createSDK] only adds events. *)
Lemma session_config networkId : effect same_config (session networkId).
Proof.
  unfold session. pose proof (createSDK_config networkId).
  apply effect_bind; [eauto with effects|done|intros sdk].
  eapply effect_weaken; [apply same_store_config|].
  pose proof setProvider_store. effect_steps.
Qed.

Lemma session_evolves networkId : effect evolves (session networkId).
Proof.
  unfold session. pose proof (createSDK_evolves networkId).
  apply effect_bind; [eauto with effects|done|intros sdk].
  eapply effect_weaken; [apply same_store_evolves|].
  pose proof setProvider_store. effect_steps.
Qed.

(** A handler: a session, then steps that only add events. *)
Lemma handler_effect {A B} (R : State -> State -> Prop) (m : M A)
    (k : A -> M B) :
  (forall st, R st st) -> (forall a b c, R a b -> R b c -> R a c) ->
  (forall a b, same_store a b -> R a b) ->
  effect R m -> (forall a, effect same_store (k a)) -> effect R (bind m k).
Proof.
  intros Hrefl Htrans Hstore Hm Hk.
  apply effect_bind; [done|done|]. intros a.
  eapply effect_weaken; [apply Hstore|apply Hk].
Qed.

Ltac handler R session_lemma :=
  intros; apply (handler_effect R);
  [ eauto with effects | eauto with effects | eauto with effects
  | apply session_lemma
  | intros sdk;
    pose proof delegate_store; pose proof updateKline_store;
    pose proof setTimeout_store; effect_steps ].

(** A tool other than [configure_from_url] leaves [globalConfig] and
    [PROVIDERS] alone. *)
Lemma execute_config call :
  (forall url, call <> Call_configure_from_url url) ->
  effect same_config (execute call).
Proof.
  intros Hcall. destruct call; simpl; try (by destruct (Hcall url));
    [ unfold get_balance | unfold get_trade_pairs_info
    | unfold get_tokens_info | unfold get_trade_volumes
    | unfold get_orderbook | unfold get_my_open_orders
    | unfold place_limit_order | unfold place_market_order
    | unfold cancel_limit_order | unfold cancel_all_limit_order
    | unfold claim_earning | unfold claim_all_earnings
    | unfold get_finished_orders | unfold get_market_order_history
    | unfold get_prices | unfold get_klines ];
    handler same_config session_config.
Qed.

End Tools.

Section Server.
Context {platform : Platform} {world : World}.

Lemma configure_from_url_state url st :
  snd (configure_from_url url st) = snd (updateConfigFromURL url st).
Proof.
  unfold configure_from_url, bind.
  by destruct (updateConfigFromURL url st) as [[[]|t] st1].
Qed.

Lemma evolves_append st st' more :
  heap st' = heap st ++ more -> evolves st st'.
Proof.
  intros Hheap. unfold evolves, forced. rewrite Hheap, length_app.
  split; [lia|]. intros h price (obj & Hobj & Hfee).
  exists obj. split; [|done]. by apply lookup_app_l_Some.
Qed.

Lemma updateConfigFromURL_evolves url : effect evolves (updateConfigFromURL url).
Proof.
  intros st. destruct (decode url) as [e|config] eqn:Hdecode.
  - by apply same_store_evolves, (updateConfigFromURL_failed_decode url st e).
  - destruct (key_text config) as [key|] eqn:Hkey.
    + destruct (updateConfigFromURL_built url st config key Hdecode Hkey)
        as (_ & _ & Hheap & _).
      by eapply evolves_append.
    + destruct (updateConfigFromURL_not_built url st config Hdecode Hkey)
        as (_ & _ & Hheap & _).
      eapply evolves_append. by rewrite app_nil_r.
Qed.

Lemma execute_evolves call : effect evolves (execute call).
Proof.
  destruct call; simpl;
    [ unfold get_balance | unfold get_trade_pairs_info
    | unfold get_tokens_info | unfold get_trade_volumes
    | unfold get_orderbook | unfold get_my_open_orders
    | unfold place_limit_order | unfold place_market_order
    | unfold cancel_limit_order | unfold cancel_all_limit_order
    | unfold claim_earning | unfold claim_all_earnings
    | unfold get_finished_orders | unfold get_market_order_history
    | unfold get_prices | unfold get_klines | ];
    try (apply (handler_effect evolves);
         [ eauto with effects | eauto with effects | eauto with effects
         | apply session_evolves
         | intros sdk;
           pose proof delegate_store; pose proof updateKline_store;
           pose proof setTimeout_store; effect_steps ]).
  intros st. rewrite configure_from_url_state.
  apply updateConfigFromURL_evolves.
Qed.

Lemma perform_evolves a st : evolves st (perform a st).
Proof.
  destruct a; simpl.
  - apply execute_evolves.
  - apply same_store_evolves, provider_getFeeData_store.
Qed.

Lemma run_evolves activities st : evolves st (run activities st).
Proof.
  revert st. induction activities as [|a rest IH]; intros st; simpl.
  - apply evolves_refl.
  - eapply evolves_trans; [apply perform_evolves | apply IH].
Qed.

(** *** The registry invariant *)

Lemma dom_registry_at n : dom (registry_at n) = network_ids.
Proof.
  unfold registry_at, network_ids, DEFAULT_NETWORK_ID.
  rewrite !dom_insert_L, dom_empty_L. set_solver.
Qed.

Lemma lookup_registry_at n networkId h :
  registry_at n !! networkId = Some h ->
  (networkId = 84532 /\ h = n) \/ (networkId = 8453 /\ h = (n + 1)%nat)
  \/ (networkId = 137 /\ h = (n + 2)%nat)
  \/ (networkId = 690 /\ h = (n + 3)%nat).
Proof.
  unfold registry_at, DEFAULT_NETWORK_ID. intros H.
  repeat (apply lookup_insert_Some in H as [[<- <-]|[_ H]]; [tauto|]).
  by rewrite lookup_empty in H.
Qed.

Lemma registry_invariant_initial : registry_invariant initial_state.
Proof.
  split; [|split].
  - intros n h. simpl. by rewrite lookup_empty.
  - by left.
  - done.
Qed.

Lemma registry_invariant_update url st :
  registry_invariant st -> registry_invariant (snd (updateConfigFromURL url st)).
Proof.
  intros (Hheap & Hshape & Hfull).
  destruct (decode url) as [e|config] eqn:Hdecode.
  - destruct (updateConfigFromURL_failed_decode url st e Hdecode)
      as ((Hc & Hp & Hh) & _).
    unfold registry_invariant, registry_in_heap, configured.
    rewrite Hc, Hp, Hh. done.
  - destruct (key_text config) as [key|] eqn:Hkey.
    + destruct (updateConfigFromURL_built url st config key Hdecode Hkey)
        as (Hc & Hp & Hh & _).
      unfold registry_invariant, registry_in_heap, configured.
      rewrite Hc, Hp, Hh, dom_registry_at. split; [|by auto].
      intros n h Hn. rewrite length_app. simpl.
      apply lookup_registry_at in Hn. lia.
    + destruct (updateConfigFromURL_not_built url st config Hdecode Hkey)
        as (Hc & Hp & Hh & _).
      unfold registry_invariant, registry_in_heap, configured.
      rewrite Hc, Hp, Hh, Hkey. done.
Qed.

Lemma registry_invariant_config st st' :
  same_config st st' -> evolves st st' ->
  registry_invariant st -> registry_invariant st'.
Proof.
  intros (Hc & Hp) (Hlen & _) (Hheap & Hshape & Hfull).
  unfold registry_invariant, registry_in_heap, configured.
  rewrite Hc, Hp. split; [|done].
  intros n h Hn. specialize (Hheap n h Hn). lia.
Qed.

Lemma registry_invariant_perform a st :
  registry_invariant st -> registry_invariant (perform a st).
Proof.
  destruct a as [call|p]; simpl.
  - assert ((exists url, call = Call_configure_from_url url)
            \/ (forall url, call <> Call_configure_from_url url))
      as [[url ->]|Hother]
      by (destruct call; first [by right | left; by eexists]).
    + simpl. rewrite configure_from_url_state.
      apply registry_invariant_update.
    + apply registry_invariant_config.
      * by apply execute_config.
      * apply execute_evolves.
  - apply registry_invariant_config.
    + apply same_store_config, provider_getFeeData_store.
    + apply same_store_evolves, provider_getFeeData_store.
Qed.

Lemma registry_invariant_startup env :
  registry_invariant (snd (startup env initial_state)).
Proof.
  unfold startup. destruct env as [url|]; [|apply registry_invariant_initial].
  destruct (String.eqb url _); [apply registry_invariant_initial|].
  unfold bind at 1. simpl.
  apply registry_invariant_update.
  apply registry_invariant_initial.
Qed.

Lemma registry_invariant_reachable st :
  reachable st -> registry_invariant st.
Proof.
  intros (env & activities & ->).
  generalize (registry_invariant_startup env).
  generalize (snd (startup env initial_state)).
  induction activities as [|a rest IH]; intros st0 Hinv; simpl; [done|].
  apply IH. by apply registry_invariant_perform.
Qed.

End Server.

(* ===================================================================== *)
(** * The claims *)
(* ===================================================================== *)

Section Claims.
Context {platform : Platform} {world : World}.

(** C4. [createSDK] checks its preconditions in order: without both fields
    of the configuration set it throws the not-configured error, whatever
    the network id; with them set and no provider registered for the network
    id it throws the unknown-network error. The two errors differ, and in
    both cases the state is the one before the call. *)
Theorem createSDK_preconditions_in_order (networkId : Z) (st : State) :
  (configured st = false ->
   createSDK networkId st = (Throw NotConfigured, st))
  /\ (configured st = true -> PROVIDERS st !! networkId = None ->
      createSDK networkId st = (Throw (UnknownNetwork networkId), st))
  /\ NotConfigured <> UnknownNetwork networkId.
Proof.
  unfold configured, createSDK, bind, get, throw. simpl.
  split; [|split].
  - intros Hfalsy. apply andb_false_iff in Hfalsy.
    destruct Hfalsy as [-> | ->]; simpl; [done|].
    by rewrite orb_true_r.
  - intros Hset Hnone. apply andb_true_iff in Hset as [-> ->]. simpl.
    by rewrite Hnone.
  - discriminate.
Qed.

(** C9, as the code has it. When both fields are set and a provider is
    registered for the network id, a wallet key from which [new Wallet]
    cannot make a signer makes [createSDK] fail: with the error of the fee
    query if that query, which comes first, fails; otherwise with the 401
    response whose status message is [Unauthorized - ] followed by the
    message of the cause. That response is not an [Error]. *)
Theorem createSDK_unauthorized (networkId : Z) (st : State) (h : handle)
    (cause : Thrown) :
  configured st = true ->
  PROVIDERS st !! networkId = Some h ->
  new_Wallet (WALLET_PRIVATE_KEY (globalConfig st)) (Some h) = Throw cause ->
  fst (createSDK networkId st)
  = match fst (provider_getFeeData h st) with
    | Normal _ => Throw (Unauthorized cause)
    | Throw t => Throw t
    end
  /\ (forall message, Unauthorized cause <> ThrowError message)
  /\ (forall message, cause = ThrowError message ->
      Unauthorized cause
      = ThrowResponse 401 ("Unauthorized - " +:+ message)).
Proof.
  intros Hset Hprovider Hwallet.
  split; [|split; [done | by intros message ->]].
  apply andb_true_iff in Hset as [Hw Hk].
  unfold createSDK. unfold bind at 1, get. simpl.
  rewrite Hw, Hk, Hprovider. simpl.
  unfold bind at 1.
  pose proof (provider_getFeeData_store h st) as Hstore.
  destruct (provider_getFeeData h st) as [[feeData|t] st1]; [|done].
  destruct Hstore as (Hc & Hp & _). cbn [snd] in Hc, Hp.
  unfold bind at 1.
  pose proof (provider_set_getFeeData_config h
                (FeeForced (gasPrice feeData)) st1) as Hset.
  destruct (provider_set_getFeeData h _ st1) as [[[]|t] st2] eqn:Hassign.
  2:{ unfold provider_set_getFeeData, modify in Hassign. done. }
  destruct Hset as (Hc2 & Hp2). cbn [snd] in Hc2, Hp2.
  unfold new_BitlySDK, bind, modify, ret, try_catch, get, lift, throw.
  cbn [globalConfig PROVIDERS add_event].
  rewrite Hc2, Hp2, Hc, Hp, Hprovider, Hwallet. done.
Qed.

(** C6, as the code has it. [parseConfigFromURL] never throws. It returns
    the configuration that the decoder of the design returns, and [null] in
    place of each of its error kinds: the failure points are not told apart
    by the result. The invalid-encoding kind does not occur, the base64
    decoder having no failure. The call leaves [globalConfig], [PROVIDERS],
    the provider objects and the trace as they were. *)
Theorem parseConfigFromURL_returns_null_on_failure (url : string) (st : State) :
  fst (parseConfigFromURL url st) = Normal (forget_kind (decode url))
  /\ decode url <> inl InvalidEncoding
  /\ same_store st (snd (parseConfigFromURL url st))
  /\ trace (snd (parseConfigFromURL url st)) = trace st.
Proof.
  split; [apply parseConfigFromURL_result|].
  split; [|split;
    [apply parseConfigFromURL_store | apply parseConfigFromURL_trace]].
  unfold decode. repeat case_match; discriminate.
Qed.

(** C7. When [parseConfigFromURL] fails on a source, that is returns
    [null], [updateConfigFromURL] and the [configure_from_url] tool leave
    [globalConfig], [PROVIDERS] and the provider objects as they were. *)
Theorem failed_decode_keeps_configuration (url : string) (st : State) :
  fst (parseConfigFromURL url st) = Normal None ->
  same_store st (snd (updateConfigFromURL url st))
  /\ same_store st (snd (configure_from_url url st)).
Proof.
  rewrite parseConfigFromURL_result, configure_from_url_state.
  destruct (decode url) as [e|config] eqn:Hdecode; [|done]. intros _.
  split; by apply (updateConfigFromURL_failed_decode url st e).
Qed.

(** C8. In a running server, a registry build that succeeds returns a
    mapping with exactly the four network ids, each to its own provider
    object, created by this build with the chain id of its network and the
    prototype's fee accessor. No handle of the registry in place is in the
    new mapping, the objects that existed before are as they were, and
    [updateConfigFromURL] with a source of that configuration puts the new
    mapping in the place of the old one. *)
Theorem successful_build_is_complete_and_fresh (config : Config)
    (st st' : State) (providers : gmap Z handle) :
  reachable st ->
  createProviders config st = (Normal providers, st') ->
  dom providers = network_ids
  /\ (forall networkId, networkId ∈ network_ids ->
      exists h obj,
        providers !! networkId = Some h
        /\ heap st' !! h = Some obj
        /\ network_chainId obj = networkId
        /\ getFeeData obj = FeeFromNetwork
        /\ heap st !! h = None)
  /\ (forall n1 n2 h,
      providers !! n1 = Some h -> providers !! n2 = Some h -> n1 = n2)
  /\ (forall n1 n2 h1 h2,
      PROVIDERS st !! n1 = Some h1 -> providers !! n2 = Some h2 -> h1 <> h2)
  /\ (forall h obj, heap st !! h = Some obj -> heap st' !! h = Some obj)
  /\ (forall url,
      decode url = inr config ->
      PROVIDERS (snd (updateConfigFromURL url st)) = providers).
Proof.
  intros Hreach Hbuild.
  destruct (registry_invariant_reachable st Hreach) as (Hin & _).
  assert (exists key, truthy (INFURA_API_KEY config) = true
                      /\ key_text config = Some key) as (key & Htruthy & Hkey).
  { destruct (truthy (INFURA_API_KEY config)) eqn:Htruthy.
    - destruct (key_text config) as [key|] eqn:Hkey; [by exists key|].
      destruct (createProviders_failed config st) as [t Ht]; [by right|].
      congruence.
    - destruct (createProviders_failed config st) as [t Ht]; [by left|].
      congruence. }
  rewrite (createProviders_built config st key Htruthy Hkey) in Hbuild.
  injection Hbuild as <- <-. cbn [heap set_heap].
  split; [apply dom_registry_at|].
  split; [|split; [|split; [|split]]].
  - intros networkId Hid. unfold network_ids in Hid.
    assert (networkId = 84532 \/ networkId = 8453 \/ networkId = 137
            \/ networkId = 690) as Hcases
      by (rewrite !elem_of_union, !elem_of_singleton in Hid; tauto).
    assert (forall i obj,
      fresh_providers key !! i = Some obj ->
      (heap st ++ fresh_providers key) !! (length (heap st) + i)%nat
      = Some obj) as Hfresh.
    { intros i obj Hi. rewrite lookup_app_r by lia.
      by replace (length (heap st) + i - length (heap st))%nat with i by lia. }
    unfold registry_at, DEFAULT_NETWORK_ID.
    destruct Hcases as [-> | [-> | [-> | ->]]].
    + exists (length (heap st)), (mkProvider
        ("https://base-sepolia.infura.io/v3/" +:+ key) 84532 FeeFromNetwork).
      split; [by simplify_map_eq|].
      split; [|split; [done|split; [done|apply lookup_ge_None; lia]]].
      specialize (Hfresh 0%nat). rewrite Nat.add_0_r in Hfresh.
      by apply Hfresh.
    + exists (length (heap st) + 1)%nat, (mkProvider
        ("https://base-mainnet.infura.io/v3/" +:+ key) 8453 FeeFromNetwork).
      split; [by simplify_map_eq|].
      split; [|split; [done|split; [done|apply lookup_ge_None; lia]]].
      by apply Hfresh.
    + exists (length (heap st) + 2)%nat, (mkProvider
        ("https://polygon-mainnet.infura.io/v3/" +:+ key) 137 FeeFromNetwork).
      split; [by simplify_map_eq|].
      split; [|split; [done|split; [done|apply lookup_ge_None; lia]]].
      by apply Hfresh.
    + exists (length (heap st) + 3)%nat, (mkProvider
        "https://rpc.redstonechain.com" 690 FeeFromNetwork).
      split; [by simplify_map_eq|].
      split; [|split; [done|split; [done|apply lookup_ge_None; lia]]].
      by apply Hfresh.
  - intros n1 n2 h H1 H2.
    apply lookup_registry_at in H1, H2. lia.
  - intros n1 n2 h1 h2 H1 H2.
    apply Hin in H1. apply lookup_registry_at in H2. lia.
  - intros h obj Hobj. by apply lookup_app_l_Some.
  - intros url Hdecode.
    by destruct (updateConfigFromURL_built url st config key Hdecode Hkey)
      as (_ & Hp & _).
Qed.

(** C3, as the code has it. In [place_limit_order] and
    [place_market_order], once the session is made and the delegate call
    has returned, the outcome of [updateKline] is the outcome of the tool:
    the serialized delegate result if the refresh resolves, the error of the
    refresh, thrown to the caller, if it rejects. *)
Theorem refresh_outcome_is_tool_outcome :
  (forall networkId pairId direction price volume st sdk st1 info st2,
     session networkId st = (Normal sdk, st1) ->
     delegate sdk (placeLimitOrder pairId direction price volume) st1
     = (Normal info, st2) ->
     fst (place_limit_order networkId pairId direction price volume st)
     = match fst (updateKline sdk pairId
                    (snd (setTimeout
                            (default DEFAULT_BLOCK_TIME
                               (BLOCK_TIME !! networkId) + 1000) st2))) with
       | Normal _ => Normal (JSON_stringify info)
       | Throw t => Throw t
       end)
  /\ (forall networkId pairId direction volume curPrice slippage st sdk st1
         info st2,
     session networkId st = (Normal sdk, st1) ->
     delegate sdk (placeMarketOrder pairId direction volume curPrice slippage)
       st1 = (Normal info, st2) ->
     fst (place_market_order networkId pairId direction volume curPrice
            slippage st)
     = match fst (updateKline sdk pairId
                    (snd (setTimeout
                            (default DEFAULT_BLOCK_TIME
                               (BLOCK_TIME !! networkId) + 1000) st2))) with
       | Normal _ => Normal (JSON_stringify info)
       | Throw t => Throw t
       end).
Proof.
  split.
  - intros * Hsession Hdelegate.
    unfold place_limit_order. unfold bind at 1. rewrite Hsession.
    unfold bind at 1. rewrite Hdelegate.
    unfold bind at 1. unfold setTimeout at 1, modify at 1.
    unfold bind at 1. unfold setTimeout, modify. cbn [snd].
    by destruct (updateKline sdk pairId _) as [[[]|t] st3].
  - intros * Hsession Hdelegate.
    unfold place_market_order. unfold bind at 1. rewrite Hsession.
    unfold bind at 1. rewrite Hdelegate.
    unfold bind at 1. unfold setTimeout at 1, modify at 1.
    unfold bind at 1. unfold setTimeout, modify. cbn [snd].
    by destruct (updateKline sdk pairId _) as [[[]|t] st3].
Qed.

(** [updateConfigFromURL] returns, whatever the source. *)
Lemma updateConfigFromURL_returns url st :
  fst (updateConfigFromURL url st) = Normal tt.
Proof.
  unfold updateConfigFromURL, bind.
  destruct (parseConfigFromURL_decode url st) as [l ->].
  destruct (forget_kind (decode url)); [|done].
  simpl. unfold try_catch, bind, get, modify. simpl.
  by destruct (createProviders _ _) as [[m|t] st1].
Qed.

(** The result of [configure_from_url] is the same text for every source and
    every state. *)
Lemma configure_from_url_result url st :
  fst (configure_from_url url st)
  = Normal (JSON_stringify configuration_updated).
Proof.
  unfold configure_from_url, bind.
  pose proof (updateConfigFromURL_returns url st) as H.
  destruct (updateConfigFromURL url st) as [[[]|t] st1]; simpl in *; done.
Qed.

(** *** Tools that make no refresh *)

Lemma quiet_app a b : quiet a -> quiet b -> quiet (a ++ b).
Proof. unfold quiet. intros Ha Hb. by rewrite filter_app, Ha, Hb. Qed.

Lemma quietly_refl st : quietly st st.
Proof. exists []. by rewrite app_nil_r. Qed.

Lemma quietly_trans a b c : quietly a b -> quietly b c -> quietly a c.
Proof.
  intros (e1 & H1 & Hq1) (e2 & H2 & Hq2). exists (e1 ++ e2).
  split; [by rewrite H2, H1, app_assoc | by apply quiet_app].
Qed.

Lemma quietly_event e st :
  is_refresh e || is_timer e = false -> quietly st (add_event e st).
Proof.
  intros He. exists [e]. split; [done|]. unfold quiet. simpl.
  unfold filter. simpl. by rewrite He.
Qed.

Lemma provider_getFeeData_quietly p : effect quietly (provider_getFeeData p).
Proof.
  intros st. unfold provider_getFeeData, bind, get. simpl.
  destruct (heap st !! p) as [obj|]; [|apply quietly_refl].
  destruct (getFeeData obj); simpl; [|apply quietly_refl].
  unfold lift. simpl. by apply quietly_event.
Qed.

Lemma provider_set_getFeeData_quietly p f :
  effect quietly (provider_set_getFeeData p f).
Proof.
  intros st. unfold provider_set_getFeeData, modify. simpl.
  destruct (heap st !! p); exists []; simpl; by rewrite app_nil_r.
Qed.

Lemma session_quietly networkId : effect quietly (session networkId).
Proof.
  pose proof quietly_refl. pose proof quietly_trans.
  pose proof provider_getFeeData_quietly.
  pose proof provider_set_getFeeData_quietly.
  assert (forall e, is_refresh e || is_timer e = false ->
                    effect quietly (modify (add_event e))) as Hevent
    by (intros e He st; by apply quietly_event).
  unfold session, createSDK, setProvider, setSigner, new_BitlySDK.
  apply effect_bind; [done| |intros sdk].
  - intros st. unfold bind at 1, get. cbn [fst snd].
    destruct (_ || _); [apply quietly_refl|].
    destruct (PROVIDERS st !! networkId) as [p|]; [|apply quietly_refl].
    revert st.
    repeat first
      [ apply provider_getFeeData_quietly
      | apply provider_set_getFeeData_quietly
      | apply effect_bind; [done| |intros ?]
      | apply effect_try_catch; [done| |intros ?]
      | apply effect_ret; done | apply effect_throw; done
      | apply effect_lift; done | apply effect_get; done
      | apply Hevent; done | done ].
  - repeat first
      [ apply effect_bind; [done| |intros ?]
      | apply effect_ret; done | apply effect_lift; done
      | apply effect_get; done | apply Hevent; done ].
Qed.

(** [cancel_limit_order], [cancel_all_limit_order], [claim_earning] and
    [claim_all_earnings] register no timer and never call [updateKline]. *)
Lemma cancel_and_claim_make_no_refresh networkId pairId direction point st :
  quietly st (snd (cancel_limit_order networkId pairId direction point st))
  /\ quietly st (snd (cancel_all_limit_order networkId pairId st))
  /\ quietly st (snd (claim_earning networkId pairId direction point st))
  /\ quietly st (snd (claim_all_earnings networkId pairId st)).
Proof.
  pose proof quietly_refl. pose proof quietly_trans.
  pose proof (session_quietly networkId).
  assert (forall e, is_refresh e || is_timer e = false ->
                    effect quietly (modify (add_event e))) as Hevent
    by (intros e He st0; by apply quietly_event).
  unfold cancel_limit_order, cancel_all_limit_order, claim_earning,
    claim_all_earnings, delegate.
  repeat split;
    revert st;
    repeat first
      [ assumption
      | apply effect_bind; [done| |intros ?]
      | apply effect_ret; done | apply effect_lift; done
      | apply effect_get; done | apply Hevent; done | done ].
Qed.

(** C2, as the code has it. When [place_limit_order] or
    [place_market_order] returns, the events of the invocation end with the
    delegate call, the registration of a timer of the block time of the
    network plus 1000 ms, and the [updateKline] call for the pair, in that
    order, and no other refresh was made; the text returned is the
    serialized result of the delegate call. The four cancel and claim tools
    never call [updateKline] and register no timer. *)
Theorem order_tools_refresh_before_returning :
  (forall networkId pairId direction price volume st result st',
     place_limit_order networkId pairId direction price volume st
     = (Normal result, st') ->
     exists session_events sdk info,
       quiet session_events
       /\ trace st'
          = trace st ++ session_events
              ++ [EvCall (placeLimitOrder pairId direction price volume);
                  EvSetTimeout (default DEFAULT_BLOCK_TIME
                                  (BLOCK_TIME !! networkId) + 1000);
                  EvUpdateKline pairId]
       /\ sdk_delegate (trace st ++ session_events) sdk
            (placeLimitOrder pairId direction price volume) = Normal info
       /\ result = JSON_stringify info)
  /\ (forall networkId pairId direction volume curPrice slippage st result st',
     place_market_order networkId pairId direction volume curPrice slippage st
     = (Normal result, st') ->
     exists session_events sdk info,
       quiet session_events
       /\ trace st'
          = trace st ++ session_events
              ++ [EvCall (placeMarketOrder pairId direction volume curPrice
                            slippage);
                  EvSetTimeout (default DEFAULT_BLOCK_TIME
                                  (BLOCK_TIME !! networkId) + 1000);
                  EvUpdateKline pairId]
       /\ sdk_delegate (trace st ++ session_events) sdk
            (placeMarketOrder pairId direction volume curPrice slippage)
          = Normal info
       /\ result = JSON_stringify info)
  /\ (forall networkId pairId direction point st,
     quietly st (snd (cancel_limit_order networkId pairId direction point st))
     /\ quietly st (snd (cancel_all_limit_order networkId pairId st))
     /\ quietly st (snd (claim_earning networkId pairId direction point st))
     /\ quietly st (snd (claim_all_earnings networkId pairId st))).
Proof.
  assert (forall networkId pairId call st result st',
    (let* sdk := session networkId in
     let* info := delegate sdk call in
     setTimeout (default DEFAULT_BLOCK_TIME (BLOCK_TIME !! networkId) + 1000);;
     updateKline sdk pairId;;
     ret (JSON_stringify info)) st = (Normal result, st') ->
    exists session_events sdk info,
      quiet session_events
      /\ trace st'
         = trace st ++ session_events
             ++ [EvCall call;
                 EvSetTimeout (default DEFAULT_BLOCK_TIME
                                 (BLOCK_TIME !! networkId) + 1000);
                 EvUpdateKline pairId]
      /\ sdk_delegate (trace st ++ session_events) sdk call = Normal info
      /\ result = JSON_stringify info) as Hshape.
  { intros networkId pairId call st result st'.
    unfold bind at 1.
    pose proof (session_quietly networkId st) as (events & Htrace & Hquiet).
    destruct (session networkId st) as [[sdk|t] st1]; [|done].
    cbn [snd] in Htrace.
    unfold delegate, updateKline, setTimeout, bind, get, modify, lift, ret.
    cbn [trace add_event fst snd].
    destruct (sdk_delegate (trace st1) sdk call) as [info|t] eqn:Hcall;
      [|done].
    destruct (sdk_updateKline _ sdk pairId) as [[]|t]; [|done].
    intros [= <- <-]. exists events, sdk, info.
    split; [done|]. split; [|by rewrite <- Htrace].
    unfold add_event. cbn [trace]. rewrite Htrace, <- !app_assoc. done. }
  split; [|split].
  - intros *. apply Hshape.
  - intros *. apply Hshape.
  - intros *. apply cancel_and_claim_make_no_refresh.
Qed.

End Claims.

(* ===================================================================== *)
(** * The claims on concrete inputs *)
(* ===================================================================== *)

Section Concrete.
Import Examples.
Existing Instance NodeModel.node.
Existing Instance Examples.mock.

(** The decoder of the design on the example sources. A parameter without
    a base64 digit decodes to the empty text, which is not JSON. *)
Example decode_of_the_example_sources :
  map decode
    [url_malformed; url_no_parameter; url_not_base64; url_not_json;
     url_empty_field; url_key2]
  = [inl MalformedSource; inl MissingConfigParameter; inl InvalidJSON;
     inl InvalidJSON; inl IncompleteConfig; inr config_key2].
Proof. vm_compute. reflexivity. Qed.

(** C1, at a source that is not a URL. The decoder fails and the
    configuration stays unset, yet the tool returns the text
    [{"message":"Configuration updated successfully"}], the same as for a
    source that configures the server. *)
Theorem configure_from_url_reports_success_on_failure :
  decode url_malformed = inl MalformedSource
  /\ fst (parseConfigFromURL url_malformed initial_state) = Normal None
  /\ fst (configure_from_url url_malformed initial_state)
     = Normal (JSON_stringify configuration_updated)
  /\ fst (configure_from_url url_malformed initial_state)
     = fst (configure_from_url url_key1 initial_state)
  /\ globalConfig (snd (configure_from_url url_malformed initial_state))
     = mkConfig None None
  /\ PROVIDERS (snd (configure_from_url url_malformed initial_state)) = ∅
  /\ configured (snd (configure_from_url url_key1 initial_state)) = true.
Proof. vm_compute. repeat split; reflexivity. Qed.

(** C2 fails on [cancel_limit_order]: on a configured server the delegate
    call returns and the handler returns its serialized result, having
    registered no timer and made no [updateKline] call. [place_limit_order]
    in the same state registers the timer and then calls [updateKline]. *)
Lemma cancel_limit_order_makes_no_refresh :
  let st := after_configure url_key1 in
  let cancelled := cancel_limit_order 84532 "ETH-USDC" SELL one st in
  let placed := place_limit_order 84532 "ETH-USDC" SELL one one st in
  fst cancelled = Normal (JSON_stringify receipt)
  /\ last (trace (snd cancelled))
     = Some (EvCall (cancelLimitOrder "ETH-USDC" SELL one))
  /\ filter is_refresh (trace (snd cancelled)) = []
  /\ filter is_timer (trace (snd cancelled)) = []
  /\ filter is_timer (trace (snd placed)) = [EvSetTimeout 3000]
  /\ filter is_refresh (trace (snd placed)) = [EvUpdateKline "ETH-USDC"].
Proof. vm_compute. repeat split; reflexivity. Qed.

(** Witness of C2: a limit order on the default network of a configured
    server. *)
Lemma order_tools_refresh_before_returning_witness :
  let st := after_configure url_key1 in
  let placed := place_limit_order 84532 "ETH-USDC" SELL one one st in
  fst placed = Normal (JSON_stringify receipt)
  /\ exists session_events,
       trace (snd placed)
       = trace st ++ session_events
           ++ [EvCall (placeLimitOrder "ETH-USDC" SELL one one);
               EvSetTimeout 3000; EvUpdateKline "ETH-USDC"].
Proof.
  intros st placed.
  assert (placed = (Normal (JSON_stringify receipt), snd placed)) as Hplaced
    by (vm_compute; reflexivity).
  split; [by rewrite Hplaced|].
  destruct (proj1 order_tools_refresh_before_returning
              84532 "ETH-USDC" SELL one one st _ _ Hplaced)
    as (events & _ & _ & _ & Htrace & _).
  by exists events.
Defined.

(** C3 fails on [place_limit_order] with an exchange client whose
    [updateKline] rejects: the delegate call has returned its result, and
    the tool throws the error of the refresh instead of returning it. *)
Lemma refresh_failure_fails_the_tool :
  let st := after_configure url_key1 in
  let placed :=
    @place_limit_order _ failing_refresh 84532 "ETH-USDC" BUY one one st in
  (forall history sdk call,
     @sdk_delegate failing_refresh history sdk call = Normal receipt)
  /\ In (EvCall (placeLimitOrder "ETH-USDC" BUY one one)) (trace (snd placed))
  /\ fst placed = Throw (ThrowError "kline refresh failed")
  /\ fst placed <> Normal (JSON_stringify receipt).
Proof.
  split; [done|]. vm_compute. repeat split; try discriminate.
  do 4 right. by left.
Qed.

(** Witness of C3: with the failing client the tool throws, with the mock
    client it returns the serialized result. *)
Lemma refresh_outcome_is_tool_outcome_witness :
  fst (@place_limit_order _ failing_refresh 84532 "ETH-USDC" BUY one one
         (after_configure url_key1))
  = Throw (ThrowError "kline refresh failed")
  /\ fst (@place_market_order _ mock 84532 "ETH-USDC" BUY one one one
            (after_configure url_key1))
     = Normal (JSON_stringify receipt).
Proof.
  split.
  - pose proof (proj1 (@refresh_outcome_is_tool_outcome _ failing_refresh)
                  84532 "ETH-USDC" BUY one one (after_configure url_key1)) as H.
    specialize (H _ _ receipt _ eq_refl eq_refl). exact H.
  - pose proof (proj2 (@refresh_outcome_is_tool_outcome _ mock)
                  84532 "ETH-USDC" BUY one one one (after_configure url_key1))
      as H.
    specialize (H _ _ receipt _ eq_refl eq_refl). exact H.
Defined.

(** Witness of C4: a server that was never configured, asked for the
    default network; a configured server, asked for network 5. *)
Lemma createSDK_preconditions_in_order_witness :
  (configured initial_state = false
   /\ createSDK 84532 initial_state = (Throw NotConfigured, initial_state))
  /\ (configured (after_configure url_key1) = true
      /\ PROVIDERS (after_configure url_key1) !! 5 = None
      /\ createSDK 5 (after_configure url_key1)
         = (Throw (UnknownNetwork 5), after_configure url_key1)).
Proof.
  split.
  - split; [reflexivity|].
    apply (proj1 (createSDK_preconditions_in_order 84532 initial_state)).
    reflexivity.
  - split; [vm_compute; reflexivity|]. split; [vm_compute; reflexivity|].
    apply (proj1 (proj2 (createSDK_preconditions_in_order 5
                           (after_configure url_key1))));
      vm_compute; reflexivity.
Defined.

(** C6 fails as stated: a source that is not a URL and a URL without the
    [config] parameter fail at different points, and the two results of
    [parseConfigFromURL] are the same value, from which no error kind can be
    read back. *)
Lemma decode_failures_are_not_told_apart :
  decode url_malformed = inl MalformedSource
  /\ decode url_no_parameter = inl MissingConfigParameter
  /\ fst (parseConfigFromURL url_malformed initial_state)
     = fst (parseConfigFromURL url_no_parameter initial_state)
  /\ ~ (exists kind_of : Completion (option Config) -> DecodeError,
         kind_of (fst (parseConfigFromURL url_malformed initial_state))
         = MalformedSource
         /\ kind_of (fst (parseConfigFromURL url_no_parameter initial_state))
            = MissingConfigParameter).
Proof.
  split; [vm_compute; reflexivity|]. split; [vm_compute; reflexivity|].
  assert (fst (parseConfigFromURL url_malformed initial_state)
          = fst (parseConfigFromURL url_no_parameter initial_state)) as Hsame
    by (vm_compute; reflexivity).
  split; [exact Hsame|].
  intros (kind_of & H1 & H2). rewrite Hsame in H1. congruence.
Qed.

(** Witness of C7: a configured server is given a source whose parameter
    does not hold JSON. *)
Lemma failed_decode_keeps_configuration_witness :
  let st := after_configure url_key1 in
  fst (parseConfigFromURL url_not_json st) = Normal None
  /\ same_store st (snd (updateConfigFromURL url_not_json st))
  /\ same_store st (snd (configure_from_url url_not_json st)).
Proof.
  intros st.
  assert (fst (parseConfigFromURL url_not_json st) = Normal None) as Hfails
    by (vm_compute; reflexivity).
  split; [exact Hfails|].
  exact (failed_decode_keeps_configuration url_not_json st Hfails).
Defined.

Lemma after_configure_reachable url : reachable (after_configure url).
Proof. exists None, [Invoke (Call_configure_from_url url)]. reflexivity. Qed.

(** Witness of C8: a server configured with [key1] builds the registry for
    [key2]. *)
Lemma successful_build_is_complete_and_fresh_witness :
  let st := after_configure url_key1 in
  let providers := registry_at 4 in
  fst (createProviders config_key2 st) = Normal providers
  /\ dom providers = network_ids
  /\ (forall n1 n2 h1 h2,
      PROVIDERS st !! n1 = Some h1 -> providers !! n2 = Some h2 -> h1 <> h2)
  /\ PROVIDERS (snd (updateConfigFromURL url_key2 st)) = providers.
Proof.
  intros st providers.
  assert (createProviders config_key2 st
          = (Normal providers, snd (createProviders config_key2 st)))
    as Hbuild by (vm_compute; reflexivity).
  split; [by rewrite Hbuild|].
  destruct (successful_build_is_complete_and_fresh config_key2 st _ providers
              (after_configure_reachable url_key1) Hbuild)
    as (Hdom & _ & _ & Hfresh & _ & Hreplace).
  split; [exact Hdom|]. split; [exact Hfresh|].
  apply Hreplace. vm_compute. reflexivity.
Defined.

(** C9 fails as stated: the configured wallet key, [0xabc], makes no
    signer, and on a network that does not answer [createSDK] throws the
    error of the fee query, an [Error], before it reaches the wallet. *)
Lemma network_error_comes_before_unauthorized :
  let st := after_configure url_short_key in
  let cause := ThrowError "hex data is odd-length" in
  configured st = true
  /\ PROVIDERS st !! 84532 = Some 0%nat
  /\ new_Wallet (WALLET_PRIVATE_KEY (globalConfig st)) (Some 0%nat)
     = Throw cause
  /\ fst (@createSDK _ network_down 84532 st)
     = Throw (ThrowError "could not detect network")
  /\ fst (@createSDK _ network_down 84532 st) <> Throw (Unauthorized cause).
Proof. vm_compute. repeat split; try reflexivity. discriminate. Qed.

(** Witness of C9: the configured wallet key is [0xabc], on a network that
    answers. *)
Lemma createSDK_unauthorized_witness :
  let st := after_configure url_short_key in
  let cause := ThrowError "hex data is odd-length" in
  (configured st = true /\ PROVIDERS st !! 84532 = Some 0%nat
   /\ new_Wallet (WALLET_PRIVATE_KEY (globalConfig st)) (Some 0%nat)
      = Throw cause)
  /\ fst (createSDK 84532 st)
     = Throw (ThrowResponse 401 "Unauthorized - hex data is odd-length").
Proof.
  intros st cause.
  assert (configured st = true) as H1 by (vm_compute; reflexivity).
  assert (PROVIDERS st !! 84532 = Some 0%nat) as H2
    by (vm_compute; reflexivity).
  assert (new_Wallet (WALLET_PRIVATE_KEY (globalConfig st)) (Some 0%nat)
          = Throw cause) as H3 by (vm_compute; reflexivity).
  split; [by repeat split|].
  exact (proj1 (createSDK_unauthorized 84532 st 0%nat cause H1 H2 H3)).
Defined.

(** C10 fails as stated: after [configure_from_url] with a configuration
    whose [INFURA_API_KEY] is the object [{"toString":1}], both fields of
    [globalConfig] are set and the registry is empty. The build threw a
    [TypeError] in the template literal, after [globalConfig] was
    assigned. *)
Lemma configured_with_empty_registry :
  let st := after_configure url_object_key in
  reachable st
  /\ configured st = true
  /\ PROVIDERS st = ∅
  /\ dom (PROVIDERS st) <> network_ids
  /\ last (console st)
     = Some (console_error "Failed to initialize providers:"
               (ArgText "Cannot convert object to primitive value")).
Proof.
  intros st. split; [apply after_configure_reachable|].
  split; [vm_compute; reflexivity|].
  assert (PROVIDERS st = ∅) as Hempty by (vm_compute; reflexivity).
  split; [exact Hempty|]. split; [|vm_compute; reflexivity].
  rewrite Hempty, dom_empty_L. unfold network_ids. intros H.
  assert ((690 : Z) ∈ (∅ : gset Z)) as Hin
    by (rewrite H, !elem_of_union, !elem_of_singleton; tauto).
  by apply not_elem_of_empty in Hin.
Qed.

End Concrete.

(* ===================================================================== *)
(** * Further properties of the handlers and of the session factory *)
(* ===================================================================== *)

Section Sessions.
Context {platform : Platform} {world : World}.

Lemma createSDK_when_unset networkId st :
  configured st = false -> createSDK networkId st = (Throw NotConfigured, st).
Proof.
  unfold configured, createSDK, bind, get, throw. simpl.
  intros Hfalsy. apply andb_false_iff in Hfalsy.
  destruct Hfalsy as [-> | ->]; simpl; [done|]. by rewrite orb_true_r.
Qed.

Lemma createSDK_when_unlisted networkId st :
  configured st = true -> PROVIDERS st !! networkId = None ->
  createSDK networkId st = (Throw (UnknownNetwork networkId), st).
Proof.
  unfold configured, createSDK, bind, get, throw. simpl.
  intros Hset Hnone. apply andb_true_iff in Hset as [-> ->]. simpl.
  by rewrite Hnone.
Qed.

(** What a fee query through [h] adds to the trace. *)
Lemma provider_getFeeData_events h st :
  trace (snd (provider_getFeeData h st))
  = trace st
      ++ match heap st !! h with
         | Some obj =>
             match getFeeData obj with
             | FeeFromNetwork => [EvGetFeeData h]
             | FeeForced _ => []
             end
         | None => []
         end.
Proof.
  unfold provider_getFeeData, bind, get. simpl.
  destruct (heap st !! h) as [obj|]; simpl; [|by rewrite app_nil_r].
  destruct (getFeeData obj); simpl; [done|by rewrite app_nil_r].
Qed.

Lemma provider_set_getFeeData_trace h f st :
  trace (snd (provider_set_getFeeData h f st)) = trace st.
Proof.
  unfold provider_set_getFeeData, modify. simpl.
  by destruct (heap st !! h).
Qed.

(** What [session] has done when it returns. *)
Lemma session_returns networkId st st' sdk :
  session networkId st = (Normal sdk, st') ->
  exists h signer fee_events,
    PROVIDERS st !! networkId = Some h
    /\ new_Wallet (WALLET_PRIVATE_KEY (globalConfig st)) (Some h)
       = Normal signer
    /\ sdk = mkSDK networkId (Some h) (Some signer)
    /\ (fee_events = [] \/ fee_events = [EvGetFeeData h])
    /\ trace st'
       = trace st ++ fee_events
           ++ [EvNewSDK networkId h; EvSetSigner signer;
               EvSetProvider (Some h)].
Proof.
  unfold session, createSDK. unfold bind at 1. unfold bind at 1, get.
  cbn [fst snd].
  destruct (_ || _); [done|].
  destruct (PROVIDERS st !! networkId) as [h|] eqn:Hh; [|done].
  unfold bind at 1.
  pose proof (provider_getFeeData_events h st) as Hevents.
  pose proof (provider_getFeeData_store h st) as (Hc & Hp & _).
  destruct (provider_getFeeData h st) as [[feeData|t] st1]; [|done].
  cbn [snd] in Hevents, Hc, Hp.
  unfold bind at 1.
  pose proof (provider_set_getFeeData_trace h
                (FeeForced (gasPrice feeData)) st1) as Htrace2.
  pose proof (provider_set_getFeeData_config h
                (FeeForced (gasPrice feeData)) st1) as (Hc2 & Hp2).
  destruct (provider_set_getFeeData h _ st1) as [[[]|t] st2];
    cbv beta iota; [|intros; discriminate].
  cbn [snd] in Htrace2, Hc2, Hp2.
  unfold new_BitlySDK, setSigner, setProvider, bind, modify, ret, try_catch,
    get, lift, throw.
  cbn [globalConfig PROVIDERS add_event trace fst snd].
  rewrite Hc2, Hp2, Hc, Hp, Hh.
  destruct (new_Wallet _ (Some h)) as [signer|t] eqn:Hwallet; [|done].
  cbn [globalConfig PROVIDERS add_event trace fst snd].
  destruct (sdk_setSigner _ _ signer) as [[]|t]; [|done].
  cbn [globalConfig PROVIDERS add_event trace fst snd].
  rewrite Hp2, Hp, Hh.
  destruct (sdk_setProvider _ _ (Some h)) as [[]|t]; [|done].
  intros [= <- <-]. cbn [trace add_event].
  exists h, signer,
    (match heap st !! h with
     | Some obj =>
         match getFeeData obj with
         | FeeFromNetwork => [EvGetFeeData h]
         | FeeForced _ => []
         end
     | None => []
     end).
  split; [done|]. split; [done|]. split; [done|].
  split; [|rewrite Htrace2, Hevents, <- !app_assoc; reflexivity].
  destruct (heap st !! h) as [obj|]; [|by left].
  destruct (getFeeData obj); [by right|by left].
Qed.


End Sessions.

Ltac unfold_tool :=
  unfold get_balance, get_trade_pairs_info, get_tokens_info,
    get_trade_volumes, get_orderbook, get_my_open_orders, place_limit_order,
    place_market_order, cancel_limit_order, cancel_all_limit_order,
    claim_earning, claim_all_earnings, get_finished_orders,
    get_market_order_history, get_prices, get_klines.

Section Handlers.
Context {platform : Platform} {world : World}.

Lemma session_when_createSDK_throws networkId st t st1 :
  createSDK networkId st = (Throw t, st1) ->
  session networkId st = (Throw t, st1).
Proof. intros H. unfold session, bind. by rewrite H. Qed.

Lemma execute_when_session_throws call networkId st t st1 :
  tool_networkId call = Some networkId ->
  session networkId st = (Throw t, st1) ->
  execute call st = (Throw t, st1).
Proof.
  intros Hid Hsession.
  destruct call; simpl in Hid; simplify_eq; simpl; unfold_tool;
    unfold bind at 1; by rewrite Hsession.
Qed.

(** X2. Whatever [createSDK] throws, the tool throws: the same value, in the
    state [createSDK] left, and the exchange client is not called. This
    holds for each of the sixteen tools that take a network id. *)
Theorem session_failure_reaches_the_caller (call : ToolCall) (networkId : Z)
    (st st1 : State) (t : Thrown) :
  tool_networkId call = Some networkId ->
  createSDK networkId st = (Throw t, st1) ->
  execute call st = (Throw t, st1).
Proof.
  intros Hid Hthrows. eapply execute_when_session_throws; [done|].
  by apply session_when_createSDK_throws.
Qed.

(** X1. Before a configuration with both fields set is in place, each of
    the sixteen tools that take a network id throws the not-configured
    error, for every network id and every argument, and leaves the state,
    trace included, as it was. *)
Theorem tools_require_configuration (call : ToolCall) (networkId : Z)
    (st : State) :
  configured st = false ->
  tool_networkId call = Some networkId ->
  execute call st = (Throw NotConfigured, st).
Proof.
  intros Hunset Hid. eapply execute_when_session_throws; [done|].
  by apply session_when_createSDK_throws, createSDK_when_unset.
Qed.

Lemma registry_lists_known_networks st networkId :
  reachable st -> networkId ∉ network_ids ->
  PROVIDERS st !! networkId = None.
Proof.
  intros Hreach Hid.
  destruct (registry_invariant_reachable st Hreach) as (_ & [Hempty|Hdom] & _).
  - by rewrite Hempty, lookup_empty.
  - apply not_elem_of_dom. by rewrite Hdom.
Qed.

(** X3. In a running server a network id other than 84532, 8453, 137 and
    690 is always refused: every tool throws the not-configured error or
    the unknown-network error naming that id, and the state is unchanged. *)
Theorem unlisted_network_is_refused (call : ToolCall) (networkId : Z)
    (st : State) :
  reachable st ->
  networkId ∉ network_ids ->
  tool_networkId call = Some networkId ->
  execute call st
  = (Throw (if configured st then UnknownNetwork networkId
            else NotConfigured), st).
Proof.
  intros Hreach Hid Hcall.
  eapply execute_when_session_throws; [done|].
  apply session_when_createSDK_throws.
  destruct (configured st) eqn:Hset.
  - apply createSDK_when_unlisted; [done|].
    by apply registry_lists_known_networks.
  - by apply createSDK_when_unset.
Qed.

Lemma execute_after_session call networkId c st sdk st1 :
  tool_networkId call = Some networkId ->
  tool_delegate call = Some c ->
  session networkId st = (Normal sdk, st1) ->
  (places_order call = false ->
   execute call st
   = (match sdk_delegate (trace st1) sdk c with
      | Normal info => Normal (JSON_stringify info)
      | Throw t => Throw t
      end, add_event (EvCall c) st1))
  /\ (forall t, sdk_delegate (trace st1) sdk c = Throw t ->
      execute call st = (Throw t, add_event (EvCall c) st1)).
Proof.
  intros Hid Hc Hsession.
  destruct call; simpl in Hid, Hc; simplify_eq; simpl; unfold_tool;
    (split; [intros Hplace; try discriminate Hplace|intros t Ht]);
    unfold bind at 1; rewrite Hsession;
    unfold delegate, updateKline, setTimeout, bind, get, modify, lift, ret;
    cbn [trace fst snd];
    first [by rewrite Ht | by destruct (sdk_delegate _ _ _)].
Qed.

(** X5. A tool that does not place an order makes, once its session is
    made, exactly one call on the exchange client, the operation it stands
    for with the arguments of the call, and nothing after it: it returns
    the serialized result if the operation resolves and throws the
    operation's own error if it rejects. *)
Theorem tool_is_one_delegate_call (call : ToolCall) (networkId : Z)
    (c : SdkCall) (st st1 : State) (sdk : BitlySDK) :
  tool_networkId call = Some networkId ->
  tool_delegate call = Some c ->
  places_order call = false ->
  session networkId st = (Normal sdk, st1) ->
  execute call st
  = (match sdk_delegate (trace st1) sdk c with
     | Normal info => Normal (JSON_stringify info)
     | Throw t => Throw t
     end, add_event (EvCall c) st1).
Proof.
  intros Hid Hc Hplace Hsession.
  by apply (execute_after_session call networkId c st sdk st1).
Qed.

(** X6. When the delegate operation rejects, every tool, the two that
    place orders included, throws the operation's error as it is, and the
    delegate call is the last thing the invocation did: no retry, no timer,
    no [updateKline]. *)
Theorem delegate_failure_ends_the_tool (call : ToolCall) (networkId : Z)
    (c : SdkCall) (st st1 : State) (sdk : BitlySDK) (t : Thrown) :
  tool_networkId call = Some networkId ->
  tool_delegate call = Some c ->
  session networkId st = (Normal sdk, st1) ->
  sdk_delegate (trace st1) sdk c = Throw t ->
  execute call st = (Throw t, add_event (EvCall c) st1).
Proof.
  intros Hid Hc Hsession Hthrows.
  by apply (execute_after_session call networkId c st sdk st1).
Qed.

(** X17. A tool other than [configure_from_url] never assigns
    [globalConfig] or [PROVIDERS], whether it returns or throws. *)
Theorem tools_leave_the_configuration (call : ToolCall) (networkId : Z)
    (st : State) :
  tool_networkId call = Some networkId ->
  globalConfig (snd (execute call st)) = globalConfig st
  /\ PROVIDERS (snd (execute call st)) = PROVIDERS st.
Proof.
  intros Hid. apply (execute_config call).
  intros url ->. discriminate Hid.
Qed.

End Handlers.

Lemma without_refl p st : without p st st.
Proof. exists []. by rewrite app_nil_r. Qed.

Lemma without_trans p a b c : without p a b -> without p b c -> without p a c.
Proof.
  intros (e1 & H1 & Hq1) (e2 & H2 & Hq2). exists (e1 ++ e2).
  split; [by rewrite H2, H1, app_assoc | by rewrite filter_app, Hq1, Hq2].
Qed.

Lemma without_same_trace p st st' : trace st' = trace st -> without p st st'.
Proof. intros H. exists []. by rewrite app_nil_r. Qed.

Lemma without_event p e :
  p e = false -> effect (without p) (modify (add_event e)).
Proof.
  intros He st. exists [e]. split; [done|].
  unfold filter. simpl. by rewrite He.
Qed.

Lemma provider_set_getFeeData_without p h f :
  effect (without p) (provider_set_getFeeData h f).
Proof.
  intros st. apply without_same_trace, provider_set_getFeeData_trace.
Qed.

(** Builds [effect (without p) m] along the binds of [m], for steps that add
    events of other kinds than [p]. *)
Ltac without_steps :=
  repeat first
    [ apply provider_set_getFeeData_without
    | apply effect_bind; [apply without_trans | | intros ?]
    | apply effect_try_catch; [apply without_trans | | intros ?]
    | apply effect_ret; apply without_refl
    | apply effect_throw; apply without_refl
    | apply effect_lift; apply without_refl
    | apply effect_get; apply without_refl
    | apply without_event; reflexivity ].

Section FeeQueries.
Context {platform : Platform} {world : World}.

Lemma provider_getFeeData_spares h p st :
  (exists price, forced h price st) ->
  without (is_fee_query h) st (snd (provider_getFeeData p st)).
Proof.
  intros (price & obj & Hobj & Hforced).
  eexists. split; [apply provider_getFeeData_events|].
  destruct (heap st !! p) as [obj'|] eqn:Hp; [|done].
  destruct (getFeeData obj') eqn:Hfee; [|done].
  unfold filter. simpl.
  destruct (Nat.eqb p h) eqn:Heq; [|done].
  apply Nat.eqb_eq in Heq. subst p. congruence.
Qed.

Lemma updateConfigFromURL_trace url st :
  trace (snd (updateConfigFromURL url st)) = trace st.
Proof.
  destruct (decode url) as [e|config] eqn:Hdecode.
  - by destruct (updateConfigFromURL_failed_decode url st e Hdecode).
  - destruct (key_text config) as [key|] eqn:Hkey.
    + by destruct (updateConfigFromURL_built url st config key Hdecode Hkey)
        as (_ & _ & _ & ?).
    + by destruct (updateConfigFromURL_not_built url st config Hdecode Hkey)
        as (_ & _ & _ & ?).
Qed.

End FeeQueries.

Section Factory.
Context {platform : Platform} {world : World}.

(** [createSDK], once the fee query has answered: the assignment of the
    forced accessor, then steps that only add events. *)
Lemma createSDK_after_install networkId h st feeData st1 :
  configured st = true ->
  PROVIDERS st !! networkId = Some h ->
  provider_getFeeData h st = (Normal feeData, st1) ->
  exists m : M BitlySDK,
    effect same_store m
    /\ effect (without (fun _ => false)) m
    /\ createSDK networkId st
       = m (snd (provider_set_getFeeData h (FeeForced (gasPrice feeData))
                   st1)).
Proof.
  intros Hset Hh Hquery. apply andb_true_iff in Hset as [Hw Hk].
  exists
    (let* sdk := new_BitlySDK networkId h in
     let* sdk := try_catch
         (let* st := get in
          let* signer := lift (new_Wallet (WALLET_PRIVATE_KEY (globalConfig st))
                                 (PROVIDERS st !! networkId)) in
          setSigner sdk signer)
         (fun error => throw (ThrowResponse 401
            ("Unauthorized - "
               +:+ error_message_or "Invalid wallet configuration" error))) in
     ret sdk).
  split; [|split].
  - pose proof new_BitlySDK_store. pose proof setSigner_store. effect_steps.
  - unfold new_BitlySDK, setSigner. without_steps.
  - unfold createSDK. unfold bind at 1, get. cbn [fst snd].
    rewrite Hw, Hk, Hh. cbn [negb orb].
    unfold bind at 1. rewrite Hquery.
    unfold bind at 1.
    destruct (provider_set_getFeeData h _ st1) as [[[]|t] st2] eqn:Hassign;
      [done|].
    unfold provider_set_getFeeData, modify in Hassign. done.
Qed.


(** X10. The [try] block of [createSDK] holds [sdk.setSigner] as well: when
    the wallet is made and the exchange client refuses it, the caller gets
    the same 401 response as for a bad key, carrying the client's message;
    a thrown value that is not an [Error] gives the fixed message
    [Invalid wallet configuration]. *)
Theorem rejected_signer_is_unauthorized (networkId : Z) (st st1 : State)
    (h : handle) (feeData : FeeData) (signer : Wallet) (t : Thrown) :
  configured st = true ->
  PROVIDERS st !! networkId = Some h ->
  provider_getFeeData h st = (Normal feeData, st1) ->
  new_Wallet (WALLET_PRIVATE_KEY (globalConfig st)) (Some h) = Normal signer ->
  (forall history sdk, sdk_setSigner history sdk signer = Throw t) ->
  fst (createSDK networkId st) = Throw (Unauthorized t)
  /\ ((forall message, t <> ThrowError message) ->
      Unauthorized t
      = ThrowResponse 401 "Unauthorized - Invalid wallet configuration").
Proof.
  intros Hset Hh Hquery Hwallet Hrejects.
  split; [|intros Hother; destruct t; [by destruct (Hother message)|done..]].
  apply andb_true_iff in Hset as [Hw Hk].
  unfold createSDK. unfold bind at 1, get. cbn [fst snd].
  rewrite Hw, Hk, Hh. cbn [negb orb].
  unfold bind at 1.
  pose proof (provider_getFeeData_store h st) as Hstore.
  rewrite Hquery in Hstore. rewrite Hquery.
  destruct Hstore as (Hc & Hp & _). cbn [snd] in Hc, Hp.
  unfold bind at 1.
  pose proof (provider_set_getFeeData_config h
                (FeeForced (gasPrice feeData)) st1) as Hconfig.
  destruct (provider_set_getFeeData h _ st1) as [[[]|t'] st2] eqn:Hassign.
  2:{ unfold provider_set_getFeeData, modify in Hassign. done. }
  destruct Hconfig as (Hc2 & Hp2). cbn [snd] in Hc2, Hp2.
  unfold new_BitlySDK, setSigner, bind, modify, ret, try_catch, get, lift,
    throw.
  cbn [globalConfig PROVIDERS add_event trace fst snd].
  rewrite Hc2, Hp2, Hc, Hp, Hh, Hwallet.
  cbn [globalConfig PROVIDERS add_event trace fst snd].
  by rewrite Hrejects.
Qed.

(** A source that [parseConfigFromURL] accepts. *)
Lemma parsed_source url st config :
  fst (parseConfigFromURL url st) = Normal (Some config) ->
  decode url = inr config.
Proof.
  rewrite parseConfigFromURL_result.
  destruct (decode url) as [e|c]; simpl; congruence.
Qed.

Lemma registry_at_lookup n networkId :
  networkId ∈ network_ids ->
  exists i key_prefix,
    (i < 4)%nat
    /\ registry_at n !! networkId = Some (n + i)%nat
    /\ forall key, exists obj,
        fresh_providers key !! i = Some obj
        /\ network_chainId obj = networkId
        /\ getFeeData obj = FeeFromNetwork
        /\ connection_url obj
           = match networkId with
             | 690 => key_prefix
             | _ => key_prefix +:+ key
             end.
Proof.
  intros Hid. unfold network_ids in Hid.
  assert (networkId = 84532 \/ networkId = 8453 \/ networkId = 137
          \/ networkId = 690) as Hcases
    by (rewrite !elem_of_union, !elem_of_singleton in Hid; tauto).
  unfold registry_at, fresh_providers, DEFAULT_NETWORK_ID.
  destruct Hcases as [-> | [-> | [-> | ->]]].
  - exists 0%nat, "https://base-sepolia.infura.io/v3/".
    split; [lia|]. rewrite Nat.add_0_r. split; [by simplify_map_eq|].
    intros key. by eexists.
  - exists 1%nat, "https://base-mainnet.infura.io/v3/".
    split; [lia|]. split; [by simplify_map_eq|]. intros key. by eexists.
  - exists 2%nat, "https://polygon-mainnet.infura.io/v3/".
    split; [lia|]. split; [by simplify_map_eq|]. intros key. by eexists.
  - exists 3%nat, "https://rpc.redstonechain.com".
    split; [lia|]. split; [by simplify_map_eq|]. intros key. by eexists.
Qed.

(** X8. A successful reconfiguration brings the fee estimate back to the
    network: on each of the four networks, the first thing the next session
    does is a fee query sent to the network through a provider object that
    did not exist before, whatever was forced on the connections it
    replaces. *)
Theorem rebuild_queries_the_network_again (url : string) (st : State)
    (config : Config) (key : string) (networkId : Z) :
  fst (parseConfigFromURL url st) = Normal (Some config) ->
  key_text config = Some key ->
  networkId ∈ network_ids ->
  let st' := snd (configure_from_url url st) in
  exists h later,
    PROVIDERS st' !! networkId = Some h
    /\ heap st !! h = None
    /\ trace (snd (createSDK networkId st'))
       = trace st' ++ EvGetFeeData h :: later.
Proof.
  intros Hdecode%parsed_source Hkey Hid st'.
  destruct (decode_configured url config Hdecode) as [Hw Hk].
  destruct (updateConfigFromURL_built url st config key Hdecode Hkey)
    as (Hc & Hp & Hh & _).
  rewrite <- configure_from_url_state in Hc, Hp, Hh. fold st' in Hc, Hp, Hh.
  destruct (registry_at_lookup (length (heap st)) networkId Hid)
    as (i & prefix & Hi & Hlookup & Hfresh).
  destruct (Hfresh key) as (obj & Hobj & _ & Hfee & _).
  exists (length (heap st) + i)%nat.
  assert (heap st' !! (length (heap st) + i)%nat = Some obj) as Hheap.
  { rewrite Hh, lookup_app_r by lia.
    by replace (length (heap st) + i - length (heap st))%nat with i by lia. }
  assert (configured st' = true) as Hset
    by (unfold configured; by rewrite Hc, Hw, Hk).
  assert (PROVIDERS st' !! networkId = Some (length (heap st) + i)%nat)
    as Hprovider by (by rewrite Hp).
  pose proof (provider_getFeeData_events (length (heap st) + i) st')
    as Hevents.
  rewrite Hheap, Hfee in Hevents.
  destruct (provider_getFeeData (length (heap st) + i) st')
    as [[feeData|t] st1] eqn:Hquery; cbn [snd] in Hevents.
  - destruct (createSDK_after_install networkId _ st' feeData st1
                Hset Hprovider Hquery)
      as (m & _ & Htrace & ->).
    destruct (Htrace (snd (provider_set_getFeeData
                             (length (heap st) + i)
                             (FeeForced (gasPrice feeData)) st1)))
      as (later & Hlater & _).
    exists later. split; [done|]. split; [apply lookup_ge_None; lia|].
    rewrite Hlater, provider_set_getFeeData_trace, Hevents.
    by rewrite <- app_assoc.
  - exists []. split; [done|]. split; [apply lookup_ge_None; lia|].
    apply andb_true_iff in Hset as [Hw' Hk'].
    unfold createSDK. unfold bind at 1, get. cbn [fst snd].
    rewrite Hw', Hk', Hprovider. cbn [negb orb].
    unfold bind at 1. by rewrite Hquery.
Qed.

End Factory.

Section Configuration.
Context {platform : Platform} {world : World}.

(** X16. A registry build is all or nothing: [createProviders] either
    returns the mapping of the four networks to four provider objects it has
    just appended to the existing ones, or throws and creates no object at
    all. *)
Theorem createProviders_is_all_or_nothing (config : Config) (st : State) :
  (exists key,
     createProviders config st
     = (Normal (registry_at (length (heap st))),
        set_heap (heap st ++ fresh_providers key) st)
     /\ truthy (INFURA_API_KEY config) = true
     /\ key_text config = Some key)
  \/ (exists t,
     createProviders config st = (Throw t, st)
     /\ (truthy (INFURA_API_KEY config) = false
         -> t = ThrowError "INFURA_API_KEY is required in config")).
Proof.
  destruct (truthy (INFURA_API_KEY config)) eqn:Htruthy.
  - destruct (key_text config) as [key|] eqn:Hkey.
    + left. exists key. split; [|done]. by apply createProviders_built.
    + right. destruct (createProviders_failed config st) as [t Ht];
        [by right|].
      exists t. by split.
  - right. eexists. split; [|done].
    unfold createProviders. by rewrite Htruthy.
Qed.

(** X18. The endpoints of a built registry: the provider object of each
    network carries the chain id of the network and the endpoint of the
    network followed by the text of the API key, as it is; the endpoint of
    network 690 does not depend on the key. *)
Theorem built_registry_endpoints (config : Config) (st st' : State)
    (providers : gmap Z handle) :
  createProviders config st = (Normal providers, st') ->
  exists key,
    key_text config = Some key
    /\ forall networkId endpoint,
        (networkId, endpoint)
          ∈ [(84532, "https://base-sepolia.infura.io/v3/" +:+ key);
             (8453, "https://base-mainnet.infura.io/v3/" +:+ key);
             (137, "https://polygon-mainnet.infura.io/v3/" +:+ key);
             (690, "https://rpc.redstonechain.com")] ->
        exists h,
          providers !! networkId = Some h
          /\ heap st' !! h
             = Some (mkProvider endpoint networkId FeeFromNetwork).
Proof.
  intros Hbuild.
  destruct (createProviders_is_all_or_nothing config st)
    as [(key & Hok & _ & Hkey) | (t & Hthrows & _)]; [|congruence].
  rewrite Hok in Hbuild. injection Hbuild as <- <-.
  exists key. split; [done|]. intros networkId endpoint Hin.
  cbn [heap set_heap].
  assert (forall i obj,
    fresh_providers key !! i = Some obj ->
    (heap st ++ fresh_providers key) !! (length (heap st) + i)%nat
    = Some obj) as Hfresh.
  { intros i obj Hi. rewrite lookup_app_r by lia.
    by replace (length (heap st) + i - length (heap st))%nat with i by lia. }
  unfold registry_at, DEFAULT_NETWORK_ID.
  repeat (apply elem_of_cons in Hin as [[= -> ->]|Hin]).
  - exists (length (heap st)). split; [by simplify_map_eq|].
    specialize (Hfresh 0%nat). rewrite Nat.add_0_r in Hfresh.
    by apply Hfresh.
  - exists (length (heap st) + 1)%nat. split; [by simplify_map_eq|].
    by apply Hfresh.
  - exists (length (heap st) + 2)%nat. split; [by simplify_map_eq|].
    by apply Hfresh.
  - exists (length (heap st) + 3)%nat. split; [by simplify_map_eq|].
    by apply Hfresh.
  - by apply elem_of_nil in Hin.
Qed.

(** X14. The block-time table and the registry agree on the networks: a
    built registry has a provider for a network id exactly when
    [BLOCK_TIME] has an entry for it, so the default block time is never
    what a session's timer is computed from; the delay is 3000 ms on each
    of the four networks. *)
Theorem block_time_covers_the_registry (config : Config) (st st' : State)
    (providers : gmap Z handle) (networkId : Z) :
  createProviders config st = (Normal providers, st') ->
  (is_Some (providers !! networkId) <-> is_Some (BLOCK_TIME !! networkId))
  /\ (is_Some (providers !! networkId) ->
      default DEFAULT_BLOCK_TIME (BLOCK_TIME !! networkId) + 1000 = 3000).
Proof.
  intros Hbuild.
  destruct (createProviders_is_all_or_nothing config st)
    as [(key & Hok & _) | (t & Hthrows & _)]; [|congruence].
  rewrite Hok in Hbuild. injection Hbuild as <- _.
  assert (dom BLOCK_TIME = network_ids) as Hdom.
  { unfold BLOCK_TIME, network_ids.
    rewrite !dom_insert_L, dom_empty_L. set_solver. }
  rewrite <- !elem_of_dom, dom_registry_at, Hdom.
  split; [done|]. intros Hid. unfold network_ids in Hid.
  assert (networkId = 84532 \/ networkId = 8453 \/ networkId = 137
          \/ networkId = 690) as Hcases
    by (rewrite !elem_of_union, !elem_of_singleton in Hid; tauto).
  by destruct Hcases as [-> | [-> | [-> | ->]]].
Qed.

(** X15. When [parseConfigFromURL] accepts the source and the registry
    build throws,
    [updateConfigFromURL] has already replaced [globalConfig] and replaces
    nothing else: the server counts as configured with the new wallet key,
    while [PROVIDERS] and the provider objects are those of the previous
    configuration. *)
Theorem failed_build_keeps_the_old_registry (url : string) (st : State)
    (config : Config) :
  fst (parseConfigFromURL url st) = Normal (Some config) ->
  key_text config = None ->
  let st' := snd (configure_from_url url st) in
  globalConfig st' = config
  /\ configured st' = true
  /\ PROVIDERS st' = PROVIDERS st
  /\ heap st' = heap st.
Proof.
  intros Hdecode%parsed_source Hkey st'. subst st'. rewrite configure_from_url_state.
  destruct (updateConfigFromURL_not_built url st config Hdecode Hkey)
    as (Hc & Hp & Hh & _).
  destruct (decode_configured url config Hdecode) as [Hw Hk].
  unfold configured. by rewrite Hc, Hw, Hk.
Qed.

(** The configuration is unset with an empty registry, or set. *)
Lemma unset_or_configured_update url st :
  (unset (globalConfig st) /\ PROVIDERS st = ∅) \/ configured st = true ->
  (unset (globalConfig (snd (updateConfigFromURL url st)))
   /\ PROVIDERS (snd (updateConfigFromURL url st)) = ∅)
  \/ configured (snd (updateConfigFromURL url st)) = true.
Proof.
  intros Hinv. destruct (decode url) as [e|config] eqn:Hdecode.
  - destruct (updateConfigFromURL_failed_decode url st e Hdecode)
      as ((Hc & Hp & _) & _).
    unfold configured. by rewrite Hc, Hp.
  - right. destruct (decode_configured url config Hdecode) as [Hw Hk].
    assert (globalConfig (snd (updateConfigFromURL url st)) = config) as Hc.
    { destruct (key_text config) as [key|] eqn:Hkey.
      - by destruct (updateConfigFromURL_built url st config key Hdecode Hkey).
      - by destruct (updateConfigFromURL_not_built url st config Hdecode Hkey).
    }
    unfold configured. by rewrite Hc, Hw, Hk.
Qed.

(** X11. [globalConfig] is never half set. In every state of a running
    server either both fields are [undefined] and the registry is empty, as
    at start, or both fields are set; so a registry with entries always
    comes with a configuration that passes the first check of [createSDK],
    and the test of [INFURA_API_KEY] alone, which the status line of the
    start-up banner makes, tells whether the server is configured. *)
Theorem configuration_is_unset_or_complete (st : State) :
  reachable st ->
  ((unset (globalConfig st) /\ PROVIDERS st = ∅) \/ configured st = true)
  /\ (PROVIDERS st <> ∅ -> configured st = true)
  /\ truthy (INFURA_API_KEY (globalConfig st)) = configured st.
Proof.
  intros (env & activities & ->).
  assert ((unset (globalConfig (snd (startup env initial_state)))
           /\ PROVIDERS (snd (startup env initial_state)) = ∅)
          \/ configured (snd (startup env initial_state)) = true) as Hstart.
  { unfold startup. destruct env as [url|]; [|by left].
    destruct (String.eqb url _); [by left|].
    unfold bind at 1. cbn [fst snd modify].
    apply unset_or_configured_update. by left. }
  assert (forall st0,
    (unset (globalConfig st0) /\ PROVIDERS st0 = ∅) \/ configured st0 = true ->
    (unset (globalConfig (run activities st0))
     /\ PROVIDERS (run activities st0) = ∅)
    \/ configured (run activities st0) = true) as Hrun.
  { induction activities as [|a rest IH]; intros st0 Hinv; simpl; [done|].
    apply IH. destruct a as [call|p]; simpl.
    - destruct (tool_networkId call) as [networkId|] eqn:Hid.
      + assert (forall url, call <> Call_configure_from_url url) as Hcall
          by (intros url ->; discriminate Hid).
        destruct (execute_config call Hcall st0) as (Hc & Hp).
        unfold configured. rewrite Hc, Hp. exact Hinv.
      + destruct call; try discriminate Hid. simpl.
        rewrite configure_from_url_state.
        by apply unset_or_configured_update.
    - destruct (provider_getFeeData_store p st0) as (Hc & Hp & _).
      unfold configured. by rewrite Hc, Hp. }
  specialize (Hrun _ Hstart). split; [exact Hrun|]. split.
  - intros Hnonempty. by destruct Hrun as [[_ Hempty]|Hset].
  - destruct Hrun as [[Hunset _]|Hset].
    + unfold configured. by rewrite Hunset.
    + rewrite Hset. unfold configured in Hset.
      by apply andb_true_iff in Hset as [_ ->].
Qed.

(** X12. Start-up never throws, whatever [MCP_SERVER_URL] holds, and
    leaves the server configured exactly when the variable is set to a
    non-empty source that [parseConfigFromURL] accepts. *)
Theorem startup_never_fails (MCP_SERVER_URL : option string) :
  fst (startup MCP_SERVER_URL initial_state) = Normal tt
  /\ configured (snd (startup MCP_SERVER_URL initial_state))
     = match MCP_SERVER_URL with
       | Some url =>
           if String.eqb url EmptyString then false
           else match fst (parseConfigFromURL url initial_state) with
                | Normal (Some _) => true
                | _ => false
                end
       | None => false
       end.
Proof.
  unfold startup. destruct MCP_SERVER_URL as [url|]; [|done].
  destruct (String.eqb url _); [done|].
  unfold bind at 1 2. cbn [fst snd modify].
  set (st := add_console _ initial_state).
  split; [apply updateConfigFromURL_returns|].
  rewrite parseConfigFromURL_result.
  destruct (decode url) as [e|config] eqn:Hdecode.
  - destruct (updateConfigFromURL_failed_decode url st e Hdecode)
      as ((Hc & _) & _).
    unfold configured. by rewrite Hc.
  - destruct (unset_or_configured_update url st) as [[Hunset _]|Hset];
      [by left| |done].
    destruct (decode_configured url config Hdecode) as [Hw Hk].
    assert (globalConfig (snd (updateConfigFromURL url st)) = config) as Hc.
    { destruct (key_text config) as [key|] eqn:Hkey.
      - by destruct (updateConfigFromURL_built url st config key Hdecode Hkey).
      - by destruct (updateConfigFromURL_not_built url st config Hdecode Hkey).
    }
    unfold configured. by rewrite Hc, Hw, Hk.
Qed.

(** X19. The last console line of [updateConfigFromURL] tells its three
    outcomes apart, which the result of [configure_from_url] does not. It is
    the line of a finished build exactly when [PROVIDERS] holds a registry
    built by this call; the error line of the build when the configuration
    was replaced and the registry kept; the line of a failed parse when
    nothing was replaced. *)
Theorem console_tells_the_outcome (url : string) (st : State) :
  let st' := snd (updateConfigFromURL url st) in
  (last (console st')
   = Some (console_log "Providers initialized successfully")
   /\ PROVIDERS st' = registry_at (length (heap st))
   /\ length (heap st') = (length (heap st) + 4)%nat
   /\ configured st' = true)
  \/ (exists message,
      last (console st')
      = Some (console_error "Failed to initialize providers:"
                (ArgText message))
      /\ PROVIDERS st' = PROVIDERS st
      /\ heap st' = heap st
      /\ configured st' = true)
  \/ (last (console st')
      = Some (console_log
                "Failed to parse config from URL - configuration required")
      /\ same_store st st').
Proof.
  intros st'. subst st'. unfold updateConfigFromURL, bind.
  destruct (parseConfigFromURL_decode url st) as [lines ->].
  destruct (decode url) as [e|config] eqn:Hdecode; cbn [forget_kind].
  - right. right. unfold modify, add_console. cbn.
    split; [by rewrite last_snoc|done].
  - destruct (decode_configured url config Hdecode) as [Hw Hk].
    unfold modify, try_catch, bind, get. cbn [fst snd].
    destruct (key_text config) as [key|] eqn:Hkey.
    + left. erewrite createProviders_built by (cbn; eassumption).
      cbn. rewrite last_snoc, length_app. unfold configured. cbn.
      by rewrite Hw, Hk.
    + right. left.
      edestruct (createProviders_failed config) as [t ->];
        [by right|].
      eexists. cbn. rewrite last_snoc. unfold configured. cbn.
      by rewrite Hw, Hk.
Qed.

End Configuration.

Section Mock.
Context {platform : Platform}.
Variable network : list Event -> JsonRpcProvider -> Completion FeeData.
Variable draw : list Event -> BitlySDK -> SdkCall -> JSValue.

(** X13. Against the mock exchange client, none of whose methods rejects, a
    tool fails only where [createSDK] fails, and then with the error of
    [createSDK]; otherwise it returns the serialized value the mock drew for
    the one operation the tool stands for, asked of a client that holds the
    registered provider and the signer. This holds for the two
    order-placing tools as well, whose refresh cannot fail here. *)
Theorem mock_tools_fail_only_in_createSDK (call : ToolCall) (networkId : Z)
    (c : SdkCall) (st : State) :
  tool_networkId call = Some networkId ->
  tool_delegate call = Some c ->
  match @createSDK platform (MockBitlySDK network draw) networkId st with
  | (Throw t, st1) =>
      @execute platform (MockBitlySDK network draw) call st = (Throw t, st1)
  | (Normal sdk, st1) =>
      fst (@execute platform (MockBitlySDK network draw) call st)
      = Normal (JSON_stringify
          (draw (trace st1 ++ [EvSetProvider (PROVIDERS st1 !! networkId)])
             (mkSDK (sdk_networkId sdk) (PROVIDERS st1 !! networkId)
                (sdk_signer sdk)) c))
  end.
Proof.
  intros Hid Hc.
  destruct (@createSDK platform (MockBitlySDK network draw) networkId st)
    as [[sdk|t] st1] eqn:Hsdk.
  - destruct call; simpl in Hid, Hc; simplify_eq; simpl; unfold_tool;
      unfold session; unfold bind at 1 2; rewrite Hsdk;
      unfold setProvider, delegate, updateKline, setTimeout, bind, get,
        modify, lift, ret; by cbn.
  - apply (execute_when_session_throws call networkId); [done|].
    by apply session_when_createSDK_throws.
Qed.

End Mock.

(* ===================================================================== *)
(** ** The further properties on the example server *)
(* ===================================================================== *)

Section Instances.
Import Examples.
Existing Instance NodeModel.node.
Existing Instance Examples.mock.

(** X1 on a server that was never configured. *)
Lemma tools_require_configuration_witness :
  configured initial_state = false
  /\ execute (Call_get_balance 84532 "0xtoken") initial_state
     = (Throw NotConfigured, initial_state).
Proof.
  split; [reflexivity|].
  apply (tools_require_configuration _ 84532); reflexivity.
Defined.

(** X2 on a network that does not answer: the error of the fee query, which
    [createSDK] throws, is what [get_balance] throws. *)
Lemma session_failure_reaches_the_caller_witness :
  let st := after_configure url_key1 in
  let t := ThrowError "could not detect network" in
  let st1 := snd (@createSDK _ network_down 84532 st) in
  @createSDK _ network_down 84532 st = (Throw t, st1)
  /\ @execute _ network_down (Call_get_balance 84532 "0xtoken") st
     = (Throw t, st1).
Proof.
  intros st t st1.
  assert (@createSDK _ network_down 84532 st = (Throw t, st1)) as Hsdk
    by (vm_compute; reflexivity).
  split; [exact Hsdk|].
  apply (@session_failure_reaches_the_caller _ network_down _ 84532);
    [reflexivity|exact Hsdk].
Defined.

(** X3 on a configured server, asked for network 5. *)
Lemma unlisted_network_is_refused_witness :
  let st := after_configure url_key1 in
  reachable st
  /\ (5 ∉ network_ids)
  /\ execute (Call_get_prices 5 ["ETH-USDC"] one) st
     = (Throw (UnknownNetwork 5), st).
Proof.
  intros st.
  assert (reachable st) as Hreach
    by (exists None, [Invoke (Call_configure_from_url url_key1)];
        reflexivity).
  assert (5 ∉ network_ids) as Hid.
  { unfold network_ids.
    rewrite !not_elem_of_union, !not_elem_of_singleton. lia. }
  split; [exact Hreach|]. split; [exact Hid|].
  pose proof (unlisted_network_is_refused
                (Call_get_prices 5 ["ETH-USDC"] one) 5 st Hreach Hid eq_refl)
    as H.
  assert (configured st = true) as Hc by (vm_compute; reflexivity).
  rewrite Hc in H. exact H.
Defined.


(** X5 on [get_balance] with the mock client. *)
Lemma tool_is_one_delegate_call_witness :
  let st := after_configure url_key1 in
  let call := Call_get_balance 84532 "0xtoken" in
  let c := balancesInBank ["0xtoken"] in
  let signer :=
    mkWallet
      "0x0123456789abcdef0123456789abcdef0123456789abcdef0123456789abcdef"
      (Some 0%nat) in
  let sdk := mkSDK 84532 (Some 0%nat) (Some signer) in
  let st1 := snd (session 84532 st) in
  session 84532 st = (Normal sdk, st1)
  /\ execute call st
     = (Normal (JSON_stringify receipt), add_event (EvCall c) st1).
Proof.
  intros st call c signer sdk st1.
  assert (session 84532 st = (Normal sdk, st1)) as Hs
    by (vm_compute; reflexivity).
  split; [exact Hs|].
  exact (tool_is_one_delegate_call call 84532 c st st1 sdk
           eq_refl eq_refl eq_refl Hs).
Defined.

(** X6 on [cancel_all_limit_order] with a client whose operations
    reject. *)
Lemma delegate_failure_ends_the_tool_witness :
  let st := after_configure url_key1 in
  let call := Call_cancel_all_limit_order 84532 "ETH-USDC" in
  let c := cancelAllLimitOrder "ETH-USDC" in
  let signer :=
    mkWallet
      "0x0123456789abcdef0123456789abcdef0123456789abcdef0123456789abcdef"
      (Some 0%nat) in
  let sdk := mkSDK 84532 (Some 0%nat) (Some signer) in
  let st1 := snd (@session _ rejecting_exchange 84532 st) in
  @session _ rejecting_exchange 84532 st = (Normal sdk, st1)
  /\ @execute _ rejecting_exchange call st
     = (Throw (ThrowError "execution reverted"), add_event (EvCall c) st1).
Proof.
  intros st call c signer sdk st1.
  assert (@session _ rejecting_exchange 84532 st = (Normal sdk, st1)) as Hs
    by (vm_compute; reflexivity).
  split; [exact Hs|].
  exact (@delegate_failure_ends_the_tool _ rejecting_exchange call 84532 c
           st st1 sdk _ eq_refl eq_refl Hs eq_refl).
Defined.

(** X17 on an order. *)
Lemma tools_leave_the_configuration_witness :
  let st := after_configure url_key1 in
  let call := Call_place_limit_order 84532 "ETH-USDC" BUY one one in
  globalConfig (snd (execute call st)) = globalConfig st
  /\ PROVIDERS (snd (execute call st)) = PROVIDERS st.
Proof.
  intros st call.
  exact (tools_leave_the_configuration call 84532 st eq_refl).
Defined.


(** X10 with a client whose [setSigner] rejects. *)
Lemma rejected_signer_is_unauthorized_witness :
  let st := after_configure url_key1 in
  let t := ThrowError "signer refused" in
  fst (@createSDK _ rejecting_signer 84532 st)
  = Throw (ThrowResponse 401 "Unauthorized - signer refused").
Proof.
  intros st t.
  assert (configured st = true) as Hc by (vm_compute; reflexivity).
  assert (PROVIDERS st !! 84532 = Some 0%nat) as Hp
    by (vm_compute; reflexivity).
  assert (@provider_getFeeData rejecting_signer 0%nat st
          = (Normal first_fees, snd (@provider_getFeeData rejecting_signer
                                       0%nat st))) as Hfee
    by (vm_compute; reflexivity).
  assert (new_Wallet (WALLET_PRIVATE_KEY (globalConfig st)) (Some 0%nat)
          = Normal (mkWallet
              "0x0123456789abcdef0123456789abcdef0123456789abcdef0123456789abcdef"
              (Some 0%nat))) as Hw
    by (vm_compute; reflexivity).
  exact (proj1 (@rejected_signer_is_unauthorized _ rejecting_signer 84532 st
                  _ 0%nat first_fees _ t Hc Hp Hfee Hw
                  (fun _ _ => eq_refl))).
Defined.

(** X8: a second [configure_from_url] on a configured server that has made
    a session. *)
Lemma rebuild_queries_the_network_again_witness :
  let st := snd (createSDK 84532 (after_configure url_key1)) in
  let st' := snd (configure_from_url url_key2 st) in
  fst (parseConfigFromURL url_key2 st) = Normal (Some config_key2)
  /\ key_text config_key2 = Some "key2"
  /\ (84532 ∈ network_ids)
  /\ exists h later,
       PROVIDERS st' !! 84532 = Some h
       /\ heap st !! h = None
       /\ trace (snd (createSDK 84532 st'))
          = trace st' ++ EvGetFeeData h :: later.
Proof.
  intros st st'.
  assert (fst (parseConfigFromURL url_key2 st) = Normal (Some config_key2))
    as Hdecode by (vm_compute; reflexivity).
  assert (key_text config_key2 = Some "key2") as Hkey
    by (vm_compute; reflexivity).
  assert (84532 ∈ network_ids) as Hid by (unfold network_ids; set_solver).
  split; [exact Hdecode|]. split; [exact Hkey|]. split; [exact Hid|].
  exact (rebuild_queries_the_network_again url_key2 st config_key2 "key2"
           84532 Hdecode Hkey Hid).
Defined.

(** X18 on the first build of a server. *)
Lemma built_registry_endpoints_witness :
  let st := initial_state in
  let built := createProviders config_key2 st in
  built = (Normal (registry_at 0), snd built)
  /\ exists key,
       key_text config_key2 = Some key
       /\ forall networkId endpoint,
           (networkId, endpoint)
             ∈ [(84532, "https://base-sepolia.infura.io/v3/" +:+ key);
                (8453, "https://base-mainnet.infura.io/v3/" +:+ key);
                (137, "https://polygon-mainnet.infura.io/v3/" +:+ key);
                (690, "https://rpc.redstonechain.com")] ->
           exists h,
             registry_at 0 !! networkId = Some h
             /\ heap (snd built) !! h
                = Some (mkProvider endpoint networkId FeeFromNetwork).
Proof.
  intros st built.
  assert (built = (Normal (registry_at 0), snd built)) as Hbuilt
    by (vm_compute; reflexivity).
  split; [exact Hbuilt|].
  exact (built_registry_endpoints config_key2 st _ _ Hbuilt).
Defined.

(** X14 on the same build, for network 137. *)
Lemma block_time_covers_the_registry_witness :
  let built := createProviders config_key2 initial_state in
  built = (Normal (registry_at 0), snd built)
  /\ (is_Some (registry_at 0 !! 137) <-> is_Some (BLOCK_TIME !! 137))
  /\ (is_Some (registry_at 0 !! 137) ->
      default DEFAULT_BLOCK_TIME (BLOCK_TIME !! 137) + 1000 = 3000).
Proof.
  intros built.
  assert (built = (Normal (registry_at 0), snd built)) as Hbuilt
    by (vm_compute; reflexivity).
  split; [exact Hbuilt|].
  exact (block_time_covers_the_registry config_key2 initial_state _ _ 137
           Hbuilt).
Defined.

(** X15: a configured server is given a source whose API key is an object
    with a member named [toString]. *)
Lemma failed_build_keeps_the_old_registry_witness :
  let st := after_configure url_key1 in
  let config :=
    mkConfig (Some (JString "0xabc"))
      (Some (JObject [("toString", JNumber one)])) in
  let st' := snd (configure_from_url url_object_key st) in
  fst (parseConfigFromURL url_object_key st) = Normal (Some config)
  /\ key_text config = None
  /\ globalConfig st' = config
  /\ configured st' = true
  /\ PROVIDERS st' = PROVIDERS st
  /\ heap st' = heap st.
Proof.
  intros st config st'.
  assert (fst (parseConfigFromURL url_object_key st) = Normal (Some config))
    as Hdecode by (vm_compute; reflexivity).
  assert (key_text config = None) as Hkey by (vm_compute; reflexivity).
  split; [exact Hdecode|]. split; [exact Hkey|].
  exact (failed_build_keeps_the_old_registry url_object_key st config
           Hdecode Hkey).
Defined.

(** X11 on a server that was configured and then given a source that does
    not decode. *)
Lemma configuration_is_unset_or_complete_witness :
  let st :=
    run [Invoke (Call_configure_from_url url_key1);
         Invoke (Call_configure_from_url url_malformed)]
      (snd (startup None initial_state)) in
  reachable st
  /\ ((unset (globalConfig st) /\ PROVIDERS st = ∅) \/ configured st = true)
  /\ (PROVIDERS st <> ∅ -> configured st = true)
  /\ truthy (INFURA_API_KEY (globalConfig st)) = configured st.
Proof.
  intros st.
  assert (reachable st) as Hreach by (by eexists _, _).
  split; [exact Hreach|].
  exact (configuration_is_unset_or_complete st Hreach).
Defined.

(** X13 on a limit order with the mock client of the examples. *)
Lemma mock_tools_fail_only_in_createSDK_witness :
  let st := after_configure url_key1 in
  let call := Call_place_limit_order 84532 "ETH-USDC" BUY one one in
  fst (@execute _ (MockBitlySDK rising_fees (fun _ _ _ => receipt)) call st)
  = Normal (JSON_stringify receipt).
Proof.
  intros st call.
  pose proof (mock_tools_fail_only_in_createSDK rising_fees
                (fun _ _ _ => receipt) call 84532
                (placeLimitOrder "ETH-USDC" BUY one one) st eq_refl eq_refl)
    as H.
  destruct (@createSDK _ (MockBitlySDK rising_fees (fun _ _ _ => receipt))
              84532 st) as [[sdk|t] st1] eqn:Hsdk.
  - exact H.
  - vm_compute in Hsdk. discriminate Hsdk.
Defined.

End Instances.

(* ===================================================================== *)
(** * Properties of the bundled exchange client *)
(* ===================================================================== *)

Section Objects.
Import Mock.

Lemma has_member_keys key obj : has_member key obj = true <-> key ∈ keys obj.
Proof.
  unfold has_member, keys.
  induction obj as [|[k v] rest IH]; simpl.
  - split; [done|by intros ?%elem_of_nil].
  - rewrite orb_true_iff, IH, elem_of_cons, String.eqb_eq.
    split; (intros [Heq|Hin]; [left|right]; done).
Qed.

Lemma keys_replaced key v obj :
  keys (map (fun kv : string * JSValue =>
               if String.eqb (fst kv) key then (key, v) else kv) obj)
  = keys obj.
Proof.
  unfold keys. induction obj as [|[k w] rest IH]; simpl; [done|].
  rewrite IH. by destruct (String.eqb_spec k key) as [->|].
Qed.

Lemma keys_insert_index n key v obj :
  keys (insert_index n key v obj) ≡ₚ key :: keys obj.
Proof.
  unfold keys. induction obj as [|[k w] rest IH]; simpl; [done|].
  destruct (array_index k) as [m|]; [|done].
  destruct (m <? n)%N; [|done]. simpl. rewrite IH. apply Permutation_swap.
Qed.

(** An assignment adds its name to the own properties, once. *)
Lemma object_set_keys obj key v :
  key <> "__proto__" ->
  (key ∈ keys obj /\ keys (object_set obj key v) = keys obj)
  \/ ((key ∉ keys obj)
      /\ keys (object_set obj key v) ≡ₚ key :: keys obj).
Proof.
  intros Hproto. unfold object_set.
  destruct (String.eqb_spec key "__proto__") as [->|_]; [done|].
  destruct (has_member key obj) eqn:Hmember.
  - left. split; [by apply has_member_keys|apply keys_replaced].
  - right. split.
    + intros Hin%has_member_keys. congruence.
    + destruct (array_index key) as [n|]; [apply keys_insert_index|].
      unfold keys. rewrite map_app. simpl.
      by rewrite Permutation_app_comm.
Qed.

Lemma object_set_new obj key v :
  plain key -> key ∉ keys obj -> object_set obj key v = obj ++ [(key, v)].
Proof.
  intros [Hindex Hproto] Hnew. unfold object_set.
  destruct (String.eqb_spec key "__proto__") as [->|_]; [done|].
  destruct (has_member key obj) eqn:Hmember;
    [by apply has_member_keys in Hmember|].
  by rewrite Hindex.
Qed.

Section Records.
(** The callback of a [forEach] that assigns one property per item. *)
Variable f :
  list (string * JSValue) -> string -> Rand (list (string * JSValue)).
Hypothesis f_sets :
  forall obj id k, exists v, fst (f obj id k) = object_set obj id v.

Lemma forEach_cons id rest obj k :
  forEach (id :: rest) f obj k
  = forEach rest f (fst (f obj id k)) (snd (f obj id k)).
Proof. reflexivity. Qed.

Lemma forEach_keys ids : forall obj k,
  NoDup (keys obj) ->
  NoDup (keys (fst (forEach ids f obj k)))
  /\ forall key,
      key ∈ keys (fst (forEach ids f obj k))
      <-> key ∈ keys obj \/ (key ∈ ids /\ key <> "__proto__").
Proof.
  induction ids as [|id rest IH]; intros obj k Hnodup.
  - simpl. split; [done|]. intros key. split; [by left|].
    intros [?|[?%elem_of_nil _]]; done.
  - rewrite forEach_cons. destruct (f_sets obj id k) as [v ->].
    set (k' := snd (f obj id k)).
    destruct (String.eqb_spec id "__proto__") as [->|Hproto].
    + unfold object_set at 1 2. simpl.
      destruct (IH obj k' Hnodup) as [Hnd Hkeys]. split; [done|].
      intros key. rewrite Hkeys, elem_of_cons. tauto.
    + destruct (object_set_keys obj id v Hproto) as [[Hin Heq]|[Hnew Hperm]].
      * destruct (IH (object_set obj id v) k') as [Hnd Hkeys];
          [by rewrite Heq|].
        split; [done|]. intros key. rewrite Hkeys, Heq, elem_of_cons.
        split; [tauto|]. intros [?|[[->|?] ?]]; tauto.
      * destruct (IH (object_set obj id v) k') as [Hnd Hkeys].
        { rewrite Hperm. by apply NoDup_cons. }
        split; [done|]. intros key.
        rewrite Hkeys, Hperm, !elem_of_cons.
        split; [|tauto]. intros [[->|?]|?]; tauto.
Qed.

Lemma forEach_order ids : forall obj k,
  Forall plain ids ->
  NoDup (keys obj ++ ids) ->
  keys (fst (forEach ids f obj k)) = keys obj ++ ids.
Proof.
  induction ids as [|id rest IH]; intros obj k Hplain Hnodup.
  - simpl. by rewrite app_nil_r.
  - rewrite forEach_cons. destruct (f_sets obj id k) as [v ->].
    apply Forall_cons in Hplain as [Hid Hrest].
    apply NoDup_app in Hnodup as (Hobj & Hdisjoint & Hids).
    apply NoDup_cons in Hids as [Hfresh Hids].
    rewrite object_set_new; [|done|].
    2: { intros Hin. apply (Hdisjoint id Hin). by left. }
    rewrite IH; [|done|].
    + unfold keys. rewrite map_app. simpl. by rewrite <- app_assoc.
    + unfold keys. rewrite map_app. simpl. rewrite <- app_assoc. simpl.
      apply NoDup_app. split; [done|]. split.
      * intros key Hin [->|Hin']%elem_of_cons.
        -- apply (Hdisjoint id Hin). by left.
        -- apply (Hdisjoint key Hin). by right.
      * by apply NoDup_cons.
Qed.

End Records.

Lemma Array_map_pointwise {B C} (f : string -> Rand B) (g : B -> C)
    (h : string -> C) :
  (forall id k, g (fst (f id k)) = h id) ->
  forall ids k, map g (fst (Array_map ids f k)) = map h ids.
Proof.
  intros Hf. induction ids as [|id rest IH]; intros k; simpl; [done|].
  unfold and_then, pure. simpl. by rewrite Hf, IH.
Qed.

End Objects.

Section Client.
Import Mock.
Context {platform : Platform} {runtime : Runtime}.

(** X20. The methods of the mock that return an object keyed by the
    requested ids ([balancesInBank], [getVolumes], [getLimitOrders],
    [getFinishedOrders], [getMarketOrderHistory], [getPrices]) return one
    property for each distinct id, whatever [Math.random] returns: an id
    asked twice has one entry, and the id [__proto__] has none. When the ids
    are distinct and none is an array index or [__proto__], the properties
    come in the order of the request. *)
Theorem records_are_keyed_by_the_request
    (Math_random Date_now : nat -> Double) (sdk : BitlySDK) (call : SdkCall)
    (ids : list string) (k : nat) :
  keyed_by call = Some ids ->
  exists members,
    fst (method_of Math_random Date_now sdk call k) = JObject members
    /\ NoDup (keys members)
    /\ (forall key, key ∈ keys members <-> key ∈ ids /\ key <> "__proto__")
    /\ (NoDup ids -> Forall plain ids -> keys members = ids).
Proof.
  intros Hkeyed.
  destruct call; simpl in Hkeyed; simplify_eq; simpl;
    unfold wallet_balancesInBank, exchange_getVolumes,
      exchange_getLimitOrders, exchange_getFinishedOrders,
      exchange_getMarketOrderHistory, prices_getPrices;
    unfold and_then at 1; unfold pure at 1; cbn [fst];
    (eexists; split; [reflexivity|]);
    match goal with
    | |- context [forEach ids ?f [] k] =>
        assert (forall obj id k, exists v,
                  fst (f obj id k) = object_set obj id v) as Hsets
          by (intros; eexists; reflexivity);
        destruct (forEach_keys f Hsets ids [] k (NoDup_nil_2))
          as [Hnodup Hkeys];
        pose proof (forEach_order f Hsets ids [] k) as Horder
    end;
    (split; [exact Hnodup|]); (split;
      [intros key; rewrite Hkeys; unfold keys at 1; simpl;
       rewrite elem_of_nil; tauto
      |intros Hdistinct Hplain; by apply Horder]).
Qed.

(** X21. The methods of the mock that return an array answer each
    requested id in turn, an id asked twice being answered twice:
    [getMarketsInfo] with the display name of the id, [getKlines] with the
    id as symbol, and [getTokensInfo] with the same token data for every
    address and no call of [Math.random] at all. *)
Theorem lists_answer_each_request_in_order
    (Math_random Date_now : nat -> Double) (sdk : BitlySDK)
    (ids : list string) (resolution : KlineResolution) (from to : JSNumber)
    (k : nat) :
  (exists entries,
     fst (method_of Math_random Date_now sdk (getMarketsInfo ids) k)
     = JArray entries
     /\ map (field "displayName") entries
        = map (fun id => Some (JString (id +:+ "_MOCK"))) ids)
  /\ (exists entries,
     fst (method_of Math_random Date_now sdk
            (getKlines ids resolution from to) k)
     = JArray entries
     /\ map (field "symbol") entries = map (fun id => Some (JString id)) ids)
  /\ method_of Math_random Date_now sdk (getTokensInfo ids) k
     = (JArray
          (map (fun address =>
                  JObject
                    [("symbol", JString "MOCK");
                     ("name", JString "Mock Token");
                     ("decimals", JNumber (num_of_Z 18));
                     ("address", JString address)]) ids),
        k).
Proof.
  split; [|split]; simpl.
  - unfold exchange_getMarketsInfo. unfold and_then at 1. unfold pure at 1.
    cbn [fst]. eexists. split; [reflexivity|].
    by apply Array_map_pointwise.
  - unfold prices_getKlines. unfold and_then at 1. unfold pure at 1.
    cbn [fst]. eexists. split; [reflexivity|].
    by apply Array_map_pointwise.
  - unfold exchange_getTokensInfo. unfold and_then at 1. unfold pure at 1.
    assert (forall (l : list string) n,
      Array_map l
        (fun address =>
           pure (JObject
             [("symbol", JString "MOCK"); ("name", JString "Mock Token");
              ("decimals", JNumber (num_of_Z 18));
              ("address", JString address)])) n
      = (map (fun address =>
                JObject
                  [("symbol", JString "MOCK"); ("name", JString "Mock Token");
                   ("decimals", JNumber (num_of_Z 18));
                   ("address", JString address)]) l, n)) as Hmap.
    { induction l as [|a l IH]; intros n; simpl; [done|].
      unfold and_then, pure. simpl. by rewrite IH. }
    by rewrite Hmap.
Qed.

(** The transaction a method returns on a client that has a signer. *)
Lemma ContractTransaction_signed Math_random signer gasLimit k :
  Wallet_address signer <> EmptyString ->
  exists hash to,
    ContractTransaction Math_random (Some signer) gasLimit k
    = (JObject
         [("hash", hash); ("to", to);
          ("from", JString (Wallet_address signer));
          ("gasLimit", JString gasLimit);
          ("gasPrice", JString "20000000000"); ("value", JString "0")],
       (k + 2)%nat).
Proof.
  intros Haddress. unfold ContractTransaction.
  destruct (String.eqb_spec (Wallet_address signer) EmptyString); [done|].
  unfold and_then, pure, random_hex, random. simpl.
  eexists _, _. f_equal. lia.
Qed.

Lemma method_of_transaction Math_random Date_now sdk c k signer :
  transacts c = true ->
  sdk_signer sdk = Some signer ->
  Wallet_address signer <> EmptyString ->
  exists hash to gasLimit,
    fst (method_of Math_random Date_now sdk c k)
    = JObject
        [("hash", hash); ("to", to);
         ("from", JString (Wallet_address signer));
         ("gasLimit", JString gasLimit);
         ("gasPrice", JString "20000000000"); ("value", JString "0")].
Proof.
  intros Hc Hsigner Haddress.
  destruct c; try discriminate Hc;
    unfold method_of, exchange_placeLimitOrder, exchange_placeMarketOrder,
      exchange_cancelLimitOrder, exchange_cancelAllLimitOrder,
      exchange_claimEarning, exchange_claimAllEarnings;
    rewrite Hsigner;
    match goal with
    | |- context [ContractTransaction _ _ ?gasLimit _] =>
        destruct (ContractTransaction_signed Math_random signer gasLimit k
                    Haddress) as (hash & to & ->)
    end;
    by eexists _, _, _.
Qed.

Variable network : list Event -> JsonRpcProvider -> Completion FeeData.

(** A tool run against a mock client, once its session is made. *)
Lemma mock_execute_after_session draw call networkId c st sdk st1 :
  tool_networkId call = Some networkId ->
  tool_delegate call = Some c ->
  @session platform (MockBitlySDK network draw) networkId st
  = (Normal sdk, st1) ->
  fst (@execute platform (MockBitlySDK network draw) call st)
  = Normal (JSON_stringify (draw (trace st1) sdk c)).
Proof.
  intros Hid Hc Hsession.
  destruct call; simpl in Hid, Hc; simplify_eq; simpl; unfold_tool;
    unfold bind at 1; rewrite Hsession;
    unfold delegate, updateKline, setTimeout, bind, get, modify, lift, ret;
    by cbn.
Qed.

(** X22. Through the server, the six tools that return a transaction
    (placing, cancelling, claiming) name the configured wallet as its
    sender: when such a tool returns against the mock client, the [from]
    of the transaction is the address of the wallet made from
    [WALLET_PRIVATE_KEY] on the provider of the network, never a drawn one,
    and [gasPrice] is the constant of the mock, not the price [createSDK]
    captured. *)
Theorem transactions_are_sent_from_the_configured_wallet
    (Math_random Date_now : list Event -> nat -> Double) (call : ToolCall)
    (networkId : Z) (c : SdkCall) (st st' : State) (text : string) :
  (forall signer, Wallet_address signer <> EmptyString) ->
  tool_networkId call = Some networkId ->
  tool_delegate call = Some c ->
  transacts c = true ->
  @execute platform (client network Math_random Date_now) call st
  = (Normal text, st') ->
  exists h signer hash to gasLimit,
    PROVIDERS st !! networkId = Some h
    /\ new_Wallet (WALLET_PRIVATE_KEY (globalConfig st)) (Some h)
       = Normal signer
    /\ text
       = JSON_stringify
           (JObject
              [("hash", hash); ("to", to);
               ("from", JString (Wallet_address signer));
               ("gasLimit", JString gasLimit);
               ("gasPrice", JString "20000000000"); ("value", JString "0")]).
Proof.
  intros Haddress Hid Hc Htransacts Hexecute. unfold client in *.
  set (draw := fun history sdk call =>
         fst (method_of (Math_random history) (Date_now history) sdk call
                0%nat)) in *.
  destruct (@session platform (MockBitlySDK network draw) networkId st)
    as [[sdk|t] st1] eqn:Hsession.
  - destruct (session_returns networkId st st1 sdk Hsession)
      as (h & signer & _ & Hh & Hwallet & -> & _).
    pose proof (mock_execute_after_session draw call networkId c st _ st1
                  Hid Hc Hsession) as Hresult.
    rewrite Hexecute in Hresult. cbn [fst] in Hresult.
    injection Hresult as ->.
    destruct (method_of_transaction (Math_random (trace st1))
                (Date_now (trace st1))
                (mkSDK networkId (Some h) (Some signer)) c 0%nat signer
                Htransacts eq_refl (Haddress signer))
      as (hash & to & gasLimit & Hmethod).
    exists h, signer, hash, to, gasLimit. split; [done|]. split; [done|].
    subst draw. cbv beta. by rewrite Hmethod.
  - rewrite (execute_when_session_throws call networkId st t st1 Hid Hsession)
      in Hexecute.
    discriminate Hexecute.
Qed.

End Client.

Section ClientInstances.
Import Examples Mock.
Existing Instance NodeModel.node.
Existing Instance Mock.still.

(** X20 on [getPrices], asked for one pair twice and for another pair. *)
Lemma records_are_keyed_by_the_request_witness :
  let ids := ["ETH-USDC"; "BTC-USDC"; "ETH-USDC"] in
  let result :=
    method_of (fun _ => num_of_Z 0) (fun _ => num_of_Z 0)
      (mkSDK 84532 None None) (getPrices ids one) 0%nat in
  fst result
  = JObject [("ETH-USDC", JNumber (num_of_Z 0));
             ("BTC-USDC", JNumber (num_of_Z 0))]
  /\ exists members,
       fst result = JObject members
       /\ NoDup (keys members)
       /\ (forall key,
             key ∈ keys members <-> key ∈ ids /\ key <> "__proto__")
       /\ (NoDup ids -> Forall plain ids -> keys members = ids).
Proof.
  intros ids result. split; [vm_compute; reflexivity|].
  exact (records_are_keyed_by_the_request (runtime := still)
           (fun _ => num_of_Z 0)
           (fun _ => num_of_Z 0) (mkSDK 84532 None None) (getPrices ids one)
           ids 0%nat eq_refl).
Defined.

(** X22 on [cancel_all_limit_order], on a configured server. *)
Lemma transactions_are_sent_from_the_configured_wallet_witness :
  let st := after_configure url_key1 in
  let world :=
    client rising_fees (fun _ _ => num_of_Z 0) (fun _ _ => num_of_Z 0) in
  let call := Call_cancel_all_limit_order 84532 "ETH-USDC" in
  let result := @execute _ world call st in
  (forall signer, Wallet_address signer <> EmptyString)
  /\ is_Some (match fst result with
              | Normal text => Some text
              | Throw _ => None
              end)
  /\ exists h signer hash to gasLimit,
       PROVIDERS st !! 84532 = Some h
       /\ new_Wallet (WALLET_PRIVATE_KEY (globalConfig st)) (Some h)
          = Normal signer
       /\ fst result
          = Normal (JSON_stringify
              (JObject
                 [("hash", hash); ("to", to);
                  ("from", JString (Wallet_address signer));
                  ("gasLimit", JString gasLimit);
                  ("gasPrice", JString "20000000000");
                  ("value", JString "0")])).
Proof.
  intros st world call result.
  assert (forall signer, Wallet_address signer <> EmptyString) as Haddress
    by (intros signer; discriminate).
  split; [exact Haddress|].
  destruct result as [[text|t] st'] eqn:Hresult.
  - split; [by eexists|].
    destruct (transactions_are_sent_from_the_configured_wallet
                (runtime := still) rising_fees
                (fun _ _ => num_of_Z 0) (fun _ _ => num_of_Z 0) call 84532
                (cancelAllLimitOrder "ETH-USDC") st st' text Haddress
                eq_refl eq_refl eq_refl Hresult)
      as (h & signer & hash & to & gasLimit & Hh & Hwallet & ->).
    by exists h, signer, hash, to, gasLimit.
  - vm_compute in Hresult. discriminate Hresult.
Defined.

End ClientInstances.

(* ===================================================================== *)
(** * Overlapping invocations: the fee override and the registry *)
(* ===================================================================== *)

Section Steps.
Import Async.
Context {platform : Platform} {world : World}.

Lemma suspend_store {A} (m : M A) (k : Completion A -> Thread) st :
  effect same_store m -> same_store st (snd (suspend m k st)).
Proof. intros Hm. apply Hm. Qed.

Lemma step_Ready call networkId st :
  tool_networkId call = Some networkId ->
  step (Ready call) st = createSDK_to_getFeeData call networkId st.
Proof. intros Hid. unfold step. by rewrite Hid. Qed.

Lemma step_configure url st :
  step (Ready (Call_configure_from_url url)) st
  = (Finished (fst (configure_from_url url st)),
     snd (configure_from_url url st)).
Proof. reflexivity. Qed.

(** A thread is about to reconfigure the server, or its next step is not a
    reconfiguration. *)
Lemma reconfigures_or_not thread :
  (exists url, thread = Ready (Call_configure_from_url url))
  \/ (forall url, thread <> Ready (Call_configure_from_url url)).
Proof.
  destruct thread as [call| | | | | | | |]; try (right; discriminate).
  destruct call; first [by left; eexists | right; discriminate].
Qed.

Lemma createSDK_to_getFeeData_store call networkId st :
  same_store st (snd (createSDK_to_getFeeData call networkId st)).
Proof.
  unfold createSDK_to_getFeeData.
  destruct (_ || _); [done|].
  destruct (PROVIDERS st !! networkId) as [p|]; [|done].
  apply suspend_store, provider_getFeeData_store.
Qed.

(** The assignment of the accessor keeps everything but the accessor of
    that one object. *)
Lemma provider_set_getFeeData_heap p f st :
  length (heap (snd (provider_set_getFeeData p f st))) = length (heap st)
  /\ forall h, h <> p ->
       heap (snd (provider_set_getFeeData p f st)) !! h = heap st !! h.
Proof.
  unfold provider_set_getFeeData, modify. simpl.
  destruct (heap st !! p) as [obj|]; [|done]. simpl.
  split; [by rewrite length_insert|].
  intros h Hne. by rewrite list_lookup_insert_ne.
Qed.

Lemma provider_set_getFeeData_forces p price st :
  is_Some (heap st !! p) ->
  forced p price (snd (provider_set_getFeeData p (FeeForced price) st)).
Proof.
  intros [obj Hobj]. unfold provider_set_getFeeData, modify, forced. simpl.
  rewrite Hobj. simpl.
  exists (mkProvider (connection_url obj) (network_chainId obj)
            (FeeForced price)).
  split; [|reflexivity].
  apply list_lookup_insert_eq. by eapply lookup_lt_Some.
Qed.

(** What follows the assignment in [createSDK_to_setSigner] keeps the
    store. *)
Lemma createSDK_to_setSigner_after call networkId provider feeData st :
  same_store
    (snd (provider_set_getFeeData provider (FeeForced (gasPrice feeData)) st))
    (snd (createSDK_to_setSigner call networkId provider feeData st)).
Proof.
  unfold createSDK_to_setSigner.
  set (st1 := snd (provider_set_getFeeData provider _ st)).
  pose proof (new_BitlySDK_store networkId provider st1) as Hnew.
  destruct (fst (new_BitlySDK networkId provider st1)) as [sdk|t]; [|done].
  destruct (new_Wallet _ _) as [signer|error]; [|done].
  eapply same_store_trans; [exact Hnew|].
  apply suspend_store, setSigner_store.
Qed.

(** A step that is not a reconfiguration leaves [globalConfig] and
    [PROVIDERS] as they are and creates no provider object. *)
Lemma step_config thread st :
  (forall url, thread <> Ready (Call_configure_from_url url)) ->
  same_config st (snd (step thread st))
  /\ length (heap (snd (step thread st))) = length (heap st).
Proof.
  intros Hother.
  assert (forall st', same_store st st' ->
            same_config st st' /\ length (heap st') = length (heap st))
    as Hstore.
  { intros st' (Hc & Hp & Hh). split; [done|by rewrite Hh]. }
  destruct thread as [call|call n p [fd|t]|call n [sdk|t]|call n [sdk|t]
                     |call [sdk|t]|call sdk [info|t]|pairId sdk info
                     |info [[]|t]|result];
    try (by apply Hstore).
  - destruct (tool_networkId call) as [n|] eqn:Hid.
    + rewrite (step_Ready call n st Hid).
      apply Hstore, createSDK_to_getFeeData_store.
    + destruct call; try discriminate Hid. by destruct (Hother url).
  - cbn [step].
    pose proof (createSDK_to_setSigner_after call n p fd st)
      as (Hc & Hp & Hh).
    pose proof (provider_set_getFeeData_config p
                  (FeeForced (gasPrice fd)) st) as (Hc1 & Hp1).
    pose proof (provider_set_getFeeData_heap p
                  (FeeForced (gasPrice fd)) st) as (Hlen & _).
    split; [split; congruence|]. by rewrite Hh.
  - apply Hstore. cbn [step]. apply suspend_store, setProvider_store.
  - cbn [step]. destruct (tool_delegate call) as [c|]; [|by apply Hstore].
    apply Hstore, suspend_store, delegate_store.
  - apply Hstore. cbn [step].
    destruct call; try done; apply suspend_store, setTimeout_store.
Qed.

(** A step that neither reconfigures nor installs an accessor keeps the
    store. *)
Lemma step_same_store thread st :
  (forall url, thread <> Ready (Call_configure_from_url url)) ->
  (forall call n p feeData,
     thread <> AwaitFeeData call n p (Normal feeData)) ->
  same_store st (snd (step thread st)).
Proof.
  intros Hother Hinstall.
  destruct thread as [call|call n p [fd|t]|call n [sdk|t]|call n [sdk|t]
                     |call [sdk|t]|call sdk [info|t]|pairId sdk info
                     |info [[]|t]|result];
    try done.
  - destruct (tool_networkId call) as [n|] eqn:Hid.
    + rewrite (step_Ready call n st Hid).
      apply createSDK_to_getFeeData_store.
    + destruct call; try discriminate Hid. by destruct (Hother url).
  - by destruct (Hinstall call n p fd).
  - cbn [step]. apply suspend_store, setProvider_store.
  - cbn [step]. destruct (tool_delegate call) as [c|]; [|done].
    apply suspend_store, delegate_store.
  - cbn [step].
    destruct call; try done; apply suspend_store, setTimeout_store.
Qed.

Lemma same_store_forced st st' h price :
  same_store st st' -> forced h price st -> forced h price st'.
Proof. intros (_ & _ & Hh) (obj & Hobj & Hfee). exists obj. by rewrite Hh. Qed.

(** A step keeps a forced accessor, or replaces its price by the one the
    resuming invocation holds from its own fee query. *)
Lemma step_forced h price thread st :
  forced h price st ->
  forced h price (snd (step thread st))
  \/ exists price',
       captured h thread = Some price'
       /\ forced h price' (snd (step thread st)).
Proof.
  intros Hforced.
  destruct (reconfigures_or_not thread) as [[url ->]|Hother].
  { left. rewrite step_configure. cbn [snd].
    rewrite configure_from_url_state.
    by apply (updateConfigFromURL_evolves url st). }
  assert ((exists call n p feeData,
             thread = AwaitFeeData call n p (Normal feeData))
          \/ (forall call n p feeData,
                thread <> AwaitFeeData call n p (Normal feeData)))
    as [(call & n & p & fd & ->)|Hinstall].
  { destruct thread as [|call n p [fd|t]| | | | | | |];
      first [left; by eexists _, _, _, _ | right; discriminate]. }
  - cbn [step captured].
    destruct (Nat.eqb_spec p h) as [->|Hne].
    + right. exists (gasPrice fd). split; [done|].
      eapply same_store_forced; [apply createSDK_to_setSigner_after|].
      apply provider_set_getFeeData_forces.
      destruct Hforced as (obj & Hobj & _). by exists obj.
    + left.
      eapply same_store_forced; [apply createSDK_to_setSigner_after|].
      destruct Hforced as (obj & Hobj & Hfee). exists obj. split; [|done].
      rewrite <- Hobj.
      apply (proj2 (provider_set_getFeeData_heap p _ st)). congruence.
  - left. eapply same_store_forced; [|exact Hforced].
    by apply step_same_store.
Qed.

(** An invocation that reaches its fee query on a forced provider object
    is answered the forced price. *)
Lemma step_captured h price thread st price' :
  forced h price st ->
  captured h (fst (step thread st)) = Some price' ->
  price' = price.
Proof.
  intros Hforced.
  destruct thread as [call|call n p [fd|t]|call n [sdk|t]|call n [sdk|t]
                     |call [sdk|t]|call sdk [info|t]|pairId sdk info
                     |info [[]|t]|result];
    try discriminate.
  - destruct (tool_networkId call) as [n|] eqn:Hid.
    + rewrite (step_Ready call n st Hid). unfold createSDK_to_getFeeData.
      destruct (_ || _); [discriminate|].
      destruct (PROVIDERS st !! n) as [p|]; [|discriminate].
      unfold suspend. cbn [fst captured].
      destruct (provider_getFeeData p st) as [[fd|t] st1] eqn:Hquery;
        [|discriminate].
      cbn [fst]. destruct (Nat.eqb_spec p h) as [->|Hne]; [|discriminate].
      rewrite (forced_getFeeData h price st Hforced) in Hquery.
      injection Hquery as <- _. cbn. congruence.
    + unfold step. rewrite Hid. destruct call; discriminate.
  - cbn [step]. unfold createSDK_to_setSigner.
    destruct (fst (new_BitlySDK _ _ _)); [|discriminate].
    destruct (new_Wallet _ _); discriminate.
  - cbn [step]. destruct (tool_delegate call); discriminate.
  - cbn [step]. destruct call; discriminate.
Qed.

Lemma calls_without h :
  (forall n p, effect (without (is_fee_query h)) (new_BitlySDK n p))
  /\ (forall sdk signer,
        effect (without (is_fee_query h)) (setSigner sdk signer))
  /\ (forall sdk p, effect (without (is_fee_query h)) (setProvider sdk p))
  /\ (forall sdk c, effect (without (is_fee_query h)) (delegate sdk c))
  /\ (forall ms, effect (without (is_fee_query h)) (setTimeout ms))
  /\ (forall sdk pairId,
        effect (without (is_fee_query h)) (updateKline sdk pairId)).
Proof.
  repeat split; intros;
    unfold new_BitlySDK, setSigner, setProvider, delegate, setTimeout,
      updateKline;
    without_steps.
Qed.

(** No step sends a fee query to the network through a provider object
    whose accessor is forced. *)
Lemma step_without h thread st :
  (exists price, forced h price st) ->
  without (is_fee_query h) st (snd (step thread st)).
Proof.
  intros Hforced.
  destruct (calls_without h)
    as (Hnew & HsetSigner & HsetProvider & Hdelegate & Htimer & Hkline).
  destruct thread as [call|call n p [fd|t]|call n [sdk|t]|call n [sdk|t]
                     |call [sdk|t]|call sdk [info|t]|pairId sdk info
                     |info [[]|t]|result];
    try apply without_refl.
  - destruct (tool_networkId call) as [n|] eqn:Hid.
    + rewrite (step_Ready call n st Hid). unfold createSDK_to_getFeeData.
      destruct (_ || _); [apply without_refl|].
      destruct (PROVIDERS st !! n) as [p|]; [|apply without_refl].
      by apply provider_getFeeData_spares.
    + unfold step. rewrite Hid.
      destruct call; try apply without_refl.
      apply without_same_trace. unfold suspend. cbn [snd].
      rewrite configure_from_url_state. apply updateConfigFromURL_trace.
  - cbn [step]. unfold createSDK_to_setSigner.
    pose proof (provider_set_getFeeData_without (is_fee_query h) p
                  (FeeForced (gasPrice fd)) st) as H1.
    pose proof (Hnew n p (snd (provider_set_getFeeData p
                                 (FeeForced (gasPrice fd)) st))) as H2.
    destruct (fst (new_BitlySDK n p _)) as [sdk|t];
      [|by eapply without_trans].
    destruct (new_Wallet _ _) as [signer|error];
      [|by eapply without_trans].
    eapply without_trans; [exact H1|]. eapply without_trans; [exact H2|].
    apply HsetSigner.
  - cbn [step]. apply HsetProvider.
  - cbn [step]. destruct (tool_delegate call) as [c|]; [|apply without_refl].
    apply Hdelegate.
  - cbn [step]. destruct call; try apply without_refl; apply Htimer.
  - cbn [step]. apply Hkline.
Qed.

End Steps.

Section Servers.
Import Async.
Context {platform : Platform} {world : World}.

Lemma elem_of_insert_thread (l : list Thread) i x t :
  t ∈ <[i := x]> l -> t = x \/ t ∈ l.
Proof.
  revert i. induction l as [|y l IH]; intros i; simpl; [by right|].
  destruct i as [|i]; simpl.
  - intros [->|?]%elem_of_cons; [by left|right; by right].
  - intros [->|Hin]%elem_of_cons; [right; by left|].
    destruct (IH i Hin) as [->|?]; [by left|right; by right].
Qed.

(** A property of the server that every step of an invocation, started or
    resumed, and every fee query from outside keep, is kept by every
    move. *)
Lemma tick_keeps (P : Server -> Prop) move s :
  (forall thread new_threads,
     thread ∈ threads s \/ (exists call, thread = Ready call) ->
     (forall t, t ∈ new_threads ->
        t ∈ threads s \/ t = fst (step thread (store s))) ->
     P (mkServer (snd (step thread (store s))) new_threads)) ->
  (forall h, P (mkServer (snd (provider_getFeeData h (store s))) (threads s))) ->
  P s ->
  P (tick move s).
Proof.
  intros Hstep Hask Hs. destruct move as [call|i|h]; unfold tick.
  - apply (Hstep (Ready call)); [right; by eexists|].
    intros t [?|Ht%list_elem_of_singleton]%elem_of_app;
      [by left|right; by subst].
  - destruct (threads s !! i) as [thread|] eqn:Hi; [|done].
    apply (Hstep thread); [left; by eapply list_elem_of_lookup_2|].
    intros t [->|?]%elem_of_insert_thread; [by right|by left].
  - apply Hask.
Qed.

Lemma run_keeps (P : Server -> Prop) moves :
  (forall move s, P s -> P (tick move s)) ->
  forall s, P s -> P (run moves s).
Proof.
  intros Htick. induction moves as [|move rest IH]; intros s Hs; [done|].
  simpl. apply IH, Htick, Hs.
Qed.

(** The prices a forced accessor of [h] can come to hold from the server
    [s] on: the one it holds, and those that invocations suspended at their
    fee query on [h] hold. *)
Lemma forced_prices_are_kept h price s0 move s :
  let possible price' :=
    price' = price
    \/ exists thread, thread ∈ threads s0 /\ captured h thread = Some price' in
  (exists price', possible price' /\ forced h price' (store s))
  /\ (forall thread price',
        thread ∈ threads s -> captured h thread = Some price' ->
        possible price') ->
  (exists price', possible price' /\ forced h price' (store (tick move s)))
  /\ (forall thread price',
        thread ∈ threads (tick move s) -> captured h thread = Some price' ->
        possible price').
Proof.
  intros possible Hs.
  apply (tick_keeps (fun s =>
    (exists price', possible price' /\ forced h price' (store s))
    /\ (forall thread price',
          thread ∈ threads s -> captured h thread = Some price' ->
          possible price'))); [| |exact Hs].
  - destruct Hs as ((current & Hpossible & Hforced) & Hthreads).
    intros thread new_threads Hthread Hnew. cbn [store threads]. split.
    + destruct (step_forced h current thread (store s) Hforced)
        as [Hkept|(price' & Hcaptured & Hnew_price)].
      * by exists current.
      * exists price'. split; [|done].
        destruct Hthread as [Hin|[call ->]]; [|discriminate Hcaptured].
        by apply (Hthreads thread).
    + intros t price' Ht Hcaptured.
      destruct (Hnew t Ht) as [Hin | ->]; [by apply (Hthreads t)|].
      by rewrite (step_captured h current thread (store s) price' Hforced
                    Hcaptured).
  - destruct Hs as ((current & Hpossible & Hforced) & Hthreads).
    intros p. cbn [store threads]. split; [|done].
    exists current. split; [done|].
    eapply same_store_forced; [apply provider_getFeeData_store|done].
Qed.

End Servers.

Section Conversion.

(** Induction on a JSON value through the elements of its arrays. *)
Lemma JSValue_array_ind (P : JSValue -> Prop) :
  P JNull -> (forall b, P (JBool b)) -> (forall n, P (JNumber n)) ->
  (forall s, P (JString s)) ->
  (forall xs, Forall P xs -> P (JArray xs)) ->
  (forall ms, P (JObject ms)) ->
  forall v, P v.
Proof.
  intros Hnull Hbool Hnumber Hstring Harray Hobject.
  exact (fix IH (v : JSValue) : P v :=
    match v with
    | JNull => Hnull
    | JBool b => Hbool b
    | JNumber n => Hnumber n
    | JString s => Hstring s
    | JArray xs =>
        Harray xs
          ((fix elements (xs : list JSValue) : Forall P xs :=
              match xs with
              | [] => @List.Forall_nil _ P
              | x :: rest =>
                  @List.Forall_cons _ P x rest (IH x) (elements rest)
              end) xs)
    | JObject ms => Hobject ms
    end).
Qed.

(** ToString returns a text exactly for the values whose arrays nest no
    deeper than the room on the stack and hold no object that hides
    [toString]. *)
Lemma ToString_converts Number_toString (v : JSValue) : forall room,
  (exists text, ToString Number_toString room v = Normal text)
  <-> (array_depth v <= room)%N /\ hides_toString v = false.
Proof.
  induction v as [|b|n|s|xs IH|ms] using JSValue_array_ind; intros room.
  - simpl. split; [intros _; split; [lia|done]|by eexists].
  - destruct b; simpl; (split; [intros _; split; [lia|done]|by eexists]).
  - simpl. split; [intros _; split; [lia|done]|by eexists].
  - simpl. split; [intros _; split; [lia|done]|by eexists].
  - cbn [ToString array_depth hides_toString].
    destruct (N.eqb_spec room 0) as [->|Hroom].
    { split; [by intros [text ?]|]. intros [Hdepth _]. lia. }
    set (elements :=
      fix elements (xs : list JSValue) : Completion (list string) :=
        match xs with
        | [] => Normal []
        | x :: rest =>
            match (match x with
                   | JNull => Normal EmptyString
                   | _ => ToString Number_toString (N.pred room) x
                   end) with
            | Throw t => Throw t
            | Normal s =>
                match elements rest with
                | Throw t => Throw t
                | Normal ss => Normal (s :: ss)
                end
            end
        end).
    set (deepest :=
      fix deepest (xs : list JSValue) : N :=
        match xs with
        | [] => 0%N
        | x :: rest => N.max (array_depth x) (deepest rest)
        end).
    set (any :=
      fix any (xs : list JSValue) : bool :=
        match xs with
        | [] => false
        | x :: rest => hides_toString x || any rest
        end).
    assert ((exists parts, elements xs = Normal parts)
            <-> (deepest xs <= N.pred room)%N /\ any xs = false) as Helements.
    { induction IH as [|x rest Hx Hrest IHrest]; simpl.
      - split; [intros _; split; [lia|done]|by eexists].
      - assert ((exists s,
                   match x with
                   | JNull => Normal EmptyString
                   | _ => ToString Number_toString (N.pred room) x
                   end = Normal s)
                <-> (array_depth x <= N.pred room)%N
                    /\ hides_toString x = false) as Hhead.
        { destruct x; try apply Hx.
          simpl. split; [intros _; split; [lia|done]|by eexists]. }
        rewrite orb_false_iff, N.max_lub_iff.
        destruct (match x with
                  | JNull => Normal EmptyString
                  | _ => ToString Number_toString (N.pred room) x
                  end) as [s|t].
        + destruct (elements rest) as [ss|t].
          * split; [|by eexists]. intros _.
            destruct (proj1 Hhead) as [? ?]; [by eexists|].
            destruct (proj1 IHrest) as [? ?]; [by eexists|]. done.
          * split; [by intros [? ?]|]. intros [[_ Hd] [_ Ha]].
            by destruct (proj2 IHrest (conj Hd Ha)).
        + split; [by intros [? ?]|]. intros [[Hd _] [Ha _]].
          by destruct (proj2 Hhead (conj Hd Ha)). }
    destruct (elements xs) as [parts|t].
    + split; [|by eexists]. intros _.
      destruct (proj1 Helements) as [Hd Ha]; [by eexists|].
      split; [lia|done].
    + split; [by intros [? ?]|]. intros [Hd Ha].
      destruct (proj2 Helements) as [parts ?]; [|done].
      split; [lia|done].
  - simpl. destruct (has_member "toString" ms).
    + split; [by intros [? ?]|]. by intros [_ ?].
    + split; [intros _; split; [lia|done]|by eexists].
Qed.

Lemma key_text_converts {platform : Platform} (config : Config)
    (key : JSValue) :
  INFURA_API_KEY config = Some key ->
  key_text config <> None
  <-> (array_depth key <= join_depth)%N /\ hides_toString key = false.
Proof.
  intros Hkey. unfold key_text. rewrite Hkey.
  rewrite <- (ToString_converts Number_toString key join_depth).
  destruct (ToString Number_toString join_depth key) as [text|t].
  - split; [by eexists|done].
  - split; [done|by intros [? ?]].
Qed.

(** An array nested deeper than the stack has room for is a truthy key,
    which [parseConfigFromURL] lets through, and has no text: the build
    throws a [RangeError]. *)
Lemma nested_array_overflows {platform : Platform} (n : nat)
    (wallet_key : option JSValue) :
  (join_depth < N.of_nat (S n))%N ->
  truthy (Some (nested n)) = true
  /\ key_text (mkConfig wallet_key (Some (nested n))) = None.
Proof.
  assert (array_depth (nested n) = N.of_nat (S n)) as Hdepth.
  { induction n as [|n IH]; [reflexivity|].
    change (array_depth (nested (S n)))
      with (1 + N.max (array_depth (nested n)) 0)%N.
    rewrite IH, N.max_0_r. lia. }
  intros Hdeep. split; [by destruct n|].
  destruct (key_text (mkConfig wallet_key (Some (nested n)))) as [text|]
    eqn:Hkey; [|done].
  assert (key_text (mkConfig wallet_key (Some (nested n))) <> None) as Hsome
    by (by rewrite Hkey).
  apply (key_text_converts (mkConfig wallet_key (Some (nested n)))
           (nested n) eq_refl) in Hsome as [Hroom _].
  lia.
Qed.

End Conversion.

Ltac advance := rewrite Nat.iter_succ_r; cbn [fst snd Async.step].
Ltac settle := repeat advance; reflexivity.

Section Alone.
Import Async.
Context {platform : Platform} {world : World}.

(** The first five steps of an invocation are its session. *)
Lemma steps_of_session call networkId st :
  tool_networkId call = Some networkId ->
  Nat.iter 5 (fun r => step (fst r) (snd r)) (Ready call, st)
  = match session networkId st with
    | (Normal sdk, st1) => step (AwaitSetProvider call (Normal sdk)) st1
    | (Throw t, st1) => (Finished (Throw t), st1)
    end.
Proof.
  intros Hid. rewrite Nat.iter_succ_r. cbn [fst snd].
  rewrite (step_Ready call networkId st Hid).
  unfold createSDK_to_getFeeData, session, createSDK.
  unfold bind at 1 2. unfold get at 1. cbn [fst snd].
  destruct (_ || _); [settle|].
  destruct (PROVIDERS st !! networkId) as [p|] eqn:Hp; [|settle].
  unfold suspend at 1. unfold bind at 1.
  destruct (provider_getFeeData p st) as [[fd|t] st1] eqn:Hquery;
    cbn [fst snd]; [|settle].
  advance.
  unfold createSDK_to_setSigner.
  destruct (provider_set_getFeeData p (FeeForced (gasPrice fd)) st1)
    as [[[]|t] st2] eqn:Hset;
    [|unfold provider_set_getFeeData, modify in Hset; discriminate Hset].
  unfold new_BitlySDK, try_catch.
  unfold bind, modify, ret, get, lift, throw.
  rewrite Hset.
  cbn [fst snd globalConfig PROVIDERS add_event].
  destruct (new_Wallet _ _) as [signer|error]; [|settle].
  unfold suspend at 1.
  destruct (setSigner _ signer _) as [[sdk|error] st3]; cbn [fst snd];
    [|settle].
  advance. advance. unfold suspend at 1.
  destruct (setProvider sdk _ st3) as [[sdk'|t] st4]; cbn [fst snd];
    settle.
Qed.

(** An invocation that runs alone does what [execute] does. *)
Lemma steps_of_execute call st :
  Nat.iter 8 (fun r => step (fst r) (snd r)) (Ready call, st)
  = (Finished (fst (execute call st)), snd (execute call st)).
Proof.
  destruct (execute call st) as [result st'] eqn:Hexecute. cbn [fst snd].
  revert Hexecute.
  destruct (tool_networkId call) as [networkId|] eqn:Hid.
  - replace 8%nat with (3 + 5)%nat by reflexivity.
    rewrite Nat.iter_add, (steps_of_session call networkId st Hid).
    destruct (session networkId st) as [[sdk|t] st1] eqn:Hsession.
    + destruct call; cbn [tool_networkId] in Hid; simplify_eq;
        cbn [execute step tool_delegate]; unfold_tool;
        unfold bind at 1; rewrite Hsession;
        unfold suspend, delegate, updateKline, setTimeout, bind, get, modify,
          lift, ret;
        cbn [fst snd trace add_event];
        destruct (sdk_delegate _ _ _) as [info|t];
        repeat (advance; unfold suspend, updateKline, setTimeout, bind, get,
                  modify, lift, ret; cbn [fst snd trace add_event]);
        try (destruct (sdk_updateKline _ _ _) as [[]|t']);
        intros [= <- <-]; reflexivity.
    + rewrite (execute_when_session_throws call networkId st t st1 Hid
                 Hsession).
      intros [= <- <-]. settle.
  - destruct call; try discriminate Hid. cbn [execute].
    intros Hexecute.
    rewrite Nat.iter_succ_r. cbn [fst snd step tool_networkId].
    unfold suspend. rewrite Hexecute. settle.
Qed.

(** Resuming the last invocation of the server [k] times. *)
Lemma run_resume_last k : forall st l thread,
  run (replicate k (Resume (length l))) (mkServer st (l ++ [thread]))
  = mkServer
      (snd (Nat.iter k (fun r => step (fst r) (snd r)) (thread, st)))
      (l ++ [fst (Nat.iter k (fun r => step (fst r) (snd r)) (thread, st))]).
Proof.
  induction k as [|k IH]; intros st l thread; [reflexivity|].
  rewrite Nat.iter_succ_r. cbn [replicate run foldl]. unfold tick at 2.
  cbn [threads store].
  rewrite lookup_app_r, Nat.sub_diag by lia.
  replace ([thread] !! 0%nat) with (Some thread) by reflexivity.
  rewrite insert_app_r_alt, Nat.sub_diag by lia.
  replace (<[0%nat:=fst (step thread st)]> [thread])
    with [fst (step thread st)] by reflexivity.
  cbn [fst snd].
  rewrite (surjective_pairing (step thread st)) at 3 4.
  apply (IH (snd (step thread st)) l (fst (step thread st))).
Qed.

(** An invocation that runs from its start to its end with nothing in
    between does to the server what [execute] does. *)
Lemma alone_is_execute call s :
  run (alone call (length (threads s))) s
  = mkServer (snd (execute call (store s)))
      (threads s ++ [Finished (fst (execute call (store s)))]).
Proof.
  unfold alone. cbn [run foldl]. unfold tick at 2.
  pose proof (run_resume_last 7 (snd (step (Ready call) (store s)))
                (threads s) (fst (step (Ready call) (store s)))) as Hrun.
  unfold run in Hrun. rewrite Hrun.
  rewrite <- surjective_pairing.
  pose proof (steps_of_execute call (store s)) as Hsteps.
  rewrite Nat.iter_succ_r in Hsteps. cbn [fst snd] in Hsteps.
  by rewrite Hsteps.
Qed.

End Alone.

Section Overlapping.
Import Async.
Context {platform : Platform} {world : World}.

Lemma registry_invariant_same st st' :
  same_config st st' -> length (heap st') = length (heap st) ->
  registry_invariant st -> registry_invariant st'.
Proof.
  intros (Hc & Hp) Hlen (Hheap & Hshape & Hfull).
  unfold registry_invariant, registry_in_heap, configured.
  rewrite Hc, Hp, Hlen. done.
Qed.

(** A step never removes a provider object. *)
Lemma step_heap thread st h :
  is_Some (heap st !! h) -> is_Some (heap (snd (step thread st)) !! h).
Proof.
  rewrite !lookup_lt_is_Some. intros Hlt.
  destruct (reconfigures_or_not thread) as [[url ->]|Hother].
  - rewrite step_configure. cbn [snd]. rewrite configure_from_url_state.
    pose proof (proj1 (updateConfigFromURL_evolves url st)). lia.
  - destruct (step_config thread st Hother) as [_ Hlen]. lia.
Qed.

(** An invocation gets to hold the answer of a fee query only from a
    provider object. *)
Lemma step_holds_provider thread st call n h feeData :
  fst (step thread st) = AwaitFeeData call n h (Normal feeData) ->
  (forall call n h feeData,
     thread <> AwaitFeeData call n h (Normal feeData)) ->
  is_Some (heap st !! h).
Proof.
  intros Hstep Hthread.
  destruct thread as [call0|call0 n0 p [fd|t]|call0 n0 [sdk|t]
                     |call0 n0 [sdk|t]|call0 [sdk|t]|call0 sdk [info|t]
                     |pairId sdk info|info [[]|t]|result];
    try discriminate Hstep.
  - destruct (tool_networkId call0) as [n0|] eqn:Hid.
    + rewrite (step_Ready call0 n0 st Hid) in Hstep.
      unfold createSDK_to_getFeeData in Hstep.
      destruct (_ || _); [discriminate|].
      destruct (PROVIDERS st !! n0) as [p|]; [|discriminate].
      unfold suspend in Hstep. cbn [fst] in Hstep.
      injection Hstep as _ _ -> Hanswer.
      unfold provider_getFeeData, bind, get in Hanswer. cbn in Hanswer.
      destruct (heap st !! h) as [obj|]; [by eexists|discriminate].
    + unfold step in Hstep. rewrite Hid in Hstep.
      destruct call0; discriminate.
  - by destruct (Hthread call0 n0 p fd).
  - cbn [step] in Hstep. destruct (tool_delegate call0); discriminate.
  - cbn [step] in Hstep. destruct call0; discriminate.
Qed.

Lemma overlap_invariant_tick move s :
  overlap_invariant s -> overlap_invariant (tick move s).
Proof.
  intros Hs. apply (tick_keeps overlap_invariant); [| |exact Hs].
  - destruct Hs as [Hregistry Hthreads].
    intros thread new_threads Hthread Hnew. split; cbn [store threads].
    + destruct (reconfigures_or_not thread) as [[url ->]|Hother].
      * rewrite step_configure. cbn [snd]. rewrite configure_from_url_state.
        by apply registry_invariant_update.
      * destruct (step_config thread (store s) Hother) as [Hconfig Hlen].
        by apply (registry_invariant_same (store s)).
    + intros t call n h fd Ht ->.
      destruct (Hnew _ Ht) as [Hin|Hstep].
      * apply step_heap. by eapply Hthreads.
      * apply step_heap.
        apply (step_holds_provider thread (store s) call n h fd);
          [by symmetry|].
        intros call0 n0 p fd0 ->. cbn [step] in Hstep.
        unfold createSDK_to_setSigner in Hstep.
        destruct (fst (new_BitlySDK _ _ _)); [|discriminate].
        destruct (new_Wallet _ _); discriminate.
  - destruct Hs as [Hregistry Hthreads].
    intros p. pose proof (provider_getFeeData_store p (store s))
      as (Hc & Hp & Hh).
    split; cbn [store threads].
    + apply (registry_invariant_same (store s)); [done|by rewrite Hh|done].
    + intros t call n h fd Ht ->. rewrite Hh. by eapply Hthreads.
Qed.

Lemma overlap_invariant_reachable s : reachable s -> overlap_invariant s.
Proof.
  intros (env & moves & ->).
  apply run_keeps; [apply overlap_invariant_tick|].
  split; [apply registry_invariant_startup|].
  intros thread call n h fd Hin. by apply elem_of_nil in Hin.
Qed.

(** C5, as the code has it. On a provider object whose fee accessor
    [createSDK] has replaced, every later call of [getFeeData], after any
    moves of overlapping invocations, reconfigurations and other fee
    queries, is answered by the installed accessor: [lastBaseFeePerGas],
    [maxFeePerGas] and [maxPriorityFeePerGas] null, and the gas price of
    the latest assignment. That price is the one held before, or one that
    an invocation suspended at [await provider.getFeeData()] on this
    object holds from its own query; with no such invocation holding
    another price, it is the price held before, for ever. An invocation
    that resumes from its fee query assigns the price of its own answer. *)
Theorem override_outlives_overlapping_sessions (s : Server) :
  reachable s ->
  (forall i call networkId h feeData,
     threads s !! i = Some (AwaitFeeData call networkId h (Normal feeData)) ->
     forced h (gasPrice feeData) (store (tick (Resume i) s)))
  /\ (forall h price moves,
        forced h price (store s) ->
        exists price',
          provider_getFeeData h (store (run moves s))
          = (Normal (mkFeeData None None None price'), store (run moves s))
          /\ forced h price' (store (run moves s))
          /\ (price' = price
              \/ exists thread,
                   thread ∈ threads s /\ captured h thread = Some price'))
  /\ (forall h price moves,
        forced h price (store s) ->
        (forall thread price',
           thread ∈ threads s -> captured h thread = Some price' ->
           price' = price) ->
        forced h price (store (run moves s))).
Proof.
  intros Hreach.
  assert (forall h price moves,
    forced h price (store s) ->
    exists price',
      forced h price' (store (run moves s))
      /\ (price' = price
          \/ exists thread,
               thread ∈ threads s /\ captured h thread = Some price'))
    as Hkept.
  { intros h price moves Hforced.
    pose proof (run_keeps
      (fun s' =>
         (exists price',
            (price' = price
             \/ exists thread,
                  thread ∈ threads s /\ captured h thread = Some price')
            /\ forced h price' (store s'))
         /\ (forall thread price',
               thread ∈ threads s' -> captured h thread = Some price' ->
               price' = price
               \/ exists thread,
                    thread ∈ threads s /\ captured h thread = Some price'))
      moves) as Hrun.
    destruct (Hrun (fun move s' => forced_prices_are_kept h price s move s')
                s) as ((price' & Hpossible & Hnow) & _).
    { split; [exists price; by split; [left|]|].
      intros thread price' Hin Hcaptured. right. by exists thread. }
    by exists price'. }
  split; [|split].
  - intros i call n h fd Hi. unfold tick. rewrite Hi. cbn [store step].
    eapply same_store_forced; [apply createSDK_to_setSigner_after|].
    apply provider_set_getFeeData_forces.
    destruct (overlap_invariant_reachable s Hreach) as [_ Hthreads].
    eapply Hthreads; [by eapply list_elem_of_lookup_2|done].
  - intros h price moves Hforced.
    destruct (Hkept h price moves Hforced) as (price' & Hnow & Hpossible).
    exists price'. split; [by apply forced_getFeeData|by split].
  - intros h price moves Hforced Hnone.
    destruct (Hkept h price moves Hforced)
      as (price' & Hnow & [->|(thread & Hin & Hcaptured)]); [done|].
    by rewrite <- (Hnone thread price' Hin Hcaptured).
Qed.

(** X7. Once the fee accessor of a provider object is replaced, no fee query
    is sent to the network through that object again, whatever invocations
    start, resume and overlap afterwards, reconfigurations included: the
    object keeps a forced accessor, which answers without asking the
    network. *)
Theorem forced_provider_is_not_queried_again (s : Server) (h : handle)
    (price : option Z) (moves : list Move) :
  forced h price (store s) ->
  without (is_fee_query h) (store s) (store (run moves s))
  /\ exists price', forced h price' (store (run moves s)).
Proof.
  intros Hforced.
  apply (run_keeps (fun s' =>
    without (is_fee_query h) (store s) (store s')
    /\ exists price', forced h price' (store s')));
    [|split; [apply without_refl|by exists price]].
  intros move s' [Hwithout [current Hcurrent]].
  apply (tick_keeps (fun s'' =>
    without (is_fee_query h) (store s) (store s'')
    /\ exists price', forced h price' (store s''))); [| |by split; [|eexists]].
  - intros thread new_threads _ _. cbn [store]. split.
    + eapply without_trans; [exact Hwithout|].
      apply step_without. by exists current.
    + destruct (step_forced h current thread (store s') Hcurrent)
        as [?|(price' & _ & ?)]; by eexists.
  - intros p. cbn [store]. split.
    + eapply without_trans; [exact Hwithout|].
      apply provider_getFeeData_spares. by exists current.
    + exists current.
      eapply same_store_forced; [apply provider_getFeeData_store|done].
Qed.

(** C10, as the code has it. In every state of a running server, its
    invocations overlapping, the registry is empty or holds exactly the
    four network ids; and it holds them whenever both fields of
    [globalConfig] are set and the API key has a text, that is the string
    conversion of the endpoint templates does not throw on it. The
    conversion throws exactly on an object with a member named [toString],
    on an array that holds a value on which it throws, and on arrays nested
    deeper than the call stack has room for. *)
Theorem registry_complete_when_key_has_text (s : Server) :
  reachable s ->
  (PROVIDERS (store s) = ∅ \/ dom (PROVIDERS (store s)) = network_ids)
  /\ (configured (store s) = true ->
      key_text (globalConfig (store s)) <> None ->
      dom (PROVIDERS (store s)) = network_ids)
  /\ (forall key,
        INFURA_API_KEY (globalConfig (store s)) = Some key ->
        key_text (globalConfig (store s)) <> None
        <-> (array_depth key <= join_depth)%N
            /\ hides_toString key = false).
Proof.
  intros Hreach.
  destruct (overlap_invariant_reachable s Hreach) as [(_ & ? & ?) _].
  split; [done|]. split; [done|]. apply key_text_converts.
Qed.

End Overlapping.

Section OneByOne.
Import Async.
Context {platform : Platform} {world : World}.

Lemma run_app moves more s : run (moves ++ more) s = run more (run moves s).
Proof. unfold run. apply foldl_app. Qed.

(** A server that runs its invocations one by one is a server whose
    invocations overlap, with moves in which they do not. *)
Lemma one_by_one_is_overlapping st :
  Server.reachable st -> exists done, reachable (mkServer st done).
Proof.
  intros (env & activities & ->).
  assert (forall s, exists moves,
            store (run moves s) = Server.run activities (store s)) as Hmoves.
  { induction activities as [|a rest IH]; intros s; [by exists []|].
    destruct a as [call|h].
    - destruct (IH (run (alone call (length (threads s))) s))
        as [moves Hrest].
      exists (alone call (length (threads s)) ++ moves).
      rewrite run_app, Hrest, alone_is_execute. reflexivity.
    - destruct (IH (tick (Ask h) s)) as [moves Hrest].
      exists (Ask h :: moves). exact Hrest. }
  destruct (Hmoves (started env)) as [moves Hrun].
  exists (threads (run moves (started env))), env, moves.
  change (store (started env)) with (snd (startup env initial_state)) in Hrun.
  rewrite <- Hrun. by destruct (run moves (started env)).
Qed.

End OneByOne.

Section OverlapInstances.
Import Examples Async.
Existing Instance NodeModel.node.
Existing Instance Examples.mock.

(** Witness of C5. On a configured server an invocation of [get_balance]
    is suspended at its fee query, answered 20; when it resumes, provider
    object 0 is forced to 20, and stays so through an order, a
    reconfiguration and a fee query. *)
Lemma override_outlives_overlapping_sessions_witness :
  let s1 :=
    run [Arrive (Call_configure_from_url url_key1);
         Arrive (Call_get_balance 84532 "0xaa")] (started None) in
  let s2 := tick (Resume 1%nat) s1 in
  let later :=
    [Arrive (Call_place_limit_order 84532 "ETH-USDC" BUY one one);
     Resume 2%nat; Arrive (Call_configure_from_url url_key2); Ask 0%nat;
     Resume 1%nat; Resume 2%nat] in
  reachable s1
  /\ threads s1 !! 1%nat
     = Some (AwaitFeeData (Call_get_balance 84532 "0xaa") 84532 0%nat
               (Normal first_fees))
  /\ forced 0%nat (Some 20) (store s2)
  /\ forced 0%nat (Some 20) (store (run later s2)).
Proof.
  intros s1 s2 later.
  assert (reachable s1) as Hs1 by (by eexists None, _).
  assert (reachable s2) as Hs2.
  { exists None,
      [Arrive (Call_configure_from_url url_key1);
       Arrive (Call_get_balance 84532 "0xaa"); Resume 1%nat].
    reflexivity. }
  assert (threads s1 !! 1%nat
          = Some (AwaitFeeData (Call_get_balance 84532 "0xaa") 84532 0%nat
                    (Normal first_fees))) as Hthread
    by (vm_compute; reflexivity).
  assert (forced 0%nat (Some 20) (store s2)) as Hforced
    by exact (proj1 (override_outlives_overlapping_sessions s1 Hs1)
                1%nat _ _ _ _ Hthread).
  split; [exact Hs1|]. split; [exact Hthread|]. split; [exact Hforced|].
  apply (proj2 (proj2 (override_outlives_overlapping_sessions s2 Hs2))
           0%nat (Some 20) later Hforced).
  intros thread price' Hin.
  assert (exists t0 t1, threads s2 = [t0; t1]
                        /\ captured 0%nat t0 = None
                        /\ captured 0%nat t1 = None)
    as (t0 & t1 & Hthreads & H0 & H1)
    by (eexists _, _; vm_compute; repeat split; reflexivity).
  rewrite Hthreads in Hin.
  apply elem_of_cons in Hin as [->|Hin]; [congruence|].
  apply elem_of_cons in Hin as [->|Hin]; [congruence|].
  by apply elem_of_nil in Hin.
Defined.

(** C5 fails as stated when two sessions on one connection overlap. Two
    invocations of [get_balance] both reach their fee query before either
    resumes, so both ask the network: the first is answered 20, the second
    21. When the first resumes, provider object 0 answers 20; when the
    second resumes, its assignment replaces the accessor, and the object
    answers 21 from then on, not the price observed when the first override
    was installed. *)
Lemma overlapping_sessions_replace_the_price :
  let s :=
    run [Arrive (Call_configure_from_url url_key1);
         Arrive (Call_get_balance 84532 "0xaa");
         Arrive (Call_get_balance 84532 "0xbb");
         Resume 1%nat] (started None) in
  provider_getFeeData 0%nat (store s)
  = (Normal (mkFeeData None None None (Some 20)), store s)
  /\ fst (provider_getFeeData 0%nat (store (tick (Resume 2%nat) s)))
     = Normal (mkFeeData None None None (Some 21))
  /\ filter (is_fee_query 0%nat) (trace (store (tick (Resume 2%nat) s)))
     = [EvGetFeeData 0%nat; EvGetFeeData 0%nat]
  /\ fst (provider_getFeeData 0%nat
            (store (run (replicate 5 (Resume 1%nat)
                          ++ replicate 5 (Resume 2%nat))
                      (tick (Resume 2%nat) s))))
     = Normal (mkFeeData None None None (Some 21)).
Proof. vm_compute. repeat split; reflexivity. Qed.

(** X7 after a session on the default network: overlapping orders, a
    reconfiguration and a fee query send no fee query for provider
    object 0. *)
Lemma forced_provider_is_not_queried_again_witness :
  let s :=
    run [Arrive (Call_configure_from_url url_key1);
         Arrive (Call_get_balance 84532 "0xaa"); Resume 1%nat]
      (started None) in
  let moves :=
    [Arrive (Call_place_limit_order 84532 "ETH-USDC" BUY one one);
     Arrive (Call_cancel_all_limit_order 84532 "ETH-USDC");
     Resume 3%nat; Resume 2%nat; Ask 0%nat;
     Arrive (Call_configure_from_url url_key2); Resume 2%nat] in
  forced 0%nat (Some 20) (store s)
  /\ without (is_fee_query 0%nat) (store s) (store (run moves s))
  /\ exists price', forced 0%nat price' (store (run moves s)).
Proof.
  intros s moves.
  assert (forced 0%nat (Some 20) (store s)) as Hforced.
  { exists (mkProvider "https://base-sepolia.infura.io/v3/key1" 84532
              (FeeForced (Some 20))).
    split; vm_compute; reflexivity. }
  split; [exact Hforced|].
  exact (forced_provider_is_not_queried_again s 0%nat (Some 20) moves
           Hforced).
Defined.

(** Witness of C10: a server configured with [key1], an invocation in
    progress. *)
Lemma registry_complete_when_key_has_text_witness :
  let s :=
    run [Arrive (Call_configure_from_url url_key1);
         Arrive (Call_get_balance 84532 "0xaa")] (started None) in
  reachable s
  /\ configured (store s) = true
  /\ key_text (globalConfig (store s)) = Some "key1"
  /\ dom (PROVIDERS (store s)) = network_ids.
Proof.
  intros s.
  assert (reachable s) as Hs by (by eexists None, _).
  assert (configured (store s) = true) as Hset by (vm_compute; reflexivity).
  assert (key_text (globalConfig (store s)) = Some "key1") as Hkey
    by (vm_compute; reflexivity).
  split; [exact Hs|]. split; [exact Hset|]. split; [exact Hkey|].
  apply (proj1 (proj2 (registry_complete_when_key_has_text s Hs)));
    [exact Hset | by rewrite Hkey].
Defined.

(** A key nested as deep as the stack has room for builds the registry; a
    key nested three levels deeper is decoded and assigned, and the
    template literal of [createProviders] throws a [RangeError] on it:
    both fields of [globalConfig] are set and the registry is empty. *)
Example deeply_nested_key_overflows_the_stack :
  let built := after_configure (url_nested_key 1000) in
  let st := after_configure (url_nested_key 1001) in
  INFURA_API_KEY (globalConfig built) = Some (nested 2999)
  /\ dom (PROVIDERS built) = network_ids
  /\ INFURA_API_KEY (globalConfig st) = Some (nested 3002)
  /\ configured st = true
  /\ key_text (globalConfig st) = None
  /\ PROVIDERS st = ∅
  /\ last (console st)
     = Some (console_error "Failed to initialize providers:"
               (ArgText "Maximum call stack size exceeded")).
Proof.
  intros built st. split; [vm_compute; reflexivity|].
  split; [|vm_compute; repeat split; reflexivity].
  apply set_eq. intros id. rewrite elem_of_dom. unfold network_ids.
  rewrite !elem_of_union, !elem_of_singleton.
  assert (PROVIDERS built
          = <[690:=3%nat]> (<[137:=2%nat]> (<[8453:=1%nat]>
              (<[84532:=0%nat]> ∅)))) as -> by (vm_compute; reflexivity).
  rewrite !lookup_insert_is_Some, lookup_empty, is_Some_alt. lia.
Qed.

End OverlapInstances.
